(** * Ecommerce-End-to-End: the model layer, the admin category route and
      the merge of the guest cart

    A shallow embedding of the business logic of the Flask storefront:
    [app/models/product.py], [app/models/cart.py], [app/models/order.py],
    [app/models/user.py], [delete_category] of [app/admin/routes.py] and
    [merge_guest_cart_with_user_cart] of [app/auth/routes.py].

    Conventions of the embedding.
    - A Python method that mutates [self] or the database session and may
      [raise] is a computation in the monad [Py.M S A]: it maps a state to
      an outcome ([Return] or [Raise]) and the state at that point.  A
      [raise] keeps whatever was mutated before it, as in Python.
    - Python [int] is [Z].  Prices and amounts ([Decimal] columns read back
      from the database, [float] once a method has converted them) are an
      abstract type [num] with the operations the code uses, collected in
      the class [Py.PyNum]; [Py.Q_num] instantiates it with exact rationals
      to run examples.  Where the Python type of a number decides what the
      code does, as for the amounts of an order, the number carries it
      ([Py.number]): the arithmetic of [float] and [Decimal] does not mix,
      and a [Numeric(10, 2)] column gives back a [Decimal] at two decimal
      places ([Py.quantize]).
    - [datetime.utcnow()] is an input: an operation receives [clk], where
      [clk k] is the value of the [k]-th call it makes.
    - Table rows are records that keep the columns the modelled methods read
      or write.  Tables looked up by primary key are [gmap Z row]; tables
      that are iterated are lists.  No query of the code has an
      [ORDER BY]; where the order or the choice of a row matters, it is the
      one of SQLite, the database the configuration names: the rows of a
      cart come in the order of the index on [(cart_id, product_id)], and
      the user for an identifier is looked up by username first, by email
      second.  [db.session.add], [delete] and [commit] act on the tables at
      once; of the column defaults that the ORM fills in at insert, only
      the [updated_at] of a cart created at login is modelled. *)

From Stdlib Require Import ZArith QArith Lia Ascii.
From stdpp Require Import base option list gmap strings pretty.

Close Scope Q_scope.
Local Open Scope Z_scope.

(* ===================================================================== *)
(** * Python runtime *)
(* ===================================================================== *)

Module Py.

(** The exceptions the modelled code raises, with their message. *)
Inductive exn :=
| ValueError (msg : string)
| AttributeError (msg : string)
| TypeError (msg : string).

Inductive outcome (A : Type) :=
| Return (a : A)
| Raise (e : exn).
Arguments Return {A} a.
Arguments Raise {A} e.

(** Stateful computations that may raise. *)
Definition M (S A : Type) : Type := S -> outcome A * S.

Definition ret {S A} (a : A) : M S A := fun s => (Return a, s).

Definition raise {S A} (e : exn) : M S A := fun s => (Raise e, s).

Definition bind {S A B} (m : M S A) (k : A -> M S B) : M S B :=
  fun s =>
    match m s with
    | (Return a, s') => k a s'
    | (Raise e, s') => (Raise e, s')
    end.

Definition get {S} : M S S := fun s => (Return s, s).

Definition put {S} (s : S) : M S unit := fun _ => (Return tt, s).

Definition modify {S} (f : S -> S) : M S unit := fun s => (Return tt, f s).

(** A result that does not touch the state, inside a computation. *)
Definition lift {S A} (o : outcome A) : M S A := fun s => (o, s).

Definition is_return {A} (o : outcome A) : bool :=
  match o with Return _ => true | Raise _ => false end.

(** The numbers behind prices and amounts. *)
Class PyNum (num : Type) := {
  nadd : num -> num -> num;
  nsub : num -> num -> num;
  nmul : num -> num -> num;
  nlt : num -> num -> bool;
  (** truth value of a number: [x != 0] *)
  nbool : num -> bool;
  (** an [int] used in arithmetic with a [float] *)
  of_int : Z -> num;
  (** the value of a decimal literal such as [0.08] *)
  lit : Q -> num;
  (** [float(x)] *)
  float : num -> num;
  (** [x] at two decimal places, as a [Numeric(10, 2)] column gives back
      what was stored in it *)
  quantize : num -> num
}.

(** A rational rounded to two decimal places, a tie going to the even
    digit. *)
Definition Qround2 (x : Q) : Q :=
  let n := (Qnum x * 100)%Z in
  let d := Zpos (Qden x) in
  let q := (n / d)%Z in
  let r := (n mod d)%Z in
  let cents :=
    if (2 * r <? d)%Z then q
    else if (d <? 2 * r)%Z then (q + 1)%Z
    else if Z.even q then q else (q + 1)%Z in
  cents # 100.

(** Exact rationals: the numbers without rounding but that of the
    columns. *)
#[global] Instance Q_num : PyNum Q := {
  nadd := Qplus;
  nsub := Qminus;
  nmul := Qmult;
  nlt := fun a b => negb (Qle_bool b a);
  nbool := fun a => negb (Qeq_bool a 0%Q);
  of_int := inject_Z;
  lit := fun q => q;
  float := fun q => q;
  quantize := Qround2
}.

(** A number with its Python type.  An amount of an order is an [int] or
    a [float] while the order is built and a [Decimal] once it is read
    from its column; the arithmetic of [float] and [Decimal] does not
    mix. *)
Inductive number (num : Type) :=
| Int (z : Z)
| Float (x : num)
| Decimal (x : num).
Arguments Int {num} z.
Arguments Float {num} x.
Arguments Decimal {num} x.

Definition type_name {num} (v : number num) : string :=
  match v with
  | Int _ => "int"
  | Float _ => "float"
  | Decimal _ => "decimal.Decimal"
  end.

Definition is_decimal {num} (v : number num) : bool :=
  match v with
  | Decimal _ => true
  | _ => false
  end.

(** The value of a number in the arithmetic of [num]. *)
Definition value {num} `{PyNum num} (v : number num) : num :=
  match v with
  | Int z => of_int z
  | Float x => x
  | Decimal x => x
  end.

Definition unsupported {num} (op : string) (a b : number num) : exn :=
  TypeError ("unsupported operand type(s) for " +:+ op +:+ ": '"
             +:+ type_name a +:+ "' and '" +:+ type_name b +:+ "'").

(** [a op b] for [+], [-] and [*]: two [int]s give an [int], a [float]
    with an [int] or a [float] gives a [float], a [Decimal] with an [int]
    or a [Decimal] gives a [Decimal], and a [float] with a [Decimal]
    raises.  [fz] is the operation on [int], [fn] the one on [num]. *)
Definition arith {num} `{PyNum num} (op : string) (fz : Z -> Z -> Z)
    (fn : num -> num -> num) (a b : number num) : outcome (number num) :=
  match a, b with
  | Int x, Int y => Return (Int (fz x y))
  | Float _, Decimal _ | Decimal _, Float _ => Raise (unsupported op a b)
  | Decimal _, _ | _, Decimal _ => Return (Decimal (fn (value a) (value b)))
  | _, _ => Return (Float (fn (value a) (value b)))
  end.

Definition add {num} `{PyNum num} : number num -> number num -> outcome (number num) :=
  arith "+" Z.add nadd.

Definition sub {num} `{PyNum num} : number num -> number num -> outcome (number num) :=
  arith "-" Z.sub nsub.

Definition mul {num} `{PyNum num} : number num -> number num -> outcome (number num) :=
  arith "*" Z.mul nmul.

(** What a [Numeric(10, 2)] column gives back for a number stored in it:
    a [Decimal] with two decimal places. *)
Definition numeric {num} `{PyNum num} (v : number num) : number num :=
  Decimal (quantize (value v)).

(** Python's [sum(xs)]: the fold starts from the [int] 0. *)
Definition sum {num} `{PyNum num} (xs : list num) : num :=
  fold_left nadd xs (of_int 0).

(** [sum(xs)] of [float]s with its type: the [int] 0 the fold starts from
    when there is no number, and a [float] otherwise. *)
Definition sum_floats {num} `{PyNum num} (xs : list num) : number num :=
  match xs with
  | [] => Int 0
  | _ :: _ => Float (sum xs)
  end.

(** Truth value of an optional string ([None] and [''] are false). *)
Definition str_bool (s : option string) : bool :=
  match s with
  | None => false
  | Some EmptyString => false
  | Some (String _ _) => true
  end.

(** [s or '']. *)
Definition or_empty (s : option string) : string :=
  match s with
  | Some (String c r) => String c r
  | _ => EmptyString
  end.

(** A string or [None] inside an f-string: [None] prints as its name. *)
Definition format (s : option string) : string :=
  match s with
  | Some s => s
  | None => "None"
  end.

(** [str.isspace] on the code points below 256: TAB..CR, FS..US, space,
    NEL and the no-break space. *)
Definition isspace (c : ascii) : bool :=
  let n := Z.of_nat (nat_of_ascii c) in
  ((9 <=? n) && (n <=? 13)) || ((28 <=? n) && (n <=? 32))
  || (n =? 133) || (n =? 160).

Fixpoint lstrip (s : string) : string :=
  match s with
  | EmptyString => EmptyString
  | String c r => if isspace c then lstrip r else s
  end.

(** [rstrip] walks from the right: a suffix that is all whitespace goes. *)
Fixpoint rstrip (s : string) : string :=
  match s with
  | EmptyString => EmptyString
  | String c r =>
      match rstrip r with
      | EmptyString => if isspace c then EmptyString else String c EmptyString
      | r' => String c r'
      end
  end.

(** [s.strip()]. *)
Definition strip (s : string) : string := lstrip (rstrip s).

(** A string [rstrip] leaves alone and that is not empty: it ends in a
    character that is not whitespace. *)
Definition rstripped (s : string) : Prop := rstrip s = s /\ s <> EmptyString.

(** A string that starts with a character that is not whitespace. *)
Definition lstripped (s : string) : Prop :=
  exists c r, s = String c r /\ isspace c = false.

(** [str.lower] on the code points below 256: the capitals A..Z and the
    Latin-1 capitals (all of 192..222 but the multiplication sign) move up
    by 32. *)
Definition lower_char (c : ascii) : ascii :=
  let n := nat_of_ascii c in
  if (((65 <=? n) && (n <=? 90))
      || ((192 <=? n) && (n <=? 222) && negb (n =? 215)))%nat
  then ascii_of_nat (n + 32)
  else c.

Fixpoint lower (s : string) : string :=
  match s with
  | EmptyString => EmptyString
  | String c r => String (lower_char c) (lower r)
  end.

(** [s.replace(c, new)] for a pattern of one character. *)
Fixpoint replace_char (c : ascii) (new : string) (s : string) : string :=
  match s with
  | EmptyString => EmptyString
  | String a r =>
      if Ascii.eqb a c then new +:+ replace_char c new r
      else String a (replace_char c new r)
  end.

(** [re.sub('[^...]', '', s)]: the characters of the class [p] stay. *)
Fixpoint keep (p : ascii -> bool) (s : string) : string :=
  match s with
  | EmptyString => EmptyString
  | String a r => if p a then String a (keep p r) else keep p r
  end.

(** [re.sub('<class>+', rep, s)] for a replacement of one character: every
    maximal run of characters of the class [p] becomes one [rep].
    [in_run] tells that the character before was of the class. *)
Fixpoint sub_runs (p : ascii -> bool) (rep : ascii) (in_run : bool)
    (s : string) : string :=
  match s with
  | EmptyString => EmptyString
  | String a r =>
      if p a then
        if in_run then sub_runs p rep true r
        else String rep (sub_runs p rep true r)
      else String a (sub_runs p rep false r)
  end.

Fixpoint lstrip_by (p : ascii -> bool) (s : string) : string :=
  match s with
  | EmptyString => EmptyString
  | String c r => if p c then lstrip_by p r else s
  end.

Fixpoint rstrip_by (p : ascii -> bool) (s : string) : string :=
  match s with
  | EmptyString => EmptyString
  | String c r =>
      match rstrip_by p r with
      | EmptyString => if p c then EmptyString else String c EmptyString
      | r' => String c r'
      end
  end.

(** [s.strip(chars)], [p] being the test for membership in [chars]. *)
Definition strip_by (p : ascii -> bool) (s : string) : string :=
  lstrip_by p (rstrip_by p s).

(** [s.split(sep)] for a separator of one character. *)
Fixpoint split_char (sep : ascii) (s : string) : list string :=
  match s with
  | EmptyString => [EmptyString]
  | String c r =>
      if Ascii.eqb c sep then EmptyString :: split_char sep r
      else match split_char sep r with
           | h :: t => String c h :: t
           | [] => [String c EmptyString]
           end
  end.

(** [sub in s]. *)
Fixpoint contains (sub s : string) : bool :=
  String.prefix sub s
  || match s with
     | EmptyString => false
     | String _ r => contains sub r
     end.

(** Every character of [s] passes [p]. *)
Fixpoint all_chars (p : ascii -> bool) (s : string) : bool :=
  match s with
  | EmptyString => true
  | String c r => p c && all_chars p r
  end.

End Py.

Notation "'let*' x ':=' c 'in' k" := (Py.bind c (fun x => k))
  (at level 10, x name, c at level 100, k at level 200).

(* ===================================================================== *)
(** * datetime *)
(* ===================================================================== *)

Module datetime.

Record t := mk {
  year : Z; month : Z; day : Z;
  hour : Z; minute : Z; second : Z; microsecond : Z
}.

Definition digit (n : Z) : ascii := ascii_of_nat (48 + Z.to_nat (n mod 10)).

(** [n] in decimal on [width] digits, zero padded (the [%0<width>d] of
    [isoformat], for a field within its range). *)
Fixpoint zfill (width : nat) (n : Z) : string :=
  match width with
  | O => EmptyString
  | S w => zfill w (n / 10) +:+ String (digit n) EmptyString
  end.

(** [str(d)] for a naive datetime: [d.isoformat(sep=' ')], which prints
    the microseconds only when they are not zero. *)
Definition str (d : t) : string :=
  zfill 4 (year d) +:+ "-" +:+ zfill 2 (month d) +:+ "-" +:+ zfill 2 (day d)
  +:+ " " +:+ zfill 2 (hour d) +:+ ":" +:+ zfill 2 (minute d)
  +:+ ":" +:+ zfill 2 (second d)
  +:+ (if microsecond d =? 0 then "" else "." +:+ zfill 6 (microsecond d)).

#[global] Instance eq_dec : EqDecision t.
Proof. solve_decision. Defined.

End datetime.

(** The clock of one call: [clk k] is what its [k]-th
    [datetime.utcnow()] returns. *)
Definition clock : Type := nat -> datetime.t.

(* ===================================================================== *)
(** * app/models/product.py *)
(* ===================================================================== *)

Module Product.

Section WithNum.
Context {num : Type} `{!Py.PyNum num}.

(** A row of [products]. *)
Record t := mk {
  price : num;
  sale_price : option num;
  stock_quantity : Z;
  min_stock_level : Z;
  category_id : Z;
  is_active : bool;
  updated_at : option datetime.t
}.

Definition set_stock (self : t) (q : Z) (now : datetime.t) : t :=
  {| price := price self; sale_price := sale_price self;
     stock_quantity := q; min_stock_level := min_stock_level self;
     category_id := category_id self; is_active := is_active self;
     updated_at := Some now |}.

Definition is_in_stock (self : t) : bool :=
  (0 <? stock_quantity self) && is_active self.

Definition is_low_stock (self : t) : bool :=
  stock_quantity self <=? min_stock_level self.

Definition reserve_stock (quantity : Z) (clk : clock) : Py.M t bool :=
  let* self := Py.get in
  if quantity <=? 0 then
    Py.raise (Py.ValueError "Quantity must be positive")
  else if stock_quantity self <? quantity then
    Py.raise (Py.ValueError
      ("Insufficient stock. Available: " +:+ pretty (stock_quantity self)
       +:+ ", Requested: " +:+ pretty quantity))
  else
    let* _ := Py.put (set_stock self (stock_quantity self - quantity) (clk 0%nat)) in
    Py.ret true.

Definition release_stock (quantity : Z) (clk : clock) : Py.M t bool :=
  let* self := Py.get in
  if quantity <=? 0 then
    Py.raise (Py.ValueError "Quantity must be positive")
  else
    let* _ := Py.put (set_stock self (stock_quantity self + quantity) (clk 0%nat)) in
    Py.ret true.

Definition update_stock (new_quantity : Z) (clk : clock) : Py.M t unit :=
  let* self := Py.get in
  if new_quantity <? 0 then
    Py.raise (Py.ValueError "Stock quantity cannot be negative")
  else
    Py.put (set_stock self new_quantity (clk 0%nat)).

(** [float(self.sale_price) if self.sale_price else float(self.price)]:
    the test is the truth value of [sale_price], false for [None] and for
    zero. *)
Definition get_display_price (self : t) : num :=
  match sale_price self with
  | Some s => if Py.nbool s then Py.float s else Py.float (price self)
  | None => Py.float (price self)
  end.

Definition get_effective_price (self : t) : num := get_display_price self.

Definition is_on_sale (self : t) : bool :=
  match sale_price self with
  | Some s => Py.nlt s (price self)
  | None => false
  end.

(** The stock operations of a product, to speak of all of them at once. *)
Inductive stock_op :=
| Reserve (quantity : Z)
| Release (quantity : Z)
| Update (new_quantity : Z).

Definition run_stock_op (op : stock_op) (clk : clock) : Py.M t unit :=
  match op with
  | Reserve q => let* _ := reserve_stock q clk in Py.ret tt
  | Release q => let* _ := release_stock q clk in Py.ret tt
  | Update q => update_stock q clk
  end.

End WithNum.
Arguments t : clear implicits.

(** The class [[a-z0-9\s-]] of the first substitution of [generate_slug]. *)
Definition slug_class (c : ascii) : bool :=
  let n := nat_of_ascii c in
  (((97 <=? n) && (n <=? 122)) || ((48 <=? n) && (n <=? 57)))%nat
  || Py.isspace c || Ascii.eqb c "-".

Definition is_hyphen (c : ascii) : bool := Ascii.eqb c "-".

(** [generate_slug(name)]: lower case, [re.sub('[^a-z0-9\s-]', '', _)],
    [re.sub('\s+', '-', _)], [strip('-')]. *)
Definition generate_slug (name : string) : string :=
  Py.strip_by is_hyphen
    (Py.sub_runs Py.isspace "-" false (Py.keep slug_class (Py.lower name))).

End Product.

(* ===================================================================== *)
(** * app/models/cart.py *)
(* ===================================================================== *)

(** Rows have no identity of their own in a list: the object a lookup
    returned is the first row that satisfies the lookup's test, and a write
    to (or a delete of) that object is a write to that row. *)
Fixpoint update_first {A} (p : A -> bool) (f : A -> A) (l : list A) : list A :=
  match l with
  | [] => []
  | x :: r => if p x then f x :: r else x :: update_first p f r
  end.

(** A row added to a table that is read through an index takes its place
    in the order of the index, before the first row that comes after it;
    [ltb] is that order. *)
Fixpoint insert_row {A} (ltb : A -> A -> bool) (x : A) (l : list A) : list A :=
  match l with
  | [] => [x]
  | y :: r => if ltb x y then x :: y :: r else y :: insert_row ltb x r
  end.


Fixpoint remove_first {A} (p : A -> bool) (l : list A) : list A :=
  match l with
  | [] => []
  | x :: r => if p x then r else x :: remove_first p r
  end.

Module CartItem.

Section WithNum.
Context {num : Type} `{!Py.PyNum num}.

(** A row of [cart_items].  [price] is the price at the time of adding.
    The table carries [UniqueConstraint('cart_id', 'product_id')]. *)
Record t := mk {
  cart_id : Z;
  product_id : Z;
  quantity : Z;
  price : num;
  updated_at : option datetime.t
}.

Definition get_total_price (self : t) : num :=
  Py.nmul (Py.float (price self)) (Py.of_int (quantity self)).

(** The two assignments [self.quantity = quantity] and
    [self.updated_at = now] on a row. *)
Definition set_quantity (self : t) (quantity : Z) (now : datetime.t) : t :=
  {| cart_id := cart_id self; product_id := product_id self;
     quantity := quantity; price := price self; updated_at := Some now |}.

End WithNum.
Arguments t : clear implicits.

End CartItem.

Module Cart.

Section WithNum.
Context {num : Type} `{!Py.PyNum num}.

(** A row of [carts]; its primary key is the key of the table. *)
Record t := mk {
  user_id : option Z;
  session_id : option string;
  updated_at : option datetime.t
}.

(** The tables the cart methods read and write.  [cart_items] is in the
    order of the index of its constraint [unique_cart_product] on
    [(cart_id, product_id)]: [self.items] has no [order_by], and SQLite
    reads the rows of a cart through that index, so it lists them by
    [product_id] and not in the order of their insertion. *)
Record db := mk_db {
  products : gmap Z (Product.t num);
  carts : gmap Z t;
  cart_items : list (CartItem.t num)
}.

Definition set_cart_items (f : list (CartItem.t num) -> list (CartItem.t num))
    (st : db) : db :=
  {| products := products st; carts := carts st;
     cart_items := f (cart_items st) |}.

(** [self.updated_at = datetime.utcnow()] on the cart [self]. *)
Definition touch (self : Z) (now : datetime.t) (st : db) : db :=
  {| products := products st;
     carts := alter (fun c => {| user_id := user_id c;
                                 session_id := session_id c;
                                 updated_at := Some now |}) self (carts st);
     cart_items := cart_items st |}.

(** [self.items]: the rows of the cart, by the relationship on [cart_id]. *)
Definition items (self : Z) (st : db) : list (CartItem.t num) :=
  List.filter (fun it => CartItem.cart_id it =? self) (cart_items st).

(** [next((item for item in self.items if item.product_id == product_id), None)] *)
Definition get_item_by_product (self product_id : Z) (st : db)
    : option (CartItem.t num) :=
  List.find (fun it => CartItem.product_id it =? product_id) (items self st).

(** The test that singles out, among all rows, the one
    [get_item_by_product] returns. *)
Definition is_line (self product_id : Z) (it : CartItem.t num) : bool :=
  (CartItem.cart_id it =? self) && (CartItem.product_id it =? product_id).

(** The order of the index on [(cart_id, product_id)]. *)
Definition index_ltb (a b : CartItem.t num) : bool :=
  (CartItem.cart_id a <? CartItem.cart_id b)
  || ((CartItem.cart_id a =? CartItem.cart_id b)
      && (CartItem.product_id a <? CartItem.product_id b)).


(** [Product.query.filter_by(id=product_id, is_active=True).first()] *)
Definition query_active_product (product_id : Z) (st : db)
    : option (Product.t num) :=
  match products st !! product_id with
  | Some p => if Product.is_active p then Some p else None
  | None => None
  end.

(** [existing_item.quantity if existing_item else 0] *)
Definition quantity_or_zero (existing_item : option (CartItem.t num)) : Z :=
  match existing_item with
  | Some it => CartItem.quantity it
  | None => 0
  end.

Definition add_item (self product_id quantity : Z) (clk : clock)
    : Py.M db (CartItem.t num) :=
  let* st := Py.get in
  match query_active_product product_id st with
  | None => Py.raise (Py.ValueError "Product not found or inactive")
  | Some product =>
      let existing_item := get_item_by_product self product_id st in
      let total_quantity := quantity + quantity_or_zero existing_item in
      if total_quantity >? Product.stock_quantity product then
        Py.raise (Py.ValueError
          ("Insufficient stock. Available: "
           +:+ pretty (Product.stock_quantity product)))
      else
        match existing_item with
        | Some it =>
            let cart_item :=
              CartItem.set_quantity it (CartItem.quantity it + quantity)
                (clk 0%nat) in
            let* _ := Py.modify (set_cart_items
                        (update_first (is_line self product_id)
                                      (fun _ => cart_item))) in
            let* _ := Py.modify (touch self (clk 1%nat)) in
            Py.ret cart_item
        | None =>
            let cart_item :=
              CartItem.mk self product_id quantity
                (Product.get_effective_price product) None in
            let* _ := Py.modify (set_cart_items
                        (insert_row index_ltb cart_item)) in
            let* _ := Py.modify (touch self (clk 0%nat)) in
            Py.ret cart_item
        end
  end.

Definition remove_item (self product_id : Z) (clk : clock) : Py.M db unit :=
  let* st := Py.get in
  match get_item_by_product self product_id st with
  | Some _ =>
      let* _ := Py.modify (set_cart_items
                  (remove_first (is_line self product_id))) in
      Py.modify (touch self (clk 0%nat))
  | None => Py.ret tt
  end.

Definition update_item_quantity (self product_id quantity : Z) (clk : clock)
    : Py.M db unit :=
  let* st := Py.get in
  match get_item_by_product self product_id st with
  | None => Py.raise (Py.ValueError "Item not found in cart")
  | Some it =>
      if quantity <=? 0 then remove_item self product_id clk
      else
        (* Product.query.get(product_id) *)
        match products st !! product_id with
        | None =>
            Py.raise (Py.AttributeError
              "'NoneType' object has no attribute 'stock_quantity'")
        | Some product =>
            if quantity >? Product.stock_quantity product then
              Py.raise (Py.ValueError
                ("Insufficient stock. Available: "
                 +:+ pretty (Product.stock_quantity product)))
            else
              let cart_item := CartItem.set_quantity it quantity (clk 0%nat) in
              let* _ := Py.modify (set_cart_items
                          (update_first (is_line self product_id)
                                        (fun _ => cart_item))) in
              Py.modify (touch self (clk 1%nat))
        end
  end.

Definition clear_cart (self : Z) (clk : clock) : Py.M db unit :=
  let* _ := Py.modify (set_cart_items
              (List.filter (fun it => negb (CartItem.cart_id it =? self)))) in
  Py.modify (touch self (clk 0%nat)).

Definition get_total_items (self : Z) (st : db) : Z :=
  fold_left Z.add (map CartItem.quantity (items self st)) 0.

Definition get_total_amount (self : Z) (st : db) : num :=
  Py.sum (map CartItem.get_total_price (items self st)).

Definition get_item_count (self : Z) (st : db) : nat :=
  length (items self st).

Definition is_empty (self : Z) (st : db) : bool :=
  Nat.eqb (length (items self st)) 0.

(** The operations that change a cart, to speak of all of them at once. *)
Inductive cart_op :=
| AddItem (product_id quantity : Z)
| UpdateItemQuantity (product_id quantity : Z)
| RemoveItem (product_id : Z)
| ClearCart.

Definition run_cart_op (self : Z) (op : cart_op) (clk : clock) : Py.M db unit :=
  match op with
  | AddItem p q => let* _ := add_item self p q clk in Py.ret tt
  | UpdateItemQuantity p q => update_item_quantity self p q clk
  | RemoveItem p => remove_item self p clk
  | ClearCart => clear_cart self clk
  end.

Definition key (it : CartItem.t num) : Z * Z :=
  (CartItem.cart_id it, CartItem.product_id it).

(** The uniqueness constraint of [cart_items]: no two rows with the same
    [(cart_id, product_id)]. *)
Definition unique_cart_product (st : db) : Prop :=
  NoDup (map key (cart_items st)).

(** The rows of the cart [self] for the product [product_id]. *)
Definition lines (self product_id : Z) (st : db) : list (CartItem.t num) :=
  List.filter (is_line self product_id) (cart_items st).

(** One turn of the loop of [validate_stock_availability]: the entry the
    item adds to the list, if any.  [item.product] is the row of the
    catalogue with the item's [product_id]; without one it is [None] and
    reading [is_active] raises. *)
Definition validate_item (st : db) (item : CartItem.t num)
    : Py.outcome (option (CartItem.t num * string)) :=
  match products st !! CartItem.product_id item with
  | None =>
      Py.Raise (Py.AttributeError
        "'NoneType' object has no attribute 'is_active'")
  | Some product =>
      if negb (Product.is_active product) then
        Py.Return (Some (item, "Product is no longer available"))
      else if CartItem.quantity item >? Product.stock_quantity product then
        Py.Return (Some (item, "Only " +:+ pretty (Product.stock_quantity product)
                               +:+ " items available"))
      else Py.Return None
  end.

Fixpoint validate_items (st : db) (l : list (CartItem.t num))
    : Py.outcome (list (CartItem.t num * string)) :=
  match l with
  | [] => Py.Return []
  | item :: rest =>
      match validate_item st item with
      | Py.Raise e => Py.Raise e
      | Py.Return entry =>
          match validate_items st rest with
          | Py.Raise e => Py.Raise e
          | Py.Return entries =>
              Py.Return (match entry with
                         | Some x => x :: entries
                         | None => entries
                         end)
          end
      end
  end.

(** [validate_stock_availability(self)]: the items with their issue. *)
Definition validate_stock_availability (self : Z)
    : Py.M db (list (CartItem.t num * string)) :=
  fun st => (validate_items st (items self st), st).

End WithNum.
Arguments t : clear implicits.
Arguments db : clear implicits.

End Cart.

(* ===================================================================== *)
(** * app/models/order.py *)
(* ===================================================================== *)

Module OrderStatus.

Inductive t :=
| PENDING | CONFIRMED | PROCESSING | SHIPPED | DELIVERED | CANCELLED | RETURNED.

Definition value (s : t) : string :=
  match s with
  | PENDING => "pending"
  | CONFIRMED => "confirmed"
  | PROCESSING => "processing"
  | SHIPPED => "shipped"
  | DELIVERED => "delivered"
  | CANCELLED => "cancelled"
  | RETURNED => "returned"
  end.

End OrderStatus.

Module OrderItem.

Section WithNum.
Context {num : Type} `{!Py.PyNum num}.

(** A row of [order_items]; [price] is the price at the time of the order. *)
Record t := mk {
  order_id : Z;
  product_id : Z;
  quantity : Z;
  price : num
}.

Definition get_total_price (self : t) : num :=
  Py.nmul (Py.float (price self)) (Py.of_int (quantity self)).

End WithNum.
Arguments t : clear implicits.

End OrderItem.

Module Order.

Section WithNum.
Context {num : Type} `{!Py.PyNum num}.

(** An order with its line items (the relationship [items]). *)
Record t := mk {
  id : Z;
  status : OrderStatus.t;
  subtotal_amount : Py.number num;
  tax_amount : Py.number num;
  shipping_amount : Py.number num;
  discount_amount : Py.number num;
  total_amount : Py.number num;
  notes : option string;
  updated_at : option datetime.t;
  confirmed_at : option datetime.t;
  shipped_at : option datetime.t;
  delivered_at : option datetime.t;
  items : list (OrderItem.t num)
}.

(** [OrderItem(order_id=self.id, product_id=cart_item.product_id,
    quantity=cart_item.quantity, price=cart_item.price)] *)
Definition add_item_from_cart_item (self : t) (cart_item : CartItem.t num)
    : OrderItem.t num :=
  OrderItem.mk (id self) (CartItem.product_id cart_item)
    (CartItem.quantity cart_item) (CartItem.price cart_item).

(** [calculate_tax(self, tax_rate=0.08)]: [self.subtotal_amount * tax_rate]
    for a [float] rate. *)
Definition calculate_tax (self : t) (tax_rate : num)
    : Py.outcome (Py.number num) :=
  Py.mul (subtotal_amount self) (Py.Float tax_rate).

Definition default_tax_rate : num := Py.lit (8 # 100).

(** The assignments of [calculate_totals] to [self]. *)
Definition set_subtotal_amount (x : Py.number num) (self : t) : t :=
  mk (id self) (status self) x (tax_amount self)
     (shipping_amount self) (discount_amount self) (total_amount self)
     (notes self) (updated_at self) (confirmed_at self) (shipped_at self)
     (delivered_at self) (items self).

Definition set_tax_amount (x : Py.number num) (self : t) : t :=
  mk (id self) (status self) (subtotal_amount self) x
     (shipping_amount self) (discount_amount self) (total_amount self)
     (notes self) (updated_at self) (confirmed_at self) (shipped_at self)
     (delivered_at self) (items self).

Definition set_total_amount (x : Py.number num) (self : t) : t :=
  mk (id self) (status self) (subtotal_amount self) (tax_amount self)
     (shipping_amount self) (discount_amount self) x
     (notes self) (updated_at self) (confirmed_at self) (shipped_at self)
     (delivered_at self) (items self).

Definition set_updated_at (now : datetime.t) (self : t) : t :=
  mk (id self) (status self) (subtotal_amount self) (tax_amount self)
     (shipping_amount self) (discount_amount self) (total_amount self)
     (notes self) (Some now) (confirmed_at self) (shipped_at self)
     (delivered_at self) (items self).

(** [calculate_totals(self)].  The subtotal and the tax are assigned
    before the total is computed, so they stay when the sum raises. *)
Definition calculate_totals (clk : clock) : Py.M t unit :=
  let* self := Py.get in
  let* _ := Py.put (set_subtotal_amount
              (Py.sum_floats (map OrderItem.get_total_price (items self)))
              self) in
  let* self := Py.get in
  let* tax := Py.lift (calculate_tax self default_tax_rate) in
  let* _ := Py.put (set_tax_amount tax self) in
  let* self := Py.get in
  let* with_tax := Py.lift (Py.add (subtotal_amount self) (tax_amount self)) in
  let* with_shipping := Py.lift (Py.add with_tax (shipping_amount self)) in
  let* total := Py.lift (Py.sub with_shipping (discount_amount self)) in
  let* _ := Py.put (set_total_amount total self) in
  Py.modify (set_updated_at (clk 0%nat)).

(** The order as the session gives it back after [db.session.commit()]:
    the commit expires the object, and its amounts are then read from
    their [Numeric(10, 2)] columns.  The price of a line is a value read
    from [cart_items], which the column of [order_items] gives back as it
    is. *)
Definition committed (self : t) : t :=
  mk (id self) (status self) (Py.numeric (subtotal_amount self))
     (Py.numeric (tax_amount self)) (Py.numeric (shipping_amount self))
     (Py.numeric (discount_amount self)) (Py.numeric (total_amount self))
     (notes self) (updated_at self) (confirmed_at self) (shipped_at self)
     (delivered_at self) (items self).

(** The line [update_status] writes for a note, before the strip. *)
Definition status_line (stamp : datetime.t) (old_status new_status : OrderStatus.t)
    (note : string) : string :=
  datetime.str stamp +:+ ": Status changed from " +:+ OrderStatus.value old_status
  +:+ " to " +:+ OrderStatus.value new_status +:+ ". " +:+ note.

Definition newline : string := String (ascii_of_nat 10) EmptyString.

(** The clock reading that stamps the note: the first reading goes to
    [updated_at], the second to the milestone timestamp when the new
    status has one, and the note takes the next. *)
Definition note_stamp (new_status : OrderStatus.t) (clk : clock) : datetime.t :=
  match new_status with
  | OrderStatus.CONFIRMED | OrderStatus.SHIPPED | OrderStatus.DELIVERED => clk 2%nat
  | _ => clk 1%nat
  end.

(** [update_status(self, new_status, notes=None)]. *)
Definition update_status (new_status : OrderStatus.t) (note : option string)
    (clk : clock) (self : t) : t :=
  let old_status := status self in
  let confirmed :=
    match new_status with
    | OrderStatus.CONFIRMED => Some (clk 1%nat)
    | _ => confirmed_at self
    end in
  let shipped :=
    match new_status with
    | OrderStatus.SHIPPED => Some (clk 1%nat)
    | _ => shipped_at self
    end in
  let delivered :=
    match new_status with
    | OrderStatus.DELIVERED => Some (clk 1%nat)
    | _ => delivered_at self
    end in
  let notes' :=
    if Py.str_bool note then
      Some (Py.strip (Py.or_empty (notes self) +:+ newline
                      +:+ status_line (note_stamp new_status clk)
                                      old_status new_status
                                      (Py.format note)))
    else notes self in
  mk (id self) new_status (subtotal_amount self) (tax_amount self)
     (shipping_amount self) (discount_amount self) (total_amount self)
     notes' (Some (clk 0%nat)) confirmed shipped delivered (items self).

(** The session an order lives in: the tables of the shop and the orders
    added to it. *)
Record db := mk_db {
  shop : Cart.db num;
  orders : list t
}.

(** [item.product.<method>(...)]: the method runs on the row of the
    catalogue with the item's [product_id] and its writes stay in that
    row; without such a row [item.product] is [None] and the call
    raises. *)
Definition on_product {A} (method : string) (product_id : Z)
    (m : Py.M (Product.t num) A) : Py.M (Cart.db num) A :=
  fun st =>
    match Cart.products st !! product_id with
    | None =>
        (Py.Raise (Py.AttributeError
           ("'NoneType' object has no attribute '" +:+ method +:+ "'")), st)
    | Some product =>
        let (result, product') := m product in
        (result,
         Cart.mk_db (<[product_id := product']> (Cart.products st))
                    (Cart.carts st) (Cart.cart_items st))
    end.

(** The loop of [reserve_stock(self)] from its [k]-th turn on; each turn
    that gets to stamp its product takes one clock reading. *)
Fixpoint reserve_stock_from (k : nat) (l : list (OrderItem.t num)) (clk : clock)
    : Py.M (Cart.db num) unit :=
  match l with
  | [] => Py.ret tt
  | item :: rest =>
      let* _ := on_product "reserve_stock" (OrderItem.product_id item)
                  (Product.reserve_stock (OrderItem.quantity item)
                     (fun _ => clk k)) in
      reserve_stock_from (S k) rest clk
  end.

Definition reserve_stock (self : t) (clk : clock) : Py.M (Cart.db num) unit :=
  reserve_stock_from 0 (items self) clk.

Fixpoint release_stock_from (k : nat) (l : list (OrderItem.t num)) (clk : clock)
    : Py.M (Cart.db num) unit :=
  match l with
  | [] => Py.ret tt
  | item :: rest =>
      let* _ := on_product "release_stock" (OrderItem.product_id item)
                  (Product.release_stock (OrderItem.quantity item)
                     (fun _ => clk k)) in
      release_stock_from (S k) rest clk
  end.

Definition release_stock (self : t) (clk : clock) : Py.M (Cart.db num) unit :=
  release_stock_from 0 (items self) clk.

(** The text Python prints for the list of unavailable items inside the
    error message of [create_from_cart]; it shows row ids and product
    names, which the rows here do not keep. *)
Variable repr_unavailable : list (CartItem.t num * string) -> string.

(** [create_from_cart(cls, user, cart, shipping_address, payment_method,
    **kwargs)].  [order_id] is the key the flush gives the order;
    [shipping_amount], [discount_amount] and [notes] are the keyword
    arguments of that name (the amounts default to the [int] 0).  The
    order is in the session from [db.session.add] on, and the session
    sees the totals once they are computed.  The first clock reading
    stamps the totals, the following ones the products.  The order
    returned is the committed one, whose amounts the caller reads from
    the database. *)
Definition create_from_cart (order_id cart : Z)
    (shipping_amount discount_amount : Py.number num) (note : option string)
    (clk : clock) : Py.M db t :=
  fun st =>
    if Cart.is_empty cart (shop st) then
      (Py.Raise (Py.ValueError "Cannot create order from empty cart"), st)
    else
      match fst (Cart.validate_stock_availability cart (shop st)) with
      | Py.Raise e => (Py.Raise e, st)
      | Py.Return (x :: l) =>
          (Py.Raise (Py.ValueError
             ("Some items are not available: " +:+ repr_unavailable (x :: l))),
           st)
      | Py.Return [] =>
          let order :=
            mk order_id OrderStatus.PENDING (Py.Int 0) (Py.Int 0)
               shipping_amount discount_amount (Py.Int 0) note
               None None None None [] in
          let order_items :=
            map (add_item_from_cart_item order) (Cart.items cart (shop st)) in
          let order :=
            mk order_id OrderStatus.PENDING (Py.Int 0) (Py.Int 0)
               shipping_amount discount_amount (Py.Int 0) note
               None None None None order_items in
          match calculate_totals clk order with
          | (Py.Raise e, order) =>
              (Py.Raise e, mk_db (shop st) (orders st ++ [order]))
          | (Py.Return _, order) =>
              match reserve_stock order (fun k => clk (S k)) (shop st) with
              | (Py.Raise e, shop') =>
                  (Py.Raise e, mk_db shop' (orders st ++ [order]))
              | (Py.Return _, shop') =>
                  (Py.Return (committed order),
                   mk_db shop' (orders st ++ [committed order]))
              end
          end
      end.

(** [get_status_history(self)]: the lines of [notes] that hold
    ['Status changed'], each stripped. *)
Definition get_status_history (self : t) : list string :=
  if negb (Py.str_bool (notes self)) then []
  else
    map Py.strip
      (List.filter (Py.contains "Status changed")
         (Py.split_char (ascii_of_nat 10) (Py.or_empty (notes self)))).

End WithNum.
Arguments t : clear implicits.
Arguments db : clear implicits.

End Order.

(* ===================================================================== *)
(** * app/models/user.py *)
(* ===================================================================== *)

Module User.

(** A row of [users].  [username] and [email] are each a unique column,
    with an index of its own. *)
Record t := mk {
  id : Z;
  username : string;
  email : string;
  password_hash : string;
  is_active : bool;
  last_login : option datetime.t
}.

#[global] Instance eq_dec : EqDecision t.
Proof. solve_decision. Defined.

(** The object a query returned is the row equal to it; a write to the
    object is a write to that row. *)
Definition same_row (user : t) (u : t) : bool := bool_decide (u = user).

Section WithHash.
(** werkzeug's [check_password_hash pwhash password]. *)
Variable check_password_hash : string -> string -> bool.

Definition check_password (self : t) (password : string) : bool :=
  check_password_hash (password_hash self) password.

Definition update_last_login (clk : clock) (self : t) : t :=
  mk (id self) (username self) (email self) (password_hash self)
     (is_active self) (Some (clk 0%nat)).

(** The filter [(cls.username == x) | (cls.email == x)]. *)
Definition matches (username_or_email : string) (u : t) : bool :=
  String.eqb (username u) username_or_email
  || String.eqb (email u) username_or_email.

(** [cls.query.filter((cls.username == x) | (cls.email == x)).first()].
    The query has no [ORDER BY].  SQLite, the database the configuration
    names, answers the [OR] of two indexed columns from the two indexes in
    turn: first the rows the index of [username] has for the string, then
    those the index of [email] has.  So the row returned is the one with
    that username if there is one, and otherwise the one with that email,
    whatever the order in which the rows were inserted.  Strings compare
    byte for byte. *)
Definition query_first (users : list t) (username_or_email : string) : option t :=
  match List.find (fun u => String.eqb (username u) username_or_email) users with
  | Some user => Some user
  | None => List.find (fun u => String.eqb (email u) username_or_email) users
  end.

(** [authenticate(cls, username_or_email, password)]: the returned user and
    the table afterwards. *)
Definition authenticate (users : list t) (username_or_email password : string)
    (clk : clock) : option t * list t :=
  match query_first users username_or_email with
  | Some user =>
      if check_password user password && is_active user then
        let user' := update_last_login clk user in
        (Some user', update_first (same_row user) (fun _ => user') users)
      else (None, users)
  | None => (None, users)
  end.

End WithHash.

Section WithGenerate.
(** werkzeug's [generate_password_hash password], as a function of the
    salt it draws and of the password. *)
Variable generate_password_hash : string -> string -> string.

(** [cls.query.filter_by(username=username).first()] *)
Definition query_by_username (users : list t) (name : string) : option t :=
  List.find (fun u => String.eqb (username u) name) users.

(** [cls.query.filter_by(email=email).first()] *)
Definition query_by_email (users : list t) (address : string) : option t :=
  List.find (fun u => String.eqb (email u) address) users.

(** [create_user(cls, username, email, password, first_name, last_name,
    **kwargs)]: the created user and the table afterwards.  [new_id] is the
    primary key the insertion assigns and [salt] the salt [set_password]
    draws.  Of the keyword arguments the row of the model keeps
    [is_active], whose column default is [True]; [first_name] and
    [last_name] go to columns outside the model.  A new row has no
    [last_login]. *)
Definition create_user (new_id : Z) (salt : string)
    (new_username new_email password : string) (active : bool)
    : Py.M (list t) t :=
  let* users := Py.get in
  match query_by_username users new_username with
  | Some _ =>
      Py.raise (Py.ValueError
        ("Username '" +:+ new_username +:+ "' already exists"))
  | None =>
      match query_by_email users new_email with
      | Some _ =>
          Py.raise (Py.ValueError
            ("Email '" +:+ new_email +:+ "' already exists"))
      | None =>
          let user :=
            mk new_id new_username new_email
               (generate_password_hash salt password) active None in
          let* _ := Py.modify (fun l => l ++ [user]) in
          Py.ret user
      end
  end.

End WithGenerate.

End User.

(* ===================================================================== *)
(** * app/admin/routes.py: delete_category *)
(* ===================================================================== *)

Module Category.

(** A row of [categories]. *)
Record t := mk {
  name : string;
  image_filename : option string;
  is_active : bool
}.

(** [name.lower().replace(' ', '-').replace('&', 'and')] *)
Definition generate_slug (name : string) : string :=
  Py.replace_char "&" "and" (Py.replace_char " " "-" (Py.lower name)).

End Category.

Module admin.

Section WithNum.
Context {num : Type} `{!Py.PyNum num}.

Record db := mk_db {
  categories : gmap Z Category.t;
  products : list (Z * Product.t num)
}.

(** [Category.products] is declared
    [db.relationship('Product', backref='category', lazy='dynamic')]: the
    attribute is not a list but a query object (SQLAlchemy's
    [AppenderQuery]) that yields the rows when it is iterated. *)
Record AppenderQuery := mk_query {
  rows : list (Z * Product.t num)
}.

Definition Category_products (id : Z) (st : db) : AppenderQuery :=
  mk_query (List.filter (fun r => Product.category_id (snd r) =? id) (products st)).

(** Truth value of the query object in [if category.products:].  The
    class defines neither [__bool__] nor [__len__], so the test is
    Python's default for an object: true, whatever the query would
    return. *)
Definition AppenderQuery_bool (q : AppenderQuery) : bool := true.

(** The number of products the category owns. *)
Definition product_count (id : Z) (st : db) : nat :=
  length (rows (Category_products id st)).

Inductive response :=
| NotFound
| Redirect (endpoint : string).

(** A flashed message with its category. *)
Definition flash : Type := string * string.

Definition quote : string := String (ascii_of_nat 34) EmptyString.

(** [delete_category(id)], for a request that passed [login_required]
    and [admin_required]: the response, the flashed messages and the
    database afterwards.  (The deletion of the image file and the
    [except] branch for a failing commit are left out.) *)
Definition delete_category (id : Z) (st : db) : response * list flash * db :=
  match categories st !! id with
  | None => (NotFound, [], st)
  | Some category =>
      if AppenderQuery_bool (Category_products id st) then
        (Redirect "admin.categories",
         [("Cannot delete category that contains products. Please move or delete products first.",
           "error")],
         st)
      else
        (Redirect "admin.categories",
         [("Category " +:+ quote +:+ Category.name category +:+ quote
           +:+ " has been deleted successfully!", "success")],
         mk_db (delete id (categories st)) (products st))
  end.

End WithNum.
Arguments db : clear implicits.

End admin.

(* ===================================================================== *)
(** * app/auth/routes.py: merge_guest_cart_with_user_cart *)
(* ===================================================================== *)

Module auth.

Section WithNum.
Context {num : Type} `{!Py.PyNum num}.

(** The loop [for guest_item in guest_cart.items], with its counter
    [merged_items].  The list is the one read before the loop; the turn
    for the [k]-th item runs [add_item] on the clock [clks k].  A
    [ValueError] is caught and the loop goes on; any other exception
    leaves the loop. *)
Fixpoint merge_items (user_cart : Z) (guest_items : list (CartItem.t num))
    (clks : nat -> clock) (merged_items : nat) : Py.M (Cart.db num) nat :=
  match guest_items with
  | [] => Py.ret merged_items
  | guest_item :: rest =>
      fun st =>
        match Cart.add_item user_cart (CartItem.product_id guest_item)
                (CartItem.quantity guest_item) (clks 0%nat) st with
        | (Py.Return _, st') =>
            merge_items user_cart rest (fun k => clks (S k))
              (S merged_items) st'
        | (Py.Raise (Py.ValueError _), st') =>
            merge_items user_cart rest (fun k => clks (S k)) merged_items st'
        | (Py.Raise e, st') => (Py.Raise e, st')
        end
  end.

(** [user_cart = Cart(user_id=user.id); db.session.add(user_cart);
    db.session.flush()]: the new row, with the key the flush assigns and
    the column default of [updated_at]. *)
Definition create_cart (new_cart_id user_id : Z) (now : datetime.t)
    (st : Cart.db num) : Cart.db num :=
  {| Cart.products := Cart.products st;
     Cart.carts := <[new_cart_id := Cart.mk (Some user_id) None (Some now)]>
                     (Cart.carts st);
     Cart.cart_items := Cart.cart_items st |}.

(** [db.session.delete(guest_cart)]: the row goes, and with it, by the
    cascade of [Cart.items], the rows of its items. *)
Definition delete_cart (cart : Z) (st : Cart.db num) : Cart.db num :=
  {| Cart.products := Cart.products st;
     Cart.carts := delete cart (Cart.carts st);
     Cart.cart_items :=
       List.filter (fun it => negb (CartItem.cart_id it =? cart))
         (Cart.cart_items st) |}.

(** The cart the items go to: [user.cart], or the one created. *)
Definition target_cart (user_cart : option Z) (new_cart_id : Z) : Z :=
  match user_cart with
  | Some c => c
  | None => new_cart_id
  end.

(** The body of the [try] of [merge_guest_cart_with_user_cart(user)].
    [guest_cart] is the cart found for the session's [cart_session_id]
    ([None] without such an id or such a cart), [user_cart] is [user.cart].
    The result is [None] where the function returns at once, and
    otherwise the number [merged_items] that decides on the message; an
    exception is what would reach the handler of the [try]. *)
Definition merge_guest_cart_with_user_cart (guest_cart : option Z)
    (user_id : Z) (user_cart : option Z) (new_cart_id : Z)
    (now : datetime.t) (clks : nat -> clock)
    : Py.M (Cart.db num) (option nat) :=
  fun st =>
    match guest_cart with
    | None => (Py.Return None, st)
    | Some guest =>
        if Cart.is_empty guest st then (Py.Return None, st)
        else
          let st0 :=
            match user_cart with
            | Some _ => st
            | None => create_cart new_cart_id user_id now st
            end in
          match merge_items (target_cart user_cart new_cart_id)
                  (Cart.items guest st0) clks 0%nat st0 with
          | (Py.Return merged_items, st1) =>
              (Py.Return (Some merged_items), delete_cart guest st1)
          | (Py.Raise e, st1) => (Py.Raise e, st1)
          end
    end.

End WithNum.

End auth.

(* ===================================================================== *)
(** * Sample data, in exact rationals *)
(* ===================================================================== *)

(** A product in the exact-rational instance, to run the code on. *)
Definition sample_product (price : Q) (sale_price : option Q) (stock : Z)
    : Product.t Q :=
  Product.mk price sale_price stock 5 1 true None.

Definition epoch : datetime.t := datetime.mk 2024 1 15 10 30 0 0.

Definition sample_clock : clock := fun _ => epoch.

Definition sample_cart : Cart.t := Cart.mk (Some 1) None None.

(** One product (id 1, base price 100), one cart (id 1) and its lines. *)
Definition sample_db (sale_price : option Q) (stock : Z)
    (lines : list (CartItem.t Q)) : Cart.db Q :=
  Cart.mk_db (<[1 := sample_product 100 sale_price stock]> ∅)
             (<[1 := sample_cart]> ∅) lines.

Definition sample_line (quantity : Z) (price : Q) : CartItem.t Q :=
  CartItem.mk 1 1 quantity price None.

(** A pending order without notes, as it is built: 2 at 10.00 and 1 at
    5.50, shipping 5.0, discount 1.0. *)
Definition sample_order : Order.t Q :=
  Order.mk 1 OrderStatus.PENDING (Py.Int 0) (Py.Int 0) (Py.Float 5%Q)
    (Py.Float 1%Q) (Py.Int 0) None None None None None
    [OrderItem.mk 1 1 2 10%Q; OrderItem.mk 1 2 1 (55 # 10)%Q].

(** A catalogue of two products, 10 and 4 in stock, without carts. *)
Definition sample_shop : Cart.db Q :=
  Cart.mk_db (<[1 := sample_product 10 None 10]>
                (<[2 := sample_product (55 # 10) None 4]> ∅))
             ∅ [].

(** An order that asks 2 of product 1 and then 100 of product 2. *)
Definition greedy_order : Order.t Q :=
  Order.mk 2 OrderStatus.PENDING (Py.Int 0) (Py.Int 0) (Py.Int 0) (Py.Int 0)
    (Py.Int 0) None None None None None
    [OrderItem.mk 2 1 2 10%Q; OrderItem.mk 2 2 100 (55 # 10)%Q].

(** A session with the sample cart holding 2 of product 1 (10 in stock),
    and no order yet. *)
Definition sample_session : Order.db Q :=
  Order.mk_db (sample_db None 10 [sample_line 2 100]) [].

(** The catalogue of [sample_shop] with the cart of user 1, holding 2 of
    product 1, and the cart of a guest session, holding 3 of product 1 and
    1 of product 2. *)
Definition guest_line_1 : CartItem.t Q := CartItem.mk 2 1 3 10%Q None.
Definition guest_line_2 : CartItem.t Q := CartItem.mk 2 2 1 (55 # 10)%Q None.

Definition sample_login_db : Cart.db Q :=
  Cart.mk_db (Cart.products sample_shop)
             (<[1 := sample_cart]>
                (<[2 := Cart.mk None (Some "0f8fad5b") None]> ∅))
             [CartItem.mk 1 1 2 10%Q None; guest_line_1; guest_line_2].


(** A stand-in for the text of the list of unavailable items. *)
Definition sample_repr (l : list (CartItem.t Q * string)) : string :=
  pretty (Z.of_nat (length l)) +:+ " items".

(** A stand-in for the password hash, to run the code on: the hash of
    [pw] is ["hash:" ++ pw]. *)
Definition toy_check_password_hash (pwhash password : string) : bool :=
  String.eqb pwhash ("hash:" +:+ password).

(** The matching stand-in for the hashing: the salt is not used. *)
Definition toy_generate_password_hash (salt password : string) : string :=
  "hash:" +:+ password.

(** Alice took Bob's email address as her username.  The usernames are
    distinct and so are the emails, as the columns require. *)
Definition alice : User.t :=
  User.mk 1 "bob@example.com" "alice@example.com" "hash:alice-pw" true None.

Definition bob : User.t :=
  User.mk 2 "bob" "bob@example.com" "hash:bob-pw" true None.

(** A database with one category and no product. *)
Definition empty_category_db : admin.db Q :=
  admin.mk_db (<[1 := Category.mk "Books" None true]> ∅) [].

(* ===================================================================== *)
(** * Predicates and measures the statements use *)
(* ===================================================================== *)

(** The characters a product slug is made of: [a-z], [0-9] and the hyphen. *)
Definition product_slug_char (c : ascii) : bool :=
  let n := nat_of_ascii c in
  (((97 <=? n) && (n <=? 122)) || ((48 <=? n) && (n <=? 57)))%nat
  || Ascii.eqb c "-".

(** What is left in a category slug: no capital, no space, no ampersand. *)
Definition category_slug_char (c : ascii) : bool :=
  Ascii.eqb (Py.lower_char c) c
  && negb (Ascii.eqb c " ") && negb (Ascii.eqb c "&").

(** Any character but the line feed. *)
Definition not_newline (c : ascii) : bool := negb (Ascii.eqb c (ascii_of_nat 10)).

(** A line without an issue: its product is in the catalogue, is active
    and has the line's quantity in stock. *)
Definition line_ok {num} (st : Cart.db num) (item : CartItem.t num) : Prop :=
  exists product,
    Cart.products st !! CartItem.product_id item = Some product
    /\ Product.is_active product = true
    /\ CartItem.quantity item <= Product.stock_quantity product.

(** The quantity an order's lines ask of one product. *)
Definition qty_for {num} (product_id : Z) (l : list (OrderItem.t num)) : Z :=
  fold_right
    (fun item acc =>
       if OrderItem.product_id item =? product_id
       then OrderItem.quantity item + acc else acc)
    0 l.

(** A product with [delta] more in stock and no [updated_at]. *)
Definition shift {num} (delta : Z) (p : Product.t num) : Product.t num :=
  Product.mk (Product.price p) (Product.sale_price p)
    (Product.stock_quantity p + delta) (Product.min_stock_level p)
    (Product.category_id p) (Product.is_active p) None.

(** A product without its [updated_at]. *)
Definition forget_updated_at {num} (p : Product.t num) : Product.t num :=
  Product.mk (Product.price p) (Product.sale_price p)
    (Product.stock_quantity p) (Product.min_stock_level p)
    (Product.category_id p) (Product.is_active p) None.

(* ===================================================================== *)
(** * Stock and prices of a product *)
(* ===================================================================== *)

Ltac unfold_monad :=
  unfold Py.bind, Py.get, Py.put, Py.modify, Py.ret, Py.raise; cbv beta iota.

Ltac run_monad :=
  unfold Py.bind, Py.get, Py.put, Py.modify, Py.ret, Py.raise; simpl.

Section ProductFacts.
Context {num : Type} `{!Py.PyNum num}.
Implicit Types (p : Product.t num) (q : Z) (clk : clock).

Lemma reserve_stock_rejects p q clk :
  q <= 0 \/ Product.stock_quantity p < q ->
  exists msg, Product.reserve_stock q clk p = (Py.Raise (Py.ValueError msg), p).
Proof.
  intros Hbad. unfold Product.reserve_stock. run_monad.
  destruct (Z.leb_spec q 0) as [Hle|Hgt]; [eauto|].
  destruct (Z.ltb_spec (Product.stock_quantity p) q) as [Hlt|Hge]; [eauto|].
  lia.
Qed.

Lemma reserve_stock_accepts p q clk :
  0 < q <= Product.stock_quantity p ->
  Product.reserve_stock q clk p
  = (Py.Return true,
     Product.set_stock p (Product.stock_quantity p - q) (clk 0%nat)).
Proof.
  intros [Hpos Hle]. unfold Product.reserve_stock. run_monad.
  destruct (Z.leb_spec q 0); [lia|].
  destruct (Z.ltb_spec (Product.stock_quantity p) q); [lia|reflexivity].
Qed.

Lemma update_stock_rejects p q clk :
  q < 0 ->
  exists msg, Product.update_stock q clk p = (Py.Raise (Py.ValueError msg), p).
Proof.
  intros Hneg. unfold Product.update_stock. run_monad.
  destruct (Z.ltb_spec q 0); [eauto|lia].
Qed.

Lemma update_stock_accepts p q clk :
  0 <= q ->
  Product.update_stock q clk p = (Py.Return tt, Product.set_stock p q (clk 0%nat)).
Proof.
  intros Hnn. unfold Product.update_stock. run_monad.
  destruct (Z.ltb_spec q 0); [lia|reflexivity].
Qed.

(** Whatever a stock operation does, it ends in one of two ways: it raised
    and the product is as before, or it returned and the stock is the
    non-negative number the operation computes. *)
Lemma run_stock_op_cases op clk p :
  (exists e, Product.run_stock_op op clk p = (Py.Raise e, p))
  \/ (exists q', Product.run_stock_op op clk p
                 = (Py.Return tt, Product.set_stock p q' (clk 0%nat))
                 /\ (0 <= Product.stock_quantity p -> 0 <= q')).
Proof.
  destruct op as [q|q|q]; unfold Product.run_stock_op.
  - unfold Product.reserve_stock. run_monad.
    destruct (Z.leb_spec q 0); [left; eauto|].
    destruct (Z.ltb_spec (Product.stock_quantity p) q); [left; eauto|].
    right. eexists. split; [reflexivity|lia].
  - unfold Product.release_stock. run_monad.
    destruct (Z.leb_spec q 0); [left; eauto|].
    right. eexists. split; [reflexivity|lia].
  - unfold Product.update_stock. run_monad.
    destruct (Z.ltb_spec q 0); [left; eauto|].
    right. eexists. split; [reflexivity|lia].
Qed.

Lemma run_stock_op_raise_unchanged op clk p e p' :
  Product.run_stock_op op clk p = (Py.Raise e, p') -> p' = p.
Proof.
  intros Hrun.
  destruct (run_stock_op_cases op clk p) as [[e0 He]|[q' [Hq _]]];
    rewrite Hrun in *; congruence.
Qed.

Lemma run_stock_op_nonneg op clk p :
  0 <= Product.stock_quantity p ->
  0 <= Product.stock_quantity (snd (Product.run_stock_op op clk p)).
Proof.
  intros Hnn.
  destruct (run_stock_op_cases op clk p) as [[e0 He]|[q' [Hq Hq']]].
  - rewrite He. exact Hnn.
  - rewrite Hq. simpl. auto.
Qed.

(** C4.  [reserve_stock] raises for a quantity that is not positive or
    exceeds the stock and otherwise takes the quantity off the stock;
    [update_stock] raises for a negative quantity and otherwise sets the
    stock; an operation that raises leaves the product as it was; and no
    stock operation takes a non-negative stock below zero. *)
Theorem stock_operations_keep_stock_non_negative p q clk :
  (q <= 0 \/ Product.stock_quantity p < q ->
     exists msg, Product.reserve_stock q clk p = (Py.Raise (Py.ValueError msg), p))
  /\ (0 < q <= Product.stock_quantity p ->
     Product.reserve_stock q clk p
     = (Py.Return true,
        Product.set_stock p (Product.stock_quantity p - q) (clk 0%nat)))
  /\ (q < 0 ->
     exists msg, Product.update_stock q clk p = (Py.Raise (Py.ValueError msg), p))
  /\ (0 <= q ->
     Product.update_stock q clk p
     = (Py.Return tt, Product.set_stock p q (clk 0%nat)))
  /\ (forall op e p',
     Product.run_stock_op op clk p = (Py.Raise e, p') ->
     Product.stock_quantity p' = Product.stock_quantity p /\ p' = p)
  /\ (forall op,
     0 <= Product.stock_quantity p ->
     0 <= Product.stock_quantity (snd (Product.run_stock_op op clk p))).
Proof.
  split; [apply reserve_stock_rejects|].
  split; [apply reserve_stock_accepts|].
  split; [apply update_stock_rejects|].
  split; [apply update_stock_accepts|].
  split.
  - intros op e p' Hrun.
    apply run_stock_op_raise_unchanged in Hrun. subst p'. split; reflexivity.
  - intros op. apply run_stock_op_nonneg.
Qed.

Lemma get_display_price_sale p s :
  Product.sale_price p = Some s -> Py.nbool s = true ->
  Product.get_display_price p = Py.float s.
Proof.
  intros Hs Hb. unfold Product.get_display_price. rewrite Hs, Hb. reflexivity.
Qed.

Lemma get_display_price_base p :
  Product.sale_price p = None
  \/ (exists s, Product.sale_price p = Some s /\ Py.nbool s = false) ->
  Product.get_display_price p = Py.float (Product.price p).
Proof.
  unfold Product.get_display_price.
  intros [Hn|[s [Hs Hb]]]; [rewrite Hn|rewrite Hs, Hb]; reflexivity.
Qed.

(** C1, as the code has it.  The display price is the sale price as soon
    as a sale price is present and not zero, and the base price otherwise;
    no comparison with the base price is made, so a sale price that is not
    lower than the base price (a product that [is_on_sale] does not count
    as on sale) is the display price all the same.  [get_effective_price]
    is the same function. *)
Theorem display_price_is_sale_price_when_set p :
  Product.get_effective_price p = Product.get_display_price p
  /\ (forall s,
        Product.sale_price p = Some s -> Py.nbool s = true ->
        Product.get_display_price p = Py.float s)
  /\ (forall s,
        Product.sale_price p = Some s -> Py.nbool s = true ->
        Py.nlt s (Product.price p) = false ->
        Product.is_on_sale p = false
        /\ Product.get_display_price p = Py.float s)
  /\ (Product.sale_price p = None
      \/ (exists s, Product.sale_price p = Some s /\ Py.nbool s = false) ->
      Product.get_display_price p = Py.float (Product.price p)).
Proof.
  split; [reflexivity|]. split; [|split].
  - intros s Hs Hb. now apply get_display_price_sale.
  - intros s Hs Hb Hlt. split; [|now apply get_display_price_sale].
    unfold Product.is_on_sale. now rewrite Hs.
  - apply get_display_price_base.
Qed.

End ProductFacts.

(** The spec's example for C4: a product with stock 10 rejects
    [reserve_stock(20)] and keeps its stock. *)
Example reserve_20_of_10 :
  Product.reserve_stock 20 sample_clock (sample_product 100 None 10)
  = (Py.Raise (Py.ValueError "Insufficient stock. Available: 10, Requested: 20"),
     sample_product 100 None 10).
Proof. vm_compute. reflexivity. Qed.

Example reserve_3_of_10 :
  Product.stock_quantity
    (snd (Product.reserve_stock 3 sample_clock (sample_product 100 None 10))) = 7.
Proof. reflexivity. Qed.

(** The spec's own examples of the effective price hold. *)
Example display_price_regular :
  Product.get_effective_price (sample_product 100 None 10) = 100%Q
  /\ Product.is_on_sale (sample_product 100 None 10) = false.
Proof. split; reflexivity. Qed.

Example display_price_on_sale :
  Product.get_effective_price (sample_product 100 (Some 80%Q) 10) = 80%Q
  /\ Product.is_on_sale (sample_product 100 (Some 80%Q) 10) = true.
Proof. split; reflexivity. Qed.

(** C1 fails as stated: with base price 100 and sale price 120 the sale
    price is set and not lower than the base price, the product is not on
    sale, and still the effective price is 120, not 100. *)
Lemma display_price_counterexample :
  let p := sample_product 100 (Some 120%Q) 10 in
  Product.sale_price p = Some 120%Q
  /\ Py.nlt 120%Q (Product.price p) = false
  /\ Product.is_on_sale p = false
  /\ Product.get_effective_price p = 120%Q
  /\ ~ (Product.get_effective_price p == Product.price p)%Q.
Proof.
  repeat split; try reflexivity.
  simpl. intros Heq. discriminate Heq.
Qed.

(* ===================================================================== *)
(** * Rows of a list: lookups, writes and deletes *)
(* ===================================================================== *)

Section Rows.
Context {A K : Type}.
Implicit Types (p : A -> bool) (l : list A) (key : A -> K).

Lemma find_filter p (g : A -> bool) l :
  List.find p (List.filter g l) = List.find (fun x => g x && p x) l.
Proof.
  induction l as [|x l IH]; simpl; [reflexivity|].
  destruct (g x); simpl; [|exact IH].
  destruct (p x); [reflexivity|exact IH].
Qed.

Lemma find_update_first p l x y :
  List.find p l = Some x -> p y = true ->
  List.find p (update_first p (fun _ => y) l) = Some y.
Proof.
  intros Hfind Hy. induction l as [|a l IH]; simpl in *; [discriminate|].
  destruct (p a) eqn:Ha; simpl.
  - now rewrite Hy.
  - rewrite Ha. auto.
Qed.

Lemma find_other_update_first p (p' : A -> bool) (f : A -> A) l :
  (forall x, p x = true -> p' x = false /\ p' (f x) = false) ->
  List.find p' (update_first p f l) = List.find p' l.
Proof.
  intros Hsep. induction l as [|a l IH]; simpl; [reflexivity|].
  destruct (p a) eqn:Ha; simpl.
  - destruct (Hsep a Ha) as [-> ->]. reflexivity.
  - destruct (p' a); [reflexivity|exact IH].
Qed.

Lemma map_update_first key p (f : A -> A) l :
  (forall x, p x = true -> key (f x) = key x) ->
  map key (update_first p f l) = map key l.
Proof.
  intros Hkey. induction l as [|a l IH]; simpl; [reflexivity|].
  destruct (p a) eqn:Ha; simpl; [now rewrite Hkey|now rewrite IH].
Qed.

Lemma update_first_none p (f : A -> A) l :
  List.find p l = None -> update_first p f l = l.
Proof.
  induction l as [|a l IH]; simpl; [reflexivity|].
  destruct (p a); [discriminate|]. intros Hnone. now rewrite IH.
Qed.

Lemma insert_row_split (ltb : A -> A -> bool) x l :
  exists l1 l2, l = l1 ++ l2 /\ insert_row ltb x l = l1 ++ x :: l2.
Proof.
  induction l as [|a l (l1 & l2 & Hl & Hins)]; cbn [insert_row].
  - exists [], []. auto.
  - destruct (ltb x a).
    + exists [], (a :: l). auto.
    + exists (a :: l1), l2. cbn [app]. now rewrite <- Hl, Hins.
Qed.

Lemma in_insert_row (ltb : A -> A -> bool) x l a :
  In a (insert_row ltb x l) <-> a = x \/ In a l.
Proof.
  destruct (insert_row_split ltb x l) as (l1 & l2 & -> & ->).
  rewrite !in_app_iff. cbn [In]. intuition congruence.
Qed.

Lemma find_insert_row_new p (ltb : A -> A -> bool) l x :
  List.find p l = None -> p x = true ->
  List.find p (insert_row ltb x l) = Some x.
Proof.
  intros Hnone Hx. induction l as [|a l IH]; cbn [insert_row List.find] in *.
  - now rewrite Hx.
  - destruct (p a) eqn:Ha; [discriminate|].
    destruct (ltb x a); cbn [List.find]; rewrite ?Hx, ?Ha; auto.
Qed.

Lemma find_insert_row_other p (ltb : A -> A -> bool) l x :
  p x = false -> List.find p (insert_row ltb x l) = List.find p l.
Proof.
  intros Hx. induction l as [|a l IH]; cbn [insert_row List.find].
  - now rewrite Hx.
  - destruct (ltb x a); cbn [List.find]; rewrite ?Hx; [reflexivity|].
    destruct (p a); [reflexivity|exact IH].
Qed.

Lemma filter_insert_row_other (g : A -> bool) (ltb : A -> A -> bool) l x :
  g x = false -> List.filter g (insert_row ltb x l) = List.filter g l.
Proof.
  intros Hx. destruct (insert_row_split ltb x l) as (l1 & l2 & -> & ->).
  rewrite !List.filter_app. cbn [List.filter]. now rewrite Hx.
Qed.

Lemma remove_first_none p l :
  List.find p l = None -> remove_first p l = l.
Proof.
  induction l as [|a l IH]; simpl; [reflexivity|].
  destruct (p a); [discriminate|]. intros Hnone. now rewrite IH.
Qed.

Lemma remove_first_length p l x :
  List.find p l = Some x -> S (length (remove_first p l)) = length l.
Proof.
  revert x. induction l as [|a l IH]; simpl; intros x Hfind; [discriminate|].
  destruct (p a); [reflexivity|]. simpl. f_equal. eauto.
Qed.

Lemma remove_first_incl p l x : In x (remove_first p l) -> In x l.
Proof.
  induction l as [|a l IH]; simpl; [tauto|].
  destruct (p a); simpl; tauto.
Qed.

Lemma NoDup_map_remove_first key p l :
  NoDup (map key l) -> NoDup (map key (remove_first p l)).
Proof.
  induction l as [|a l IH]; simpl; intros Hnd; [exact Hnd|].
  apply NoDup_cons in Hnd as [Hnotin Hnd].
  destruct (p a); [exact Hnd|]. simpl.
  apply NoDup_cons. split; [|auto].
  intros Hin. apply Hnotin.
  apply list_elem_of_In in Hin. apply list_elem_of_In.
  apply in_map_iff in Hin as [y [Hy Hin]].
  apply in_map_iff. exists y. split; [exact Hy|eauto using remove_first_incl].
Qed.

Lemma NoDup_map_filter key (g : A -> bool) l :
  NoDup (map key l) -> NoDup (map key (List.filter g l)).
Proof.
  induction l as [|a l IH]; simpl; intros Hnd; [exact Hnd|].
  apply NoDup_cons in Hnd as [Hnotin Hnd].
  destruct (g a); simpl; [|auto].
  apply NoDup_cons. split; [|auto].
  intros Hin. apply Hnotin.
  apply list_elem_of_In in Hin. apply list_elem_of_In.
  apply in_map_iff in Hin as [y [Hy Hin]].
  apply in_map_iff. exists y. split; [exact Hy|].
  apply filter_In in Hin. tauto.
Qed.

(** When [p] tests the key of a row and keys are not repeated, a row that
    passes [p] is the only one. *)
Lemma filter_unique key p l x (k : K) :
  (forall y, p y = true <-> key y = k) ->
  NoDup (map key l) -> List.find p l = Some x -> List.filter p l = [x].
Proof.
  intros Hp. induction l as [|a l IH]; simpl; intros Hnd Hfind; [discriminate|].
  apply NoDup_cons in Hnd as [Hnotin Hnd].
  destruct (p a) eqn:Ha.
  - injection Hfind as ->. f_equal.
    assert (Hnone : forall y, In y l -> p y = false).
    { intros y Hy. destruct (p y) eqn:Hpy; [|reflexivity].
      exfalso. apply Hnotin. apply list_elem_of_In, in_map_iff.
      exists y. split; [|exact Hy].
      apply Hp in Hpy. apply Hp in Ha. congruence. }
    clear -Hnone. induction l as [|b l IH]; simpl; [reflexivity|].
    rewrite (Hnone b) by (left; reflexivity).
    apply IH. intros y Hy. apply Hnone. right. exact Hy.
  - auto.
Qed.

Lemma filter_none p l : List.find p l = None -> List.filter p l = [].
Proof.
  induction l as [|a l IH]; simpl; [reflexivity|].
  destruct (p a); [discriminate|exact IH].
Qed.

Lemma find_remove_first_unique key p l (k : K) :
  (forall y, p y = true <-> key y = k) ->
  NoDup (map key l) -> List.find p (remove_first p l) = None.
Proof.
  intros Hp. induction l as [|a l IH]; simpl; intros Hnd; [reflexivity|].
  apply NoDup_cons in Hnd as [Hnotin Hnd].
  destruct (p a) eqn:Ha; simpl.
  - destruct (List.find p l) as [y|] eqn:Hfind; [|reflexivity].
    exfalso. apply Hnotin. apply find_some in Hfind as [Hin Hy].
    apply list_elem_of_In, in_map_iff. exists y. split; [|exact Hin].
    apply Hp in Hy. apply Hp in Ha. congruence.
  - rewrite Ha. auto.
Qed.

Lemma find_none_key_notin key p l (k : K) :
  (forall y, p y = true <-> key y = k) ->
  List.find p l = None -> k ∉ map key l.
Proof.
  intros Hp Hnone Hin.
  apply list_elem_of_In, in_map_iff in Hin as [y [Hy Hin]].
  apply Hp in Hy. apply (find_none _ _ Hnone) in Hin. congruence.
Qed.

Lemma NoDup_map_insert_row key (ltb : A -> A -> bool) l x :
  NoDup (map key l) -> key x ∉ map key l ->
  NoDup (map key (insert_row ltb x l)).
Proof.
  destruct (insert_row_split ltb x l) as (l1 & l2 & -> & ->).
  rewrite !map_app. cbn [map]. intros Hnd Hnotin.
  apply NoDup_app in Hnd as (Hnd1 & Hsep & Hnd2).
  rewrite elem_of_app in Hnotin.
  apply NoDup_app. split; [exact Hnd1|]. split.
  - intros k Hk Hk'. apply elem_of_cons in Hk' as [->|Hk'];
      [tauto|exact (Hsep k Hk Hk')].
  - apply NoDup_cons. split; [tauto|exact Hnd2].
Qed.

Lemma NoDup_map_app_new key l x :
  NoDup (map key l) -> key x ∉ map key l -> NoDup (map key (l ++ [x])).
Proof.
  intros Hnd Hnotin. rewrite map_app. simpl.
  apply NoDup_app. split; [exact Hnd|]. split.
  - intros k Hk Hk'. apply list_elem_of_singleton in Hk'. subst k. auto.
  - apply NoDup_singleton.
Qed.

End Rows.

(* ===================================================================== *)
(** * The cart *)
(* ===================================================================== *)

Section CartFacts.
Context {num : Type} `{!Py.PyNum num}.
Implicit Types (st : Cart.db num) (self pid q : Z) (clk : clock)
  (it : CartItem.t num).

Lemma is_line_key self pid it :
  Cart.is_line self pid it = true <-> Cart.key it = (self, pid).
Proof.
  unfold Cart.is_line, Cart.key. rewrite andb_true_iff, !Z.eqb_eq.
  split; [intros [-> ->]; reflexivity|intros [= -> ->]; auto].
Qed.

Lemma get_item_by_product_find self pid st :
  Cart.get_item_by_product self pid st
  = List.find (Cart.is_line self pid) (Cart.cart_items st).
Proof. unfold Cart.get_item_by_product, Cart.items. apply find_filter. Qed.

Lemma get_item_by_product_is_line self pid st it :
  Cart.get_item_by_product self pid st = Some it ->
  Cart.is_line self pid it = true /\ In it (Cart.cart_items st).
Proof.
  rewrite get_item_by_product_find. intros Hfind.
  apply find_some in Hfind. tauto.
Qed.

(** The three ways [add_item] ends. *)
Lemma add_item_cases self pid q clk st :
  (exists msg, Cart.add_item self pid q clk st = (Py.Raise (Py.ValueError msg), st))
  \/ (exists it product,
        Cart.get_item_by_product self pid st = Some it
        /\ Cart.query_active_product pid st = Some product
        /\ q + CartItem.quantity it <= Product.stock_quantity product
        /\ Cart.add_item self pid q clk st
           = (Py.Return (CartItem.set_quantity it (CartItem.quantity it + q) (clk 0%nat)),
              Cart.touch self (clk 1%nat)
                (Cart.set_cart_items
                   (update_first (Cart.is_line self pid)
                      (fun _ => CartItem.set_quantity it (CartItem.quantity it + q) (clk 0%nat)))
                   st)))
  \/ (exists product,
        Cart.get_item_by_product self pid st = None
        /\ Cart.query_active_product pid st = Some product
        /\ q <= Product.stock_quantity product
        /\ Cart.add_item self pid q clk st
           = (Py.Return (CartItem.mk self pid q
                           (Product.get_effective_price product) None),
              Cart.touch self (clk 0%nat)
                (Cart.set_cart_items
                   (insert_row Cart.index_ltb
                      (CartItem.mk self pid q
                         (Product.get_effective_price product) None))
                   st))).
Proof.
  unfold Cart.add_item. unfold_monad.
  destruct (Cart.query_active_product pid st) as [product|] eqn:Hprod;
    [|left; eexists; reflexivity].
  destruct (Cart.get_item_by_product self pid st) as [it|] eqn:Hitem;
    unfold Cart.quantity_or_zero.
  - destruct (Z.gtb_spec (q + CartItem.quantity it) (Product.stock_quantity product)).
    + left. eexists. reflexivity.
    + right. left. exists it, product. repeat split; try lia.
  - destruct (Z.gtb_spec (q + 0) (Product.stock_quantity product)).
    + left. eexists. reflexivity.
    + right. right. exists product. repeat split; try lia.
Qed.

Lemma add_item_raise_unchanged self pid q clk st e st' :
  Cart.add_item self pid q clk st = (Py.Raise e, st') -> st' = st.
Proof.
  intros Hrun.
  destruct (add_item_cases self pid q clk st)
    as [[msg Hr]|[(it & product & _ & _ & _ & Hr)|(product & _ & _ & _ & Hr)]];
    rewrite Hr in Hrun; congruence.
Qed.

(** What a successful [add_item] leaves behind: the returned line is the
    cart's line for the product, its quantity is the old one (zero for a
    new line) plus the addition, and its price is the old line's price, or
    the product's effective price for a new line. *)
Lemma add_item_return self pid q clk st it' st' :
  Cart.add_item self pid q clk st = (Py.Return it', st') ->
  Cart.get_item_by_product self pid st' = Some it'
  /\ CartItem.quantity it'
     = Cart.quantity_or_zero (Cart.get_item_by_product self pid st) + q
  /\ Cart.products st' = Cart.products st
  /\ match Cart.get_item_by_product self pid st with
     | Some it => CartItem.price it' = CartItem.price it
     | None =>
         exists product,
           Cart.products st !! pid = Some product
           /\ CartItem.price it' = Product.get_effective_price product
     end.
Proof.
  intros Hrun.
  destruct (add_item_cases self pid q clk st)
    as [[msg Hr]|[(it & product & Hit & _ & _ & Hr)|(product & Hit & Hp & _ & Hr)]];
    rewrite Hr in Hrun; [discriminate| |];
    injection Hrun as <- <-; rewrite Hit;
    rewrite get_item_by_product_find in *; simpl.
  - split; [|auto].
    apply find_update_first with (x := it); [exact Hit|].
    apply find_some in Hit as [_ Hline]. exact Hline.
  - split; [|split; [lia|split; [reflexivity|]]].
    + apply find_insert_row_new; [exact Hit|].
      unfold Cart.is_line. simpl. now rewrite !Z.eqb_refl.
    + exists product. split; [|reflexivity].
      unfold Cart.query_active_product in Hp.
      destruct (Cart.products st !! pid) as [p0|]; [|discriminate].
      destruct (Product.is_active p0); congruence.
Qed.

Lemma add_item_unique self pid q clk st :
  Cart.unique_cart_product st ->
  Cart.unique_cart_product (snd (Cart.add_item self pid q clk st)).
Proof.
  intros Hu. unfold Cart.unique_cart_product in *.
  destruct (add_item_cases self pid q clk st)
    as [[msg Hr]|[(it & product & Hit & _ & _ & Hr)|(product & Hit & _ & _ & Hr)]];
    rewrite Hr; simpl; [exact Hu| |].
  - rewrite map_update_first; [exact Hu|].
    intros x Hx. apply is_line_key in Hx. rewrite Hx.
    apply get_item_by_product_is_line in Hit as [Hline _].
    apply is_line_key in Hline. exact Hline.
  - apply NoDup_map_insert_row; [exact Hu|].
    rewrite get_item_by_product_find in Hit.
    exact (find_none_key_notin Cart.key _ _ (self, pid)
             (is_line_key self pid) Hit).
Qed.

(** The two ways [remove_item] ends; it never raises. *)
Lemma remove_item_cases self pid clk st :
  (Cart.get_item_by_product self pid st = None
   /\ Cart.remove_item self pid clk st = (Py.Return tt, st))
  \/ (exists it,
        Cart.get_item_by_product self pid st = Some it
        /\ Cart.remove_item self pid clk st
           = (Py.Return tt,
              Cart.touch self (clk 0%nat)
                (Cart.set_cart_items (remove_first (Cart.is_line self pid)) st))).
Proof.
  unfold Cart.remove_item. unfold_monad.
  destruct (Cart.get_item_by_product self pid st) as [it|] eqn:Hit.
  - right. exists it. split; reflexivity.
  - left. split; reflexivity.
Qed.

Lemma remove_item_unique self pid clk st :
  Cart.unique_cart_product st ->
  Cart.unique_cart_product (snd (Cart.remove_item self pid clk st)).
Proof.
  intros Hu. unfold Cart.unique_cart_product in *.
  destruct (remove_item_cases self pid clk st) as [[_ Hr]|(it & _ & Hr)];
    rewrite Hr; simpl; [exact Hu|].
  now apply NoDup_map_remove_first.
Qed.

(** The ways [update_item_quantity] ends. *)
Lemma update_item_quantity_cases self pid q clk st :
  (exists e, Cart.update_item_quantity self pid q clk st = (Py.Raise e, st))
  \/ (q <= 0
      /\ Cart.update_item_quantity self pid q clk st
         = Cart.remove_item self pid clk st)
  \/ (exists it product,
        0 < q <= Product.stock_quantity product
        /\ Cart.get_item_by_product self pid st = Some it
        /\ Cart.products st !! pid = Some product
        /\ Cart.update_item_quantity self pid q clk st
           = (Py.Return tt,
              Cart.touch self (clk 1%nat)
                (Cart.set_cart_items
                   (update_first (Cart.is_line self pid)
                      (fun _ => CartItem.set_quantity it q (clk 0%nat)))
                   st))).
Proof.
  unfold Cart.update_item_quantity. unfold_monad.
  destruct (Cart.get_item_by_product self pid st) as [it|] eqn:Hit;
    [|left; eexists; reflexivity].
  destruct (Z.leb_spec q 0) as [Hle|Hpos].
  { right. left. split; [exact Hle|].
    unfold Cart.remove_item. unfold_monad. reflexivity. }
  destruct (Cart.products st !! pid) as [product|] eqn:Hprod;
    [|left; eexists; reflexivity].
  destruct (Z.gtb_spec q (Product.stock_quantity product)) as [Hgt|Hok].
  - left. eexists. reflexivity.
  - right. right. exists it, product. repeat split; lia.
Qed.

Lemma update_item_quantity_unique self pid q clk st :
  Cart.unique_cart_product st ->
  Cart.unique_cart_product (snd (Cart.update_item_quantity self pid q clk st)).
Proof.
  intros Hu.
  destruct (update_item_quantity_cases self pid q clk st)
    as [[e Hr]|[[_ Hr]|(it & product & _ & Hit & _ & Hr)]]; rewrite Hr.
  - exact Hu.
  - now apply remove_item_unique.
  - unfold Cart.unique_cart_product in *. simpl.
    rewrite map_update_first; [exact Hu|].
    intros x Hx. apply is_line_key in Hx. rewrite Hx.
    apply get_item_by_product_is_line in Hit as [Hline _].
    apply is_line_key in Hline. exact Hline.
Qed.

Lemma clear_cart_unique self clk st :
  Cart.unique_cart_product st ->
  Cart.unique_cart_product (snd (Cart.clear_cart self clk st)).
Proof.
  intros Hu. unfold Cart.unique_cart_product in *. simpl.
  now apply NoDup_map_filter.
Qed.

Lemma run_cart_op_unique self op clk st :
  Cart.unique_cart_product st ->
  Cart.unique_cart_product (snd (Cart.run_cart_op self op clk st)).
Proof.
  intros Hu. destruct op as [p q|p q|p|]; simpl.
  - pose proof (add_item_unique self p q clk st Hu) as Hadd.
    unfold Py.bind. destruct (Cart.add_item self p q clk st) as [[it|e] st'];
      exact Hadd.
  - now apply update_item_quantity_unique.
  - now apply remove_item_unique.
  - now apply clear_cart_unique.
Qed.

Lemma lines_at_most_one self pid st :
  Cart.unique_cart_product st -> (length (Cart.lines self pid st) <= 1)%nat.
Proof.
  intros Hu. unfold Cart.lines.
  destruct (List.find (Cart.is_line self pid) (Cart.cart_items st)) as [it|] eqn:Hf.
  - rewrite (filter_unique Cart.key _ _ it (self, pid) (is_line_key self pid) Hu Hf).
    simpl. lia.
  - rewrite (filter_none _ _ Hf). simpl. lia.
Qed.

Lemma lines_of_found self pid st it :
  Cart.unique_cart_product st ->
  Cart.get_item_by_product self pid st = Some it ->
  Cart.lines self pid st = [it].
Proof.
  intros Hu Hit. rewrite get_item_by_product_find in Hit.
  exact (filter_unique Cart.key _ _ it (self, pid) (is_line_key self pid) Hu Hit).
Qed.

Lemma query_active_product_some pid st product :
  Cart.query_active_product pid st = Some product ->
  Cart.products st !! pid = Some product.
Proof.
  unfold Cart.query_active_product.
  destruct (Cart.products st !! pid) as [p0|]; [|discriminate].
  destruct (Product.is_active p0); congruence.
Qed.

(** [add_item] returns whenever the product is active and the stock
    covers the line's quantity after the addition. *)
Lemma add_item_succeeds self pid q clk st product :
  Cart.query_active_product pid st = Some product ->
  Cart.quantity_or_zero (Cart.get_item_by_product self pid st) + q
    <= Product.stock_quantity product ->
  exists it' st', Cart.add_item self pid q clk st = (Py.Return it', st').
Proof.
  intros Hp Hq. unfold Cart.add_item. unfold_monad. rewrite Hp.
  destruct (Z.gtb_spec
              (q + Cart.quantity_or_zero (Cart.get_item_by_product self pid st))
              (Product.stock_quantity product)); [lia|].
  destruct (Cart.get_item_by_product self pid st); eauto.
Qed.

Lemma add_item_insufficient self pid q clk st product :
  Cart.products st !! pid = Some product ->
  Cart.quantity_or_zero (Cart.get_item_by_product self pid st) + q
    > Product.stock_quantity product ->
  exists msg, Cart.add_item self pid q clk st = (Py.Raise (Py.ValueError msg), st).
Proof.
  intros Hp Hq. unfold Cart.add_item, Cart.query_active_product. unfold_monad.
  rewrite Hp. destruct (Product.is_active product); [|eauto].
  destruct (Z.gtb_spec
              (q + Cart.quantity_or_zero (Cart.get_item_by_product self pid st))
              (Product.stock_quantity product)); [eauto|lia].
Qed.

Lemma update_item_quantity_insufficient self pid q clk st product :
  Cart.products st !! pid = Some product ->
  q > Product.stock_quantity product ->
  0 < q \/ 0 <= Product.stock_quantity product ->
  exists msg,
    Cart.update_item_quantity self pid q clk st = (Py.Raise (Py.ValueError msg), st).
Proof.
  intros Hp Hq Hpos. unfold Cart.update_item_quantity. unfold_monad.
  destruct (Cart.get_item_by_product self pid st); [|eauto].
  destruct (Z.leb_spec q 0); [lia|]. rewrite Hp.
  destruct (Z.gtb_spec q (Product.stock_quantity product)); [eauto|lia].
Qed.

Lemma find_other_remove_first {A} (p p' : A -> bool) (l : list A) :
  (forall x, p x = true -> p' x = false) ->
  List.find p' (remove_first p l) = List.find p' l.
Proof.
  intros Hsep. induction l as [|a l IH]; simpl; [reflexivity|].
  destruct (p a) eqn:Ha; simpl.
  - now rewrite (Hsep a Ha).
  - destruct (p' a); [reflexivity|exact IH].
Qed.

(** C6.  From a table that satisfies the uniqueness constraint, every
    cart operation leaves a table that satisfies it; after two calls of
    [add_item] for one product the cart has at most one line for it, and
    when both calls return, exactly one, whose quantity is the quantity
    before (zero without a line) plus the two additions. *)
Theorem add_item_twice_one_line self pid q1 q2 clk1 clk2 st :
  Cart.unique_cart_product st ->
  let r1 := Cart.add_item self pid q1 clk1 st in
  let r2 := Cart.add_item self pid q2 clk2 (snd r1) in
  (forall self' op clk,
     Cart.unique_cart_product (snd (Cart.run_cart_op self' op clk st)))
  /\ Cart.unique_cart_product (snd r2)
  /\ (length (Cart.lines self pid (snd r2)) <= 1)%nat
  /\ (Py.is_return (fst r1) = true -> Py.is_return (fst r2) = true ->
      exists it,
        Cart.lines self pid (snd r2) = [it]
        /\ CartItem.quantity it
           = Cart.quantity_or_zero (Cart.get_item_by_product self pid st)
             + q1 + q2).
Proof.
  intros Hu r1 r2.
  assert (Hu1 : Cart.unique_cart_product (snd r1)) by now apply add_item_unique.
  assert (Hu2 : Cart.unique_cart_product (snd r2)) by now apply add_item_unique.
  split; [intros self' op clk; now apply run_cart_op_unique|].
  split; [exact Hu2|].
  split; [now apply lines_at_most_one|].
  subst r2. destruct r1 as [[it1|e1] st1] eqn:Hr1; simpl in *; [|discriminate].
  destruct (Cart.add_item self pid q2 clk2 st1) as [[it2|e2] st2] eqn:Hr2;
    simpl in *; [|discriminate].
  intros _ _. exists it2.
  apply add_item_return in Hr1 as (Hit1 & Hq1 & _).
  apply add_item_return in Hr2 as (Hit2 & Hq2 & _).
  split; [now apply lines_of_found|].
  rewrite Hit1 in Hq2. simpl in Hq2. lia.
Qed.

(** C7.  For a product of the catalogue: [add_item] raises and leaves
    every table as it was when the line's quantity plus the addition
    exceeds the stock, and so does [update_item_quantity] when the new
    quantity exceeds a stock that is not negative (or is itself positive:
    a quantity of zero or less is a removal, whatever the stock). *)
Theorem cart_rejects_quantity_above_stock self pid q clk st product :
  Cart.products st !! pid = Some product ->
  (Cart.quantity_or_zero (Cart.get_item_by_product self pid st) + q
     > Product.stock_quantity product ->
   exists msg,
     Cart.add_item self pid q clk st = (Py.Raise (Py.ValueError msg), st))
  /\ (q > Product.stock_quantity product ->
      0 < q \/ 0 <= Product.stock_quantity product ->
      exists msg,
        Cart.update_item_quantity self pid q clk st
        = (Py.Raise (Py.ValueError msg), st)).
Proof.
  intros Hp. split.
  - intros Hq. now apply add_item_insufficient with (product := product).
  - intros Hq Hpos.
    now apply update_item_quantity_insufficient with (product := product).
Qed.

(** C9.  For a cart with a line for the product, [update_item_quantity]
    with a quantity that is zero or negative returns without raising and
    deletes that line: the table loses one row, the other lookups are as
    before, and under the uniqueness constraint the cart has no line left
    for the product.  The catalogue plays no part: the same holds with any
    [products] table in place, also one without the product. *)
Theorem update_item_quantity_non_positive_removes self pid q clk st it :
  Cart.get_item_by_product self pid st = Some it ->
  q <= 0 ->
  let removed st0 :=
    Cart.touch self (clk 0%nat)
      (Cart.set_cart_items (remove_first (Cart.is_line self pid)) st0) in
  (forall products',
     let st0 := Cart.mk_db products' (Cart.carts st) (Cart.cart_items st) in
     Cart.update_item_quantity self pid q clk st0 = (Py.Return tt, removed st0))
  /\ Cart.update_item_quantity self pid q clk st = (Py.Return tt, removed st)
  /\ S (length (Cart.cart_items (removed st))) = length (Cart.cart_items st)
  /\ (forall self' pid',
        (self', pid') <> (self, pid) ->
        Cart.get_item_by_product self' pid' (removed st)
        = Cart.get_item_by_product self' pid' st)
  /\ (Cart.unique_cart_product st ->
      Cart.get_item_by_product self pid (removed st) = None
      /\ Cart.lines self pid (removed st) = []).
Proof.
  intros Hit Hq removed.
  assert (Hrun : forall st0,
            Cart.cart_items st0 = Cart.cart_items st ->
            Cart.update_item_quantity self pid q clk st0
            = (Py.Return tt, removed st0)).
  { intros st0 Hsame.
    assert (Hit0 : Cart.get_item_by_product self pid st0 = Some it).
    { rewrite get_item_by_product_find in *. now rewrite Hsame. }
    destruct (update_item_quantity_cases self pid q clk st0)
      as [[e Hr]|[[_ Hr]|(it0 & product & Hpos & _)]]; [|rewrite Hr|lia].
    - exfalso. revert Hr. unfold Cart.update_item_quantity. unfold_monad.
      rewrite Hit0. destruct (Z.leb_spec q 0); [|lia].
      unfold Cart.remove_item. unfold_monad. rewrite Hit0. discriminate.
    - destruct (remove_item_cases self pid clk st0) as [[Hnone _]|(it0 & _ & Hr0)];
        [congruence|exact Hr0]. }
  split; [intros products' st0; now apply Hrun|].
  split; [now apply Hrun|].
  rewrite get_item_by_product_find in Hit.
  split; [exact (remove_first_length _ _ _ Hit)|].
  split.
  - intros self' pid' Hne. rewrite !get_item_by_product_find. simpl.
    apply find_other_remove_first. intros x Hx.
    apply is_line_key in Hx.
    destruct (Cart.is_line self' pid' x) eqn:Hx'; [|reflexivity].
    apply is_line_key in Hx'. congruence.
  - intros Hu.
    assert (Hnone : List.find (Cart.is_line self pid)
                      (remove_first (Cart.is_line self pid) (Cart.cart_items st))
                    = None)
      by exact (find_remove_first_unique Cart.key _ _ (self, pid)
                  (is_line_key self pid) Hu).
    split; [rewrite get_item_by_product_find; exact Hnone|].
    unfold Cart.lines. simpl. now apply filter_none.
Qed.

(** C10.  When [add_item] returns, the line it returns is the cart's line
    for the product.  Over an existing line the price is the one the line
    had (the catalogue is not read for it) and only the quantity grows; a
    new line takes the product's effective price of the moment. *)
Theorem add_item_keeps_price_snapshot self pid q clk st it' st' :
  Cart.add_item self pid q clk st = (Py.Return it', st') ->
  Cart.get_item_by_product self pid st' = Some it'
  /\ match Cart.get_item_by_product self pid st with
     | Some it =>
         CartItem.price it' = CartItem.price it
         /\ CartItem.quantity it' = CartItem.quantity it + q
         /\ CartItem.get_total_price it'
            = Py.nmul (Py.float (CartItem.price it))
                      (Py.of_int (CartItem.quantity it + q))
     | None =>
         exists product,
           Cart.products st !! pid = Some product
           /\ CartItem.price it' = Product.get_effective_price product
           /\ CartItem.quantity it' = q
     end.
Proof.
  intros Hrun. apply add_item_return in Hrun as (Hit' & Hq & _ & Hprice).
  split; [exact Hit'|].
  destruct (Cart.get_item_by_product self pid st) as [it|]; simpl in Hq.
  - split; [exact Hprice|]. split; [exact Hq|].
    unfold CartItem.get_total_price. now rewrite Hprice, Hq.
  - destruct Hprice as (product & Hp & Hprice).
    exists product. split; [exact Hp|]. split; [exact Hprice|lia].
Qed.

End CartFacts.

(* ===================================================================== *)
(** * The cart on sample data *)
(* ===================================================================== *)

(** The spec's example for C6: add 2, then add 3, of one product: one
    line, of quantity 5. *)
Lemma add_2_then_3_is_one_line_of_5 :
  exists it,
    Cart.lines 1 1
      (snd (Cart.add_item 1 1 3 sample_clock
              (snd (Cart.add_item 1 1 2 sample_clock (sample_db None 10 [])))))
    = [it]
    /\ CartItem.quantity it = 5.
Proof.
  destruct (add_item_twice_one_line 1 1 2 3 sample_clock sample_clock
              (sample_db None 10 [])) as (_ & _ & _ & Hq).
  - unfold Cart.unique_cart_product. simpl. constructor.
  - destruct Hq as (it & Hl & Hqty); [reflexivity|reflexivity|].
    exists it. split; [exact Hl|]. rewrite Hqty. reflexivity.
Defined.

(** A cart holding 2 of a product with 3 in stock refuses 2 more, and
    refuses to be set to 4. *)
Lemma cart_of_2_with_stock_3_rejects :
  (exists msg,
     Cart.add_item 1 1 2 sample_clock (sample_db None 3 [sample_line 2 100])
     = (Py.Raise (Py.ValueError msg), sample_db None 3 [sample_line 2 100]))
  /\ (exists msg,
     Cart.update_item_quantity 1 1 4 sample_clock
       (sample_db None 3 [sample_line 2 100])
     = (Py.Raise (Py.ValueError msg), sample_db None 3 [sample_line 2 100])).
Proof.
  destruct (cart_rejects_quantity_above_stock 1 1 2 sample_clock
              (sample_db None 3 [sample_line 2 100])
              (sample_product 100 None 3)) as [Hadd _]; [reflexivity|].
  destruct (cart_rejects_quantity_above_stock 1 1 4 sample_clock
              (sample_db None 3 [sample_line 2 100])
              (sample_product 100 None 3)) as [_ Hupd]; [reflexivity|].
  split; [apply Hadd|apply Hupd]; simpl; lia.
Defined.

(** Setting a line to -1 deletes it, here from a cart whose product is
    not even in the catalogue. *)
Lemma update_to_minus_1_removes :
  Cart.update_item_quantity 1 1 (-1) sample_clock
    (Cart.mk_db ∅ (<[1 := sample_cart]> ∅) [sample_line 2 100])
  = (Py.Return tt,
     Cart.mk_db ∅ (<[1 := Cart.mk (Some 1) None (Some epoch)]> ∅) []).
Proof.
  destruct (update_item_quantity_non_positive_removes 1 1 (-1) sample_clock
              (Cart.mk_db ∅ (<[1 := sample_cart]> ∅) [sample_line 2 100])
              (sample_line 2 100)) as (_ & Hrun & _);
    [reflexivity|lia|].
  rewrite Hrun. vm_compute. reflexivity.
Defined.

(** A line taken at 100 keeps 100 when more is added after the product
    went on sale at 80. *)
Lemma add_to_line_keeps_price_100 :
  let st := sample_db (Some 80%Q) 10 [sample_line 2 100] in
  Product.get_effective_price (sample_product 100 (Some 80%Q) 10) = 80%Q
  /\ exists it' st',
       Cart.add_item 1 1 1 sample_clock st = (Py.Return it', st')
       /\ Cart.get_item_by_product 1 1 st' = Some it'
       /\ CartItem.price it' = 100%Q
       /\ CartItem.quantity it' = 3.
Proof.
  intros st. split; [reflexivity|].
  assert (Hrun : Cart.add_item 1 1 1 sample_clock st
                 = (Py.Return (CartItem.mk 1 1 3 100%Q (Some epoch)),
                    snd (Cart.add_item 1 1 1 sample_clock st)))
    by reflexivity.
  destruct (add_item_keeps_price_snapshot 1 1 1 sample_clock st _ _ Hrun)
    as (Hline & Hprice & Hqty & _).
  eexists _, _. split; [exact Hrun|].
  split; [exact Hline|]. split; [exact Hprice|exact Hqty].
Defined.

(** A first add while the product is on sale at 80 takes 80. *)
Example first_add_takes_current_price :
  fst (Cart.add_item 1 1 1 sample_clock (sample_db (Some 80%Q) 10 []))
  = Py.Return (CartItem.mk 1 1 1 80%Q None).
Proof. vm_compute. reflexivity. Qed.

(* ===================================================================== *)
(** * Strings: [strip] and the timestamp *)
(* ===================================================================== *)

Lemma rstripped_app a b : Py.rstripped b -> Py.rstripped (a +:+ b).
Proof.
  intros [Hb Hne]. unfold Py.rstripped.
  induction a as [|c a [IH IHne]]; [split; assumption|].
  change (String c a +:+ b) with (String c (a +:+ b)).
  split; [|discriminate].
  simpl. rewrite IH. destruct (a +:+ b); [contradiction|reflexivity].
Qed.

Lemma lstripped_app a b : Py.lstripped a -> Py.lstripped (a +:+ b).
Proof. intros (c & r & -> & Hc). exists c, (r +:+ b). split; [reflexivity|exact Hc]. Qed.

Lemma lstripped_lstrip s : Py.lstripped s -> Py.lstrip s = s.
Proof. intros (c & r & -> & Hc). simpl. now rewrite Hc. Qed.

Lemma lstripped_iff s : s <> EmptyString -> Py.lstrip s = s -> Py.lstripped s.
Proof.
  destruct s as [|c r]; [contradiction|]. intros _ Hs. exists c, r.
  split; [reflexivity|]. simpl in Hs. destruct (Py.isspace c); [|reflexivity].
  exfalso. assert (Hlen : forall t, (String.length (Py.lstrip t) <= String.length t)%nat).
  { clear. induction t as [|a t IH]; simpl; [lia|].
    destruct (Py.isspace a); simpl; lia. }
  specialize (Hlen r). rewrite Hs in Hlen. simpl in Hlen. lia.
Qed.

Lemma strip_stripped s : Py.lstripped s -> Py.rstripped s -> Py.strip s = s.
Proof.
  intros Hl [Hr _]. unfold Py.strip. rewrite Hr. now apply lstripped_lstrip.
Qed.

Lemma digit_not_space n : Py.isspace (datetime.digit n) = false.
Proof.
  unfold datetime.digit.
  pose proof (Z.mod_pos_bound n 10 ltac:(lia)) as Hrange.
  assert (Hcases : In (n mod 10) [0; 1; 2; 3; 4; 5; 6; 7; 8; 9])
    by (simpl; lia).
  simpl in Hcases.
  repeat (destruct Hcases as [<-|Hcases]; [reflexivity|]).
  contradiction.
Qed.

Lemma zfill_lstripped w n : Py.lstripped (datetime.zfill (S w) n).
Proof.
  revert n. induction w as [|w IH]; intros n.
  - exists (datetime.digit n), EmptyString. split; [reflexivity|].
    apply digit_not_space.
  - change (datetime.zfill (S (S w)) n)
      with (datetime.zfill (S w) (n / 10) +:+ String (datetime.digit n) EmptyString).
    apply lstripped_app, IH.
Qed.

Lemma datetime_str_lstripped d : Py.lstripped (datetime.str d).
Proof. unfold datetime.str. apply lstripped_app, zfill_lstripped. Qed.

(* ===================================================================== *)
(** * Orders *)
(* ===================================================================== *)

Section OrderFacts.
Context {num : Type} `{!Py.PyNum num}.
Implicit Types (o : Order.t num) (clk : clock).

Lemma order_line_total_is_cart_line_total o (ci : CartItem.t num) :
  OrderItem.get_total_price (Order.add_item_from_cart_item o ci)
  = CartItem.get_total_price ci.
Proof. reflexivity. Qed.


(** The two ways [calculate_totals] ends.  The subtotal and the tax are
    set in both; the total and the stamp only when neither the shipping
    nor the discount amount is a [Decimal]. *)
Lemma calculate_totals_cases clk o :
  let subtotal := Py.sum (map OrderItem.get_total_price (Order.items o)) in
  let tax := Py.nmul subtotal (Py.lit (8 # 100)) in
  let total :=
    Py.nsub (Py.nadd (Py.nadd subtotal tax) (Py.value (Order.shipping_amount o)))
            (Py.value (Order.discount_amount o)) in
  let o1 :=
    Order.set_tax_amount (Py.Float tax)
      (Order.set_subtotal_amount
         (Py.sum_floats (map OrderItem.get_total_price (Order.items o))) o) in
  (Py.is_decimal (Order.shipping_amount o) = false
   /\ Py.is_decimal (Order.discount_amount o) = false
   /\ Order.calculate_totals clk o
      = (Py.Return tt,
         Order.set_updated_at (clk 0%nat)
           (Order.set_total_amount (Py.Float total) o1)))
  \/ ((Py.is_decimal (Order.shipping_amount o) = true
       \/ Py.is_decimal (Order.discount_amount o) = true)
      /\ exists msg,
           Order.calculate_totals clk o = (Py.Raise (Py.TypeError msg), o1)).
Proof.
  intros subtotal tax total o1. subst o1 total tax subtotal.
  unfold Order.calculate_totals, Order.calculate_tax, Order.default_tax_rate.
  unfold_monad. unfold Py.lift.
  cbn [Order.subtotal_amount Order.tax_amount Order.shipping_amount
       Order.discount_amount Order.items Order.set_subtotal_amount
       Order.set_tax_amount].
  destruct (Order.items o) as [|item l];
    destruct (Order.shipping_amount o) as [z|x|x];
    destruct (Order.discount_amount o) as [z'|x'|x'];
    cbn; first [left; repeat split; reflexivity
               |right; split; [auto|eexists; reflexivity]].
Qed.


Lemma update_status_without_note new_status note clk o :
  Py.str_bool note = false ->
  Order.notes (Order.update_status new_status note clk o) = Order.notes o.
Proof.
  intros Hnote. unfold Order.update_status. cbn [Order.notes].
  now rewrite Hnote.
Qed.

Lemma update_status_with_note new_status s clk o :
  s <> EmptyString ->
  Order.notes (Order.update_status new_status (Some s) clk o)
  = Some (Py.strip (Py.or_empty (Order.notes o) +:+ Order.newline
                    +:+ Order.status_line (Order.note_stamp new_status clk)
                          (Order.status o) new_status s)).
Proof.
  intros Hs. unfold Order.update_status. cbn [Order.notes].
  destruct s as [|c r]; [contradiction|]. cbn [Py.str_bool Py.format].
  destruct new_status; reflexivity.
Qed.

Lemma status_line_lstripped stamp old_status new_status s :
  Py.lstripped (Order.status_line stamp old_status new_status s).
Proof. unfold Order.status_line. apply lstripped_app, datetime_str_lstripped. Qed.

Lemma status_line_rstripped stamp old_status new_status s :
  Py.rstripped s -> Py.rstripped (Order.status_line stamp old_status new_status s).
Proof.
  intros Hs. unfold Order.status_line. now do 6 apply rstripped_app.
Qed.

(** C3, as the code has it.  [update_status] always sets the status.  It
    writes to [notes] only for a note that is not empty: [notes] becomes
    the strip of the old notes, a newline and the line
    [<timestamp>: Status changed from <old> to <new>. <note>].  When the
    note does not end in whitespace that is the line itself if there were
    no notes, and the old notes, a newline and the line if the old notes do
    not start with whitespace.  Without a note, or with an empty one,
    [notes] stays as it was. *)
Theorem update_status_notes new_status note clk o :
  let o' := Order.update_status new_status note clk o in
  let line s :=
    datetime.str (Order.note_stamp new_status clk) +:+ ": Status changed from "
    +:+ OrderStatus.value (Order.status o) +:+ " to "
    +:+ OrderStatus.value new_status +:+ ". " +:+ s in
  Order.status o' = new_status
  /\ (note = None \/ note = Some EmptyString -> Order.notes o' = Order.notes o)
  /\ (forall s, note = Some s -> s <> EmptyString ->
      Order.notes o'
      = Some (Py.strip (Py.or_empty (Order.notes o) +:+ Order.newline +:+ line s))
      /\ (Py.rstrip s = s ->
          (Py.or_empty (Order.notes o) = EmptyString ->
           Order.notes o' = Some (line s))
          /\ (forall old,
                Order.notes o = Some old -> old <> EmptyString ->
                Py.lstrip old = old ->
                Order.notes o' = Some (old +:+ Order.newline +:+ line s)))).
Proof.
  intros o' line. subst o'.
  split; [reflexivity|]. split.
  - intros [->| ->]; now apply update_status_without_note.
  - intros s -> Hs.
    change (line s) with (Order.status_line (Order.note_stamp new_status clk)
                            (Order.status o) new_status s).
    rewrite update_status_with_note by exact Hs.
    split; [reflexivity|]. intros Hr.
    assert (Hrs : Py.rstripped s) by (split; assumption).
    pose proof (status_line_rstripped (Order.note_stamp new_status clk)
                  (Order.status o) new_status s Hrs) as Hlr.
    pose proof (status_line_lstripped (Order.note_stamp new_status clk)
                  (Order.status o) new_status s) as Hll.
    split.
    + intros ->. f_equal. unfold Py.strip.
      destruct (rstripped_app EmptyString _ (rstripped_app Order.newline _ Hlr))
        as [Hrr _].
      rewrite Hrr.
      set (l := Order.status_line _ _ _ _) in *.
      change (Py.lstrip (String (ascii_of_nat 10) l) = l).
      change (Py.lstrip l = l).
      now apply lstripped_lstrip.
    + intros old Hold Hne Hl. rewrite Hold. f_equal.
      assert (Hor : Py.or_empty (Some old) = old)
        by (destruct old; [contradiction|reflexivity]).
      rewrite Hor. apply strip_stripped.
      * apply lstripped_app. now apply lstripped_iff.
      * now do 2 apply rstripped_app.
Qed.

End OrderFacts.

(* ===================================================================== *)
(** * Orders on sample data *)
(* ===================================================================== *)

Example sample_order_totals :
  let r := Order.calculate_totals sample_clock sample_order in
  fst r = Py.Return tt
  /\ Order.subtotal_amount (Order.committed (snd r))
     = Py.Decimal (2550 # 100)%Q
  /\ Order.tax_amount (Order.committed (snd r)) = Py.Decimal (204 # 100)%Q
  /\ Order.total_amount (Order.committed (snd r)) = Py.Decimal (3154 # 100)%Q.
Proof. vm_compute. repeat split. Qed.

(** In exact arithmetic, before the amounts are stored, the tax is 8% of
    the subtotal and the total is 108% of the subtotal plus shipping minus
    discount. *)
Lemma calculate_totals_exact clk (o : Order.t Q) :
  Py.is_decimal (Order.shipping_amount o) = false ->
  Py.is_decimal (Order.discount_amount o) = false ->
  let o' := snd (Order.calculate_totals clk o) in
  (Py.value (Order.tax_amount o')
   == Py.value (Order.subtotal_amount o') * (8 # 100))%Q
  /\ (Py.value (Order.total_amount o')
      == Py.value (Order.subtotal_amount o') * (108 # 100)
         + Py.value (Order.shipping_amount o)
         - Py.value (Order.discount_amount o))%Q.
Proof.
  intros Hs Hd o'. subst o'.
  destruct (calculate_totals_cases clk o)
    as [(_ & _ & Hr)|([Hbad|Hbad] & _)]; [|congruence|congruence].
  rewrite Hr.
  cbn [snd Order.subtotal_amount Order.tax_amount Order.total_amount
       Order.set_subtotal_amount Order.set_tax_amount Order.set_total_amount
       Order.set_updated_at Py.value].
  assert (Hv : Py.value (Py.sum_floats
                 (map OrderItem.get_total_price (Order.items o)))
               = Py.sum (map OrderItem.get_total_price (Order.items o)))
    by now destruct (Order.items o).
  rewrite Hv. cbn [Py.nadd Py.nsub Py.nmul Py.lit Py.Q_num].
  split; [reflexivity|ring].
Qed.


Example status_change_with_note :
  Order.notes (Order.update_status OrderStatus.CONFIRMED (Some "Payment received")
                 sample_clock sample_order)
  = Some "2024-01-15 10:30:00: Status changed from pending to confirmed. Payment received".
Proof. vm_compute. reflexivity. Qed.

(** The strip is on the whole of [notes]: a note of one space leaves the
    line without its last character. *)
Example status_change_with_blank_note :
  Order.notes (Order.update_status OrderStatus.SHIPPED (Some " ")
                 sample_clock sample_order)
  = Some "2024-01-15 10:30:00: Status changed from pending to shipped.".
Proof. vm_compute. reflexivity. Qed.

(** C3 fails as stated: a status change without a note, or with an empty
    note, changes the status and writes nothing to [notes]. *)
Lemma update_status_without_note_counterexample :
  let o' := Order.update_status OrderStatus.CONFIRMED None sample_clock sample_order in
  let o'' := Order.update_status OrderStatus.SHIPPED (Some EmptyString) sample_clock o' in
  Order.status sample_order = OrderStatus.PENDING
  /\ Order.status o' = OrderStatus.CONFIRMED
  /\ Order.notes o' = None
  /\ Order.status o'' = OrderStatus.SHIPPED
  /\ Order.notes o'' = None.
Proof. vm_compute. repeat split. Qed.

(* ===================================================================== *)
(** * Authentication *)
(* ===================================================================== *)

Section UserFacts.
Variable check_password_hash : string -> string -> bool.
Implicit Types (users : list User.t) (u : User.t) (x pw : string) (clk : clock).

Lemma same_row_iff u v : User.same_row u v = true <-> v = u.
Proof. unfold User.same_row. apply bool_decide_eq_true. Qed.

Lemma query_first_some users x u :
  User.query_first users x = Some u -> In u users /\ User.matches x u = true.
Proof.
  unfold User.query_first, User.matches.
  destruct (List.find (fun v => String.eqb (User.username v) x) users)
    as [v|] eqn:Hun.
  - intros [= <-]. apply find_some in Hun as [Hin ->]. auto.
  - intros Hem. apply find_some in Hem as [Hin ->]. split; [exact Hin|].
    apply orb_true_r.
Qed.

Lemma query_first_none users x :
  User.query_first users x = None
  <-> forall v, In v users -> User.matches x v = false.
Proof.
  unfold User.query_first, User.matches. split.
  - destruct (List.find (fun v => String.eqb (User.username v) x) users)
      as [v|] eqn:Hun; [discriminate|].
    intros Hem v Hin.
    pose proof (find_none _ _ Hun v Hin) as H1.
    pose proof (find_none _ _ Hem v Hin) as H2.
    cbv beta in H1, H2. now rewrite H1, H2.
  - intros Hnone.
    destruct (List.find (fun v => String.eqb (User.username v) x) users)
      as [v|] eqn:Hun.
    + apply find_some in Hun as [Hin Hv]. specialize (Hnone v Hin).
      cbv beta in Hv. rewrite Hv in Hnone. discriminate.
    + destruct (List.find (fun v => String.eqb (User.email v) x) users)
        as [v|] eqn:Hem; [|reflexivity].
      apply find_some in Hem as [Hin Hv]. specialize (Hnone v Hin).
      cbv beta in Hv. rewrite Hv, orb_true_r in Hnone. discriminate.
Qed.




(** A user that is the only one to match is the one the query returns. *)
Lemma query_first_only users x u :
  In u users -> User.matches x u = true ->
  (forall v, In v users -> User.matches x v = true -> v = u) ->
  User.query_first users x = Some u.
Proof.
  intros Hin Hm Honly.
  destruct (User.query_first users x) as [v|] eqn:Hq.
  - apply query_first_some in Hq as [Hv Hmv]. f_equal. now apply Honly.
  - rewrite query_first_none in Hq. rewrite (Hq u Hin) in Hm. discriminate.
Qed.

Lemma authenticate_accepts users x pw clk u :
  User.query_first users x = Some u ->
  User.check_password check_password_hash u pw = true -> User.is_active u = true ->
  User.authenticate check_password_hash users x pw clk
  = (Some (User.update_last_login clk u),
     update_first (User.same_row u) (fun _ => User.update_last_login clk u) users).
Proof.
  intros Hq Hpw Hact. unfold User.authenticate. now rewrite Hq, Hpw, Hact.
Qed.

Lemma authenticate_rejects users x pw clk :
  User.query_first users x = None
  \/ (exists u, User.query_first users x = Some u
                /\ (User.check_password check_password_hash u pw = false \/ User.is_active u = false)) ->
  User.authenticate check_password_hash users x pw clk = (None, users).
Proof.
  unfold User.authenticate.
  intros [->|(u & -> & [->| ->])]; [reflexivity|reflexivity|].
  now rewrite andb_false_r.
Qed.

Lemma authenticate_some users x pw clk u' :
  fst (User.authenticate check_password_hash users x pw clk) = Some u' ->
  exists u,
    User.query_first users x = Some u
    /\ User.check_password check_password_hash u pw = true /\ User.is_active u = true
    /\ u' = User.update_last_login clk u.
Proof.
  unfold User.authenticate.
  destruct (User.query_first users x) as [u|]; [|discriminate].
  destruct (User.check_password check_password_hash u pw) eqn:Hpw; [|discriminate].
  destruct (User.is_active u) eqn:Hact; [|discriminate].
  simpl. intros [= <-]. exists u. auto.
Qed.

(** For a user who is the only one to match the identifier, the claim
    holds as the spec words it. *)
Lemma authenticate_only_match users x pw clk u :
  In u users ->
  (forall v, In v users -> User.matches x v = true -> v = u) ->
  fst (User.authenticate check_password_hash users x pw clk)
  = Some (User.update_last_login clk u)
  <-> User.matches x u = true
      /\ User.check_password check_password_hash u pw = true
      /\ User.is_active u = true.
Proof.
  intros Hin Honly. split.
  - intros Hret. apply authenticate_some in Hret as (u0 & Hq & Hpw & Hact & _).
    destruct (query_first_some users x u0 Hq) as [Hin0 Hm0].
    rewrite <- (Honly u0 Hin0 Hm0). auto.
  - intros (Hm & Hpw & Hact).
    pose proof (query_first_only users x u Hin Hm Honly) as Hq.
    now rewrite (authenticate_accepts users x pw clk u Hq Hpw Hact).
Qed.


End UserFacts.

Example authenticate_by_username :
  User.authenticate toy_check_password_hash [alice; bob] "bob" "bob-pw" sample_clock
  = (Some (User.mk 2 "bob" "bob@example.com" "hash:bob-pw" true (Some epoch)),
     [alice; User.mk 2 "bob" "bob@example.com" "hash:bob-pw" true (Some epoch)]).
Proof. vm_compute. reflexivity. Qed.

Example authenticate_wrong_password :
  User.authenticate toy_check_password_hash [alice; bob] "bob" "alice-pw" sample_clock
  = (None, [alice; bob]).
Proof. vm_compute. reflexivity. Qed.

Example authenticate_inactive :
  let carol := User.mk 3 "carol" "carol@example.com" "hash:carol-pw" false None in
  User.authenticate toy_check_password_hash [alice; bob; carol] "carol" "carol-pw"
    sample_clock
  = (None, [alice; bob; carol]).
Proof. vm_compute. reflexivity. Qed.


(* ===================================================================== *)
(** * Deleting a category *)
(* ===================================================================== *)

Section AdminFacts.
Context {num : Type} `{!Py.PyNum num}.

(** The guard of [delete_category] holds for every category, so the
    route never reaches the deletion. *)
Lemma delete_category_never_deletes id (st : admin.db num) category :
  admin.categories st !! id = Some category ->
  admin.delete_category id st
  = (admin.Redirect "admin.categories",
     [("Cannot delete category that contains products. Please move or delete products first.",
       "error")],
     st).
Proof.
  intros Hcat. unfold admin.delete_category. rewrite Hcat. reflexivity.
Qed.

End AdminFacts.

(** C2 on the code: category 1 has no product, and [delete_category]
    refuses all the same and leaves it in the table. *)
Lemma delete_empty_category_refused :
  admin.product_count 1 empty_category_db = 0%nat
  /\ admin.delete_category 1 empty_category_db
     = (admin.Redirect "admin.categories",
        [("Cannot delete category that contains products. Please move or delete products first.",
          "error")],
        empty_category_db)
  /\ admin.categories empty_category_db !! 1 = Some (Category.mk "Books" None true).
Proof.
  split; [reflexivity|]. split; [|reflexivity].
  now apply delete_category_never_deletes with (category := Category.mk "Books" None true).
Qed.

(* ===================================================================== *)
(** * Slugs *)
(* ===================================================================== *)

Ltac ascii_cases c :=
  destruct c as [[] [] [] [] [] [] [] []]; vm_compute; try reflexivity;
  try discriminate; try (intros; discriminate); try (intros; reflexivity).

Section StringFacts.
Implicit Types (p q : ascii -> bool) (s : string) (c : ascii).

Lemma all_chars_app p s1 s2 :
  Py.all_chars p (s1 +:+ s2) = Py.all_chars p s1 && Py.all_chars p s2.
Proof.
  induction s1 as [|c s1 IH]; simpl; [reflexivity|].
  now rewrite IH, andb_assoc.
Qed.

Lemma all_chars_weaken p q s :
  (forall c, p c = true -> q c = true) ->
  Py.all_chars p s = true -> Py.all_chars q s = true.
Proof.
  intros Hpq. induction s as [|c s IH]; simpl; [reflexivity|].
  rewrite !andb_true_iff. intros [Hc Hs]. auto.
Qed.

Lemma all_chars_keep p s : Py.all_chars p (Py.keep p s) = true.
Proof.
  induction s as [|c s IH]; simpl; [reflexivity|].
  destruct (p c) eqn:Hc; simpl; [now rewrite Hc|exact IH].
Qed.

Lemma keep_all p s : Py.all_chars p s = true -> Py.keep p s = s.
Proof.
  induction s as [|c s IH]; simpl; [reflexivity|].
  rewrite andb_true_iff. intros [-> Hs]. now rewrite IH.
Qed.

Lemma all_chars_sub_runs p q (i : ascii -> bool) rep b s :
  q rep = true ->
  (forall c, i c = true -> p c = false -> q c = true) ->
  Py.all_chars i s = true ->
  Py.all_chars q (Py.sub_runs p rep b s) = true.
Proof.
  intros Hrep Hq. revert b.
  induction s as [|c s IH]; intros b Hs; [reflexivity|].
  cbn [Py.all_chars] in Hs. apply andb_true_iff in Hs as [Hc Hs].
  cbn [Py.sub_runs]. destruct (p c) eqn:Hpc.
  - destruct b; [now apply IH|].
    cbn [Py.all_chars]. rewrite Hrep. now apply IH.
  - cbn [Py.all_chars]. rewrite (Hq c Hc Hpc). now apply IH.
Qed.

Lemma sub_runs_none p rep s :
  Py.all_chars (fun c => negb (p c)) s = true ->
  Py.sub_runs p rep false s = s.
Proof.
  induction s as [|c s IH]; simpl; [reflexivity|].
  rewrite andb_true_iff, negb_true_iff. intros [-> Hs]. now rewrite IH.
Qed.

Lemma all_chars_lstrip_by p q s :
  Py.all_chars q s = true -> Py.all_chars q (Py.lstrip_by p s) = true.
Proof.
  induction s as [|c s IH]; simpl; [reflexivity|].
  rewrite andb_true_iff. intros [Hc Hs].
  destruct (p c); [auto|]. simpl. now rewrite Hc, Hs.
Qed.

Lemma all_chars_rstrip_by p q s :
  Py.all_chars q s = true -> Py.all_chars q (Py.rstrip_by p s) = true.
Proof.
  induction s as [|c s IH]; simpl; [reflexivity|].
  rewrite andb_true_iff. intros [Hc Hs]. specialize (IH Hs).
  destruct (Py.rstrip_by p s) as [|a r].
  - destruct (p c); simpl; [reflexivity|now rewrite Hc].
  - change (q c && Py.all_chars q (String a r) = true). now rewrite Hc, IH.
Qed.

Lemma lstrip_by_idem p s : Py.lstrip_by p (Py.lstrip_by p s) = Py.lstrip_by p s.
Proof.
  induction s as [|c s IH]; simpl; [reflexivity|].
  destruct (p c) eqn:Hc; [exact IH|]. simpl. now rewrite Hc.
Qed.

Lemma rstrip_by_idem p s : Py.rstrip_by p (Py.rstrip_by p s) = Py.rstrip_by p s.
Proof.
  induction s as [|c s IH]; simpl; [reflexivity|].
  destruct (Py.rstrip_by p s) as [|a r] eqn:Hr.
  - destruct (p c) eqn:Hc; simpl; [reflexivity|now rewrite Hc].
  - change (Py.rstrip_by p (String c (String a r)))
      with (match Py.rstrip_by p (String a r) with
            | EmptyString => if p c then EmptyString else String c EmptyString
            | String a' r' => String c (String a' r')
            end).
    now rewrite IH.
Qed.

(** Stripping on the left does not bring back what a strip on the right
    took away. *)
Lemma rstrip_by_lstrip_by p s :
  Py.rstrip_by p s = s -> Py.rstrip_by p (Py.lstrip_by p s) = Py.lstrip_by p s.
Proof.
  induction s as [|c s IH]; [reflexivity|].
  intros Hs. simpl. destruct (p c) eqn:Hc; [|exact Hs].
  apply IH. simpl in Hs.
  destruct (Py.rstrip_by p s) as [|a r].
  - rewrite Hc in Hs. discriminate.
  - now injection Hs.
Qed.

Lemma strip_by_stable p s :
  Py.lstrip_by p (Py.strip_by p s) = Py.strip_by p s
  /\ Py.rstrip_by p (Py.strip_by p s) = Py.strip_by p s.
Proof.
  unfold Py.strip_by. split; [apply lstrip_by_idem|].
  apply rstrip_by_lstrip_by, rstrip_by_idem.
Qed.

Lemma lower_fixed s :
  Py.all_chars (fun c => Ascii.eqb (Py.lower_char c) c) s = true ->
  Py.lower s = s.
Proof.
  induction s as [|c s IH]; simpl; [reflexivity|].
  rewrite andb_true_iff. intros [Hc Hs].
  apply Ascii.eqb_eq in Hc. now rewrite Hc, IH.
Qed.

Lemma all_chars_lower p s :
  (forall c, p (Py.lower_char c) = true) ->
  Py.all_chars p (Py.lower s) = true.
Proof.
  intros Hp. induction s as [|c s IH]; simpl; [reflexivity|].
  now rewrite Hp, IH.
Qed.

Lemma all_chars_replace_char p q x new s :
  (forall c, p c = true -> Ascii.eqb c x = false -> q c = true) ->
  Py.all_chars q new = true ->
  Py.all_chars p s = true ->
  Py.all_chars q (Py.replace_char x new s) = true.
Proof.
  intros Hpq Hnew. induction s as [|c s IH]; simpl; [reflexivity|].
  rewrite andb_true_iff. intros [Hc Hs].
  destruct (Ascii.eqb c x) eqn:Hx.
  - now rewrite all_chars_app, Hnew, IH.
  - simpl. now rewrite (Hpq c Hc Hx), IH.
Qed.

Lemma replace_char_absent x new s :
  Py.all_chars (fun c => negb (Ascii.eqb c x)) s = true ->
  Py.replace_char x new s = s.
Proof.
  induction s as [|c s IH]; simpl; [reflexivity|].
  rewrite andb_true_iff, negb_true_iff. intros [-> Hs]. now rewrite IH.
Qed.

End StringFacts.

Lemma slug_class_not_space c :
  Product.slug_class c = true -> Py.isspace c = false ->
  product_slug_char c = true.
Proof. revert c. intros c. ascii_cases c. Qed.

Lemma product_slug_char_facts c :
  product_slug_char c = true ->
  Ascii.eqb (Py.lower_char c) c = true
  /\ Product.slug_class c = true
  /\ negb (Py.isspace c) = true.
Proof. ascii_cases c; intros _; repeat split. Qed.

(** X1.  A product slug is made of [a-z0-9-] only, neither starts nor ends with
    a hyphen, and is its own slug. *)
Theorem product_slug_shape name :
  let slug := Product.generate_slug name in
  Py.all_chars product_slug_char slug = true
  /\ Py.lstrip_by Product.is_hyphen slug = slug
  /\ Py.rstrip_by Product.is_hyphen slug = slug
  /\ Product.generate_slug slug = slug.
Proof.
  intros slug.
  assert (Hchars : Py.all_chars product_slug_char slug = true).
  { subst slug. unfold Product.generate_slug, Py.strip_by.
    apply all_chars_lstrip_by, all_chars_rstrip_by.
    apply all_chars_sub_runs with (i := Product.slug_class);
      [reflexivity|exact slug_class_not_space|apply all_chars_keep]. }
  destruct (strip_by_stable Product.is_hyphen
              (Py.sub_runs Py.isspace "-" false
                 (Py.keep Product.slug_class (Py.lower name)))) as [Hl Hr].
  fold (Product.generate_slug name) in Hl, Hr. fold slug in Hl, Hr.
  split; [exact Hchars|]. split; [exact Hl|]. split; [exact Hr|].
  unfold Product.generate_slug at 1.
  rewrite lower_fixed, keep_all, sub_runs_none.
  - unfold Py.strip_by. now rewrite Hr, Hl.
  - eapply all_chars_weaken; [|exact Hchars]. intros c Hc.
    now apply product_slug_char_facts.
  - eapply all_chars_weaken; [|exact Hchars]. intros c Hc.
    now apply product_slug_char_facts.
  - eapply all_chars_weaken; [|exact Hchars]. intros c Hc.
    now apply product_slug_char_facts.
Qed.

Example product_slug_examples :
  Product.generate_slug "Test Laptop" = "test-laptop"
  /\ Product.generate_slug "  Hello,   World -- v2.0! " = "hello-world----v20"
  /\ Product.generate_slug "!!!" = "".
Proof. vm_compute. repeat split. Qed.

Lemma lower_char_idem c :
  Ascii.eqb (Py.lower_char (Py.lower_char c)) (Py.lower_char c) = true.
Proof. ascii_cases c. Qed.

(** X2.  A category slug has no capital letter, no space and no ampersand, and
    is its own slug.  Other punctuation stays as it is. *)
Theorem category_slug_shape name :
  let slug := Category.generate_slug name in
  Py.all_chars category_slug_char slug = true
  /\ Category.generate_slug slug = slug.
Proof.
  intros slug.
  assert (Hchars : Py.all_chars category_slug_char slug = true).
  { subst slug. unfold Category.generate_slug.
    apply all_chars_replace_char
      with (p := fun c => Ascii.eqb (Py.lower_char c) c
                          && negb (Ascii.eqb c " ")).
    - intros c Hc Hamp. unfold category_slug_char. now rewrite Hc, Hamp.
    - reflexivity.
    - apply all_chars_replace_char
        with (p := fun c => Ascii.eqb (Py.lower_char c) c).
      + intros c Hc Hsp. now rewrite Hc, Hsp.
      + reflexivity.
      + apply all_chars_lower, lower_char_idem. }
  split; [exact Hchars|].
  unfold Category.generate_slug at 1.
  rewrite lower_fixed, (replace_char_absent " "), (replace_char_absent "&");
    [reflexivity| | |];
    (eapply all_chars_weaken; [|exact Hchars]); intros c;
    unfold category_slug_char; rewrite !andb_true_iff; tauto.
Qed.

Example category_slug_examples :
  Category.generate_slug "Home & Garden" = "home-and-garden"
  /\ Category.generate_slug "Toys/Games  (New!)" = "toys/games--(new!)".
Proof. vm_compute. repeat split. Qed.

(* ===================================================================== *)
(** * The status history of an order *)
(* ===================================================================== *)

Lemma split_char_cons sep s : exists h t, Py.split_char sep s = h :: t.
Proof.
  induction s as [|c s (h & t & IH)]; simpl; [eauto|].
  destruct (Ascii.eqb c sep); [eauto|]. rewrite IH. eauto.
Qed.

(** Splitting a text with a separator in the middle: the pieces of the
    left part, then the pieces of the right part. *)
Lemma split_char_app sep a b :
  Py.split_char sep (a +:+ String sep b)
  = Py.split_char sep a ++ Py.split_char sep b.
Proof.
  induction a as [|c a IH]; simpl.
  - now rewrite Ascii.eqb_refl.
  - destruct (Ascii.eqb c sep); [now rewrite IH|].
    rewrite IH. destruct (split_char_cons sep a) as (h & t & ->). reflexivity.
Qed.

Lemma split_char_absent sep s :
  Py.all_chars (fun c => negb (Ascii.eqb c sep)) s = true ->
  Py.split_char sep s = [s].
Proof.
  induction s as [|c s IH]; simpl; [reflexivity|].
  rewrite andb_true_iff, negb_true_iff. intros [-> Hs]. now rewrite IH.
Qed.

Lemma contains_app_l sub a b :
  Py.contains sub b = true -> Py.contains sub (a +:+ b) = true.
Proof.
  intros Hb. induction a as [|c a IH]; [exact Hb|].
  change (String.prefix sub (String c (a +:+ b)) || Py.contains sub (a +:+ b) = true).
  rewrite IH. apply orb_true_r.
Qed.

Lemma not_space_not_newline c : Py.isspace c = false -> not_newline c = true.
Proof. ascii_cases c. Qed.

Lemma zfill_no_newline w n : Py.all_chars not_newline (datetime.zfill w n) = true.
Proof.
  revert n. induction w as [|w IH]; intros n; [reflexivity|].
  change (datetime.zfill (S w) n)
    with (datetime.zfill w (n / 10) +:+ String (datetime.digit n) EmptyString).
  rewrite all_chars_app, IH. cbn [Py.all_chars].
  now rewrite (not_space_not_newline _ (digit_not_space n)).
Qed.

Lemma datetime_str_no_newline d : Py.all_chars not_newline (datetime.str d) = true.
Proof.
  unfold datetime.str. rewrite !all_chars_app, !zfill_no_newline.
  destruct (datetime.microsecond d =? 0); [reflexivity|].
  rewrite all_chars_app, zfill_no_newline. reflexivity.
Qed.

Lemma status_line_no_newline stamp old_status new_status s :
  Py.all_chars not_newline s = true ->
  Py.all_chars not_newline (Order.status_line stamp old_status new_status s) = true.
Proof.
  intros Hs. unfold Order.status_line.
  rewrite !all_chars_app, datetime_str_no_newline, Hs.
  destruct old_status, new_status; reflexivity.
Qed.

Lemma status_line_contains stamp old_status new_status s :
  Py.contains "Status changed"
    (Order.status_line stamp old_status new_status s) = true.
Proof. unfold Order.status_line. apply contains_app_l. reflexivity. Qed.

Section HistoryFacts.
Context {num : Type} `{!Py.PyNum num}.
Implicit Types (o : Order.t num) (clk : clock).

(** The notes after a status change with a note that is not empty and
    does not end in whitespace, over notes that are empty or do not start
    with whitespace. *)
Lemma update_status_appends new_status s clk o :
  s <> EmptyString -> Py.rstrip s = s ->
  let line := Order.status_line (Order.note_stamp new_status clk)
                (Order.status o) new_status s in
  (Py.or_empty (Order.notes o) = EmptyString ->
   Order.notes (Order.update_status new_status (Some s) clk o) = Some line)
  /\ (forall c r,
        Order.notes o = Some (String c r) -> Py.isspace c = false ->
        Order.notes (Order.update_status new_status (Some s) clk o)
        = Some (String c r +:+ String (ascii_of_nat 10) line)).
Proof.
  intros Hne Hr line.
  assert (Hrs : Py.rstripped s) by (split; assumption).
  pose proof (status_line_rstripped (Order.note_stamp new_status clk)
                (Order.status o) new_status s Hrs) as Hlr.
  pose proof (status_line_lstripped (Order.note_stamp new_status clk)
                (Order.status o) new_status s) as Hll.
  fold line in Hlr, Hll.
  rewrite update_status_with_note by exact Hne. fold line.
  split.
  - intros ->. f_equal. unfold Py.strip.
    destruct (rstripped_app EmptyString _ (rstripped_app Order.newline _ Hlr))
      as [Hrr _].
    rewrite Hrr. clearbody line.
    change (Py.lstrip line = line). now apply lstripped_lstrip.
  - intros c r -> Hc. f_equal.
    change (Py.strip (String c r +:+ Order.newline +:+ line)
            = String c r +:+ Order.newline +:+ line).
    apply strip_stripped.
    + exists c, (r +:+ Order.newline +:+ line). split; [reflexivity|exact Hc].
    + now do 2 apply rstripped_app.
Qed.

(** X3.  A status change with a note adds one entry to the status history,
    the line it wrote, after the entries that were there: for a note of
    one line that is not empty and does not end in whitespace, over notes
    that are absent, empty or do not start with whitespace. *)
Theorem status_history_grows new_status s clk o :
  s <> EmptyString -> Py.rstrip s = s ->
  Py.all_chars not_newline s = true ->
  Py.or_empty (Order.notes o) = EmptyString
  \/ Py.lstripped (Py.or_empty (Order.notes o)) ->
  Order.get_status_history (Order.update_status new_status (Some s) clk o)
  = Order.get_status_history o
    ++ [datetime.str (Order.note_stamp new_status clk) +:+ ": Status changed from "
        +:+ OrderStatus.value (Order.status o) +:+ " to "
        +:+ OrderStatus.value new_status +:+ ". " +:+ s].
Proof.
  intros Hne Hr Hnl Hold.
  change (datetime.str (Order.note_stamp new_status clk) +:+ ": Status changed from "
          +:+ OrderStatus.value (Order.status o) +:+ " to "
          +:+ OrderStatus.value new_status +:+ ". " +:+ s)
    with (Order.status_line (Order.note_stamp new_status clk)
            (Order.status o) new_status s).
  destruct (update_status_appends new_status s clk o Hne Hr) as [Hnew Hadd].
  set (line := Order.status_line (Order.note_stamp new_status clk)
                 (Order.status o) new_status s) in *.
  assert (Hline_nl : Py.all_chars not_newline line = true)
    by now apply status_line_no_newline.
  assert (Hline_in : Py.contains "Status changed" line = true)
    by apply status_line_contains.
  assert (Hline_strip : Py.strip line = line).
  { apply strip_stripped; [apply status_line_lstripped|].
    apply status_line_rstripped. split; assumption. }
  assert (Hline_ne : exists a t, line = String a t).
  { destruct (status_line_lstripped (Order.note_stamp new_status clk)
                (Order.status o) new_status s) as (a & t & Ha & _). eauto. }
  assert (Hone : map Py.strip
                   (List.filter (Py.contains "Status changed")
                      (Py.split_char (ascii_of_nat 10) line)) = [line]).
  { rewrite (split_char_absent _ _ Hline_nl). cbn [List.filter].
    rewrite Hline_in. cbn [map]. now rewrite Hline_strip. }
  assert (Hempty : Py.or_empty (Order.notes o) = EmptyString ->
            Order.get_status_history (Order.update_status new_status (Some s) clk o)
            = Order.get_status_history o ++ [line]).
  { intros He. unfold Order.get_status_history at 1 2.
    rewrite (Hnew He). destruct Hline_ne as (a & t & Hat).
    assert (Hold_empty : Py.str_bool (Order.notes o) = false).
    { destruct (Order.notes o) as [[|c r]|]; [reflexivity|discriminate|reflexivity]. }
    rewrite Hold_empty. cbn [negb app].
    replace (Py.str_bool (Some line)) with true by (rewrite Hat; reflexivity).
    cbn [negb]. replace (Py.or_empty (Some line)) with line
      by (rewrite Hat; reflexivity).
    exact Hone. }
  destruct Hold as [He|(c & r & Hcr & Hc)]; [now apply Hempty|].
  destruct (Order.notes o) as [[|c0 r0]|] eqn:Hnotes; try discriminate Hcr.
  injection Hcr as -> ->.
  unfold Order.get_status_history at 1 2.
  rewrite (Hadd c r eq_refl Hc), Hnotes.
  replace (Py.str_bool (Some (String c r +:+ String (ascii_of_nat 10) line)))
    with true by reflexivity.
  replace (Py.or_empty (Some (String c r +:+ String (ascii_of_nat 10) line)))
    with (String c r +:+ String (ascii_of_nat 10) line) by reflexivity.
  cbn [Py.str_bool Py.or_empty negb].
  rewrite split_char_app, List.filter_app, map_app. now rewrite Hone.
Qed.

End HistoryFacts.

(** Two noted status changes on the sample order leave two entries. *)
Lemma status_history_of_two_changes :
  let confirmed :=
    Order.update_status OrderStatus.CONFIRMED (Some "Payment received")
      sample_clock sample_order in
  Order.get_status_history confirmed
  = ["2024-01-15 10:30:00: Status changed from pending to confirmed. Payment received"]
  /\ Order.get_status_history
       (Order.update_status OrderStatus.SHIPPED (Some "Left the warehouse")
          sample_clock confirmed)
     = ["2024-01-15 10:30:00: Status changed from pending to confirmed. Payment received";
        "2024-01-15 10:30:00: Status changed from confirmed to shipped. Left the warehouse"].
Proof.
  intros confirmed.
  assert (H1 : Order.get_status_history confirmed
               = ["2024-01-15 10:30:00: Status changed from pending to confirmed. Payment received"]).
  { subst confirmed.
    rewrite (status_history_grows OrderStatus.CONFIRMED "Payment received"
               sample_clock sample_order);
      [reflexivity|discriminate|reflexivity|reflexivity|left; reflexivity]. }
  split; [exact H1|].
  rewrite (status_history_grows OrderStatus.SHIPPED "Left the warehouse"
             sample_clock confirmed);
    [rewrite H1; reflexivity|discriminate|reflexivity|reflexivity|].
  right. eexists _, _. split; reflexivity.
Defined.

(* ===================================================================== *)
(** * Reserving and releasing stock *)
(* ===================================================================== *)

Section StockRoundTrip.
Context {num : Type} `{!Py.PyNum num}.
Implicit Types (p : Product.t num) (q : Z) (clk : clock).

Lemma release_stock_accepts p q clk :
  0 < q ->
  Product.release_stock q clk p
  = (Py.Return true,
     Product.set_stock p (Product.stock_quantity p + q) (clk 0%nat)).
Proof.
  intros Hpos. unfold Product.release_stock. unfold_monad.
  destruct (Z.leb_spec q 0); [lia|reflexivity].
Qed.

Lemma reserve_stock_returned p q clk r p1 :
  Product.reserve_stock q clk p = (Py.Return r, p1) ->
  0 < q <= Product.stock_quantity p
  /\ p1 = Product.set_stock p (Product.stock_quantity p - q) (clk 0%nat).
Proof.
  unfold Product.reserve_stock. unfold_monad.
  destruct (Z.leb_spec q 0); [discriminate|].
  destruct (Z.ltb_spec (Product.stock_quantity p) q); [discriminate|].
  intros [= _ <-]. split; [lia|reflexivity].
Qed.

(** X4.  Reserving and releasing undo each other.  For a positive quantity
    that the stock covers, [reserve_stock] followed by [release_stock] of
    the same quantity returns and leaves the product as it was but for its
    [updated_at]; and from a stock that is not negative, so does
    [release_stock] followed by [reserve_stock]. *)
Theorem reserve_release_round_trip p q clk clk' :
  0 < q ->
  (q <= Product.stock_quantity p ->
   (let* _ := Product.reserve_stock q clk in Product.release_stock q clk') p
   = (Py.Return true,
      Product.set_stock p (Product.stock_quantity p) (clk' 0%nat)))
  /\ (0 <= Product.stock_quantity p ->
      (let* _ := Product.release_stock q clk in Product.reserve_stock q clk') p
      = (Py.Return true,
         Product.set_stock p (Product.stock_quantity p) (clk' 0%nat))).
Proof.
  intros Hpos. split; intros Hstock; unfold Py.bind at 1.
  - rewrite reserve_stock_accepts by lia.
    rewrite release_stock_accepts by exact Hpos.
    unfold Product.set_stock. simpl. do 3 f_equal. lia.
  - rewrite release_stock_accepts by exact Hpos.
    rewrite reserve_stock_accepts by (simpl; lia).
    unfold Product.set_stock. simpl. do 3 f_equal. lia.
Qed.

End StockRoundTrip.

Lemma reserve_3_then_release_3 :
  (let* _ := Product.reserve_stock 3 sample_clock in
   Product.release_stock 3 sample_clock) (sample_product 100 None 10)
  = (Py.Return true, Product.mk 100%Q None 10 5 1 true (Some epoch)).
Proof.
  destruct (reserve_release_round_trip (sample_product 100 None 10) 3
              sample_clock sample_clock ltac:(lia)) as [Hrel _].
  apply Hrel. simpl. lia.
Defined.

(* ===================================================================== *)
(** * Counting a cart *)
(* ===================================================================== *)

Section RowSums.
Context {A : Type}.
Implicit Types (p g : A -> bool) (w : A -> Z) (l : list A).

Lemma fold_left_add_acc (l : list Z) a :
  fold_left Z.add l a = a + fold_left Z.add l 0.
Proof.
  revert a. induction l as [|x l IH]; intros a; cbn [fold_left]; [lia|].
  rewrite (IH (a + x)), (IH (0 + x)). lia.
Qed.

Lemma sum_cons w (x : A) l :
  fold_left Z.add (map w (x :: l)) 0 = w x + fold_left Z.add (map w l) 0.
Proof. cbn [map fold_left]. rewrite fold_left_add_acc. lia. Qed.

Lemma sum_app_cons w l1 (x : A) l2 :
  fold_left Z.add (map w (l1 ++ x :: l2)) 0
  = fold_left Z.add (map w (l1 ++ l2)) 0 + w x.
Proof.
  rewrite !map_app, !fold_left_app. cbn [map fold_left].
  rewrite (fold_left_add_acc (map w l2) (_ + w x)).
  rewrite (fold_left_add_acc (map w l2) (fold_left _ _ _)). lia.
Qed.

(** A row that passes a filter and is put in its place among the rows:
    the filtered rows are as before, with the row somewhere among them. *)
Lemma filter_insert_row_split g (ltb : A -> A -> bool) l x :
  g x = true ->
  exists l1 l2,
    List.filter g l = l1 ++ l2
    /\ List.filter g (insert_row ltb x l) = l1 ++ x :: l2.
Proof.
  intros Hx. destruct (insert_row_split ltb x l) as (l1 & l2 & -> & ->).
  exists (List.filter g l1), (List.filter g l2).
  rewrite !List.filter_app. cbn [List.filter]. rewrite Hx. auto.
Qed.

Lemma sum_filter_update_first p g w l x y :
  (forall a, p a = true -> g a = true) -> g y = true ->
  List.find p l = Some x ->
  fold_left Z.add (map w (List.filter g (update_first p (fun _ => y) l))) 0
  = fold_left Z.add (map w (List.filter g l)) 0 - w x + w y
  /\ length (List.filter g (update_first p (fun _ => y) l))
     = length (List.filter g l).
Proof.
  intros Hpg Hy. induction l as [|a l IH]; intros Hfind; [discriminate|].
  cbn [update_first List.find] in *. destruct (p a) eqn:Hpa.
  - injection Hfind as ->. cbn [List.filter]. rewrite Hy, (Hpg x Hpa).
    rewrite !sum_cons. cbn [length]. split; [lia|reflexivity].
  - destruct (IH Hfind) as [IHs IHl]. cbn [List.filter].
    destruct (g a); [|split; assumption].
    rewrite !sum_cons. cbn [length]. split; [lia|now f_equal].
Qed.

Lemma sum_filter_remove_first p g w l x :
  (forall a, p a = true -> g a = true) ->
  List.find p l = Some x ->
  fold_left Z.add (map w (List.filter g (remove_first p l))) 0
  = fold_left Z.add (map w (List.filter g l)) 0 - w x
  /\ S (length (List.filter g (remove_first p l))) = length (List.filter g l).
Proof.
  intros Hpg. induction l as [|a l IH]; intros Hfind; [discriminate|].
  cbn [remove_first List.find] in *. destruct (p a) eqn:Hpa.
  - injection Hfind as ->. cbn [List.filter]. rewrite (Hpg x Hpa).
    rewrite sum_cons. cbn [length]. split; [lia|reflexivity].
  - destruct (IH Hfind) as [IHs IHl]. cbn [List.filter].
    destruct (g a); [|split; assumption].
    rewrite !sum_cons. cbn [length]. split; [lia|now f_equal].
Qed.

Lemma filter_update_first_other p g (f : A -> A) l :
  (forall a, p a = true -> g a = false /\ g (f a) = false) ->
  List.filter g (update_first p f l) = List.filter g l.
Proof.
  intros Hsep. induction l as [|a l IH]; [reflexivity|].
  cbn [update_first]. destruct (p a) eqn:Hpa; cbn [List.filter].
  - destruct (Hsep a Hpa) as [-> ->]. reflexivity.
  - now rewrite IH.
Qed.

Lemma filter_remove_first_other p g l :
  (forall a, p a = true -> g a = false) ->
  List.filter g (remove_first p l) = List.filter g l.
Proof.
  intros Hsep. induction l as [|a l IH]; [reflexivity|].
  cbn [remove_first]. destruct (p a) eqn:Hpa; cbn [List.filter].
  - now rewrite (Hsep a Hpa).
  - now rewrite IH.
Qed.

Lemma filter_filter_other g g' l :
  (forall a, g' a = true -> g a = true) ->
  List.filter g' (List.filter g l) = List.filter g' l.
Proof.
  intros Himp. induction l as [|a l IH]; [reflexivity|].
  cbn [List.filter]. destruct (g a) eqn:Hga; cbn [List.filter].
  - now rewrite IH.
  - destruct (g' a) eqn:Hg'a; [|exact IH].
    apply Himp in Hg'a. congruence.
Qed.

Lemma filter_filter_none g l :
  List.filter g (List.filter (fun a => negb (g a)) l) = [].
Proof.
  induction l as [|a l IH]; [reflexivity|].
  cbn [List.filter]. destruct (g a) eqn:Hga; cbn [negb List.filter]; [exact IH|].
  now rewrite Hga.
Qed.

End RowSums.

Section CartCounts.
Context {num : Type} `{!Py.PyNum num}.
Implicit Types (st : Cart.db num) (self pid q : Z) (clk : clock)
  (it : CartItem.t num).

Lemma is_line_cart self pid it :
  Cart.is_line self pid it = true -> (CartItem.cart_id it =? self) = true.
Proof. unfold Cart.is_line. rewrite andb_true_iff. tauto. Qed.

Lemma is_line_other_cart self other pid it :
  other <> self -> Cart.is_line self pid it = true ->
  (CartItem.cart_id it =? other) = false.
Proof.
  intros Hne Hline. apply is_line_cart in Hline.
  apply Z.eqb_eq in Hline. apply Z.eqb_neq. congruence.
Qed.

(** X5.  [clear_cart] never raises and leaves the cart empty, whatever it
    held: no line, no item, and [is_empty] holds; the lines of every other
    cart and the catalogue are untouched. *)
Theorem clear_cart_empties self clk st :
  let r := Cart.clear_cart self clk st in
  fst r = Py.Return tt
  /\ Cart.items self (snd r) = []
  /\ Cart.is_empty self (snd r) = true
  /\ Cart.get_total_items self (snd r) = 0
  /\ Cart.get_item_count self (snd r) = 0%nat
  /\ (forall other, other <> self ->
        Cart.items other (snd r) = Cart.items other st)
  /\ Cart.products (snd r) = Cart.products st.
Proof.
  intros r. subst r.
  assert (Hitems : Cart.items self (snd (Cart.clear_cart self clk st)) = []).
  { unfold Cart.items. cbn.
    apply (filter_filter_none (fun it => CartItem.cart_id it =? self)). }
  split; [reflexivity|]. split; [exact Hitems|].
  unfold Cart.is_empty, Cart.get_total_items, Cart.get_item_count.
  rewrite Hitems. repeat split.
  intros other Hne. unfold Cart.items. cbn.
  apply filter_filter_other. intros it Hit.
  apply Z.eqb_eq in Hit. apply negb_true_iff, Z.eqb_neq. congruence.
Qed.

(** What [remove_item] does to the counts. *)
Lemma remove_item_counts self pid clk st it :
  Cart.get_item_by_product self pid st = Some it ->
  let st' := snd (Cart.remove_item self pid clk st) in
  Cart.get_total_items self st' = Cart.get_total_items self st - CartItem.quantity it
  /\ S (Cart.get_item_count self st') = Cart.get_item_count self st.
Proof.
  intros Hit st'. subst st'.
  destruct (remove_item_cases self pid clk st) as [[Hnone _]|(it0 & Hit0 & ->)];
    [congruence|].
  rewrite Hit in Hit0. injection Hit0 as <-.
  rewrite get_item_by_product_find in Hit.
  unfold Cart.get_total_items, Cart.get_item_count, Cart.items. cbn.
  apply sum_filter_remove_first; [apply is_line_cart|exact Hit].
Qed.

(** X6.  [remove_item] never raises.  Without a line for the product nothing
    changes.  With one, the line is deleted: the cart counts one line less
    and the line's quantity less in items.  Other carts keep their lines,
    and under the uniqueness constraint a second [remove_item] changes
    nothing. *)
Theorem remove_item_effect self pid clk clk' st :
  let r := Cart.remove_item self pid clk st in
  fst r = Py.Return tt
  /\ (Cart.get_item_by_product self pid st = None -> snd r = st)
  /\ (forall it,
        Cart.get_item_by_product self pid st = Some it ->
        Cart.get_total_items self (snd r)
        = Cart.get_total_items self st - CartItem.quantity it
        /\ S (Cart.get_item_count self (snd r)) = Cart.get_item_count self st)
  /\ (forall other, other <> self ->
        Cart.items other (snd r) = Cart.items other st)
  /\ (Cart.unique_cart_product st ->
      Cart.remove_item self pid clk' (snd r) = (Py.Return tt, snd r)).
Proof.
  intros r. subst r.
  split; [|split; [|split; [|split]]].
  - destruct (remove_item_cases self pid clk st) as [[_ ->]|(it & _ & ->)];
      reflexivity.
  - intros Hnone.
    destruct (remove_item_cases self pid clk st) as [[_ ->]|(it & Hit & _)];
      [reflexivity|congruence].
  - intros it Hit. now apply remove_item_counts.
  - intros other Hne.
    destruct (remove_item_cases self pid clk st) as [[_ ->]|(it & _ & ->)];
      [reflexivity|].
    unfold Cart.items. cbn. apply filter_remove_first_other.
    intros a Ha. now apply (is_line_other_cart self other pid).
  - intros Hu.
    assert (Hgone : Cart.get_item_by_product self pid
                      (snd (Cart.remove_item self pid clk st)) = None).
    { destruct (remove_item_cases self pid clk st) as [[Hnone ->]|(it & _ & ->)];
        [exact Hnone|].
      rewrite get_item_by_product_find. cbn.
      exact (find_remove_first_unique Cart.key _ _ (self, pid)
               (is_line_key self pid) Hu). }
    destruct (remove_item_cases self pid clk'
                (snd (Cart.remove_item self pid clk st)))
      as [[_ Hr]|(it & Hit & _)]; [exact Hr|congruence].
Qed.

End CartCounts.

Lemma in_update_first {A} (p : A -> bool) (y : A) (l : list A) a :
  In a (update_first p (fun _ => y) l) -> a = y \/ In a l.
Proof.
  induction l as [|x l IH]; cbn [update_first]; [tauto|].
  destruct (p x); cbn [In]; [intros [<-|Hin]; auto|].
  intros [<-|Hin]; [auto|]. destruct (IH Hin); auto.
Qed.

Section CartChanges.
Context {num : Type} `{!Py.PyNum num}.
Implicit Types (st : Cart.db num) (self pid q : Z) (clk : clock)
  (it : CartItem.t num).

(** What a successful [add_item] does to the number of items of its cart
    and to the lines of the other carts. *)
Lemma add_item_total_items self pid q clk st it' st' :
  Cart.add_item self pid q clk st = (Py.Return it', st') ->
  Cart.get_total_items self st' = Cart.get_total_items self st + q
  /\ (forall other, other <> self ->
        Cart.items other st' = Cart.items other st).
Proof.
  intros Hrun.
  destruct (add_item_cases self pid q clk st)
    as [[msg Hr]|[(it & product & Hit & _ & _ & Hr)|(product & Hit & _ & _ & Hr)]];
    rewrite Hr in Hrun; [discriminate| |]; injection Hrun as <- <-.
  - pose proof Hit as Hfind. rewrite get_item_by_product_find in Hfind.
    destruct (find_some _ _ Hfind) as [_ Hline].
    destruct (sum_filter_update_first (Cart.is_line self pid)
                (fun it => CartItem.cart_id it =? self) CartItem.quantity
                (Cart.cart_items st) it
                (CartItem.set_quantity it (CartItem.quantity it + q) (clk 0%nat))
                (is_line_cart self pid) (is_line_cart self pid _ Hline) Hfind)
      as [Hsum _].
    unfold Cart.get_total_items, Cart.items. cbn.
    rewrite Hsum. cbn. split; [lia|].
    intros other Hne. apply filter_update_first_other. intros a Ha.
    split; [now apply (is_line_other_cart self other pid)|].
    now apply (is_line_other_cart self other pid it).
  - unfold Cart.get_total_items, Cart.items.
    cbn [Cart.cart_items Cart.touch Cart.set_cart_items].
    set (new := CartItem.mk self pid q (Product.get_effective_price product) None).
    split.
    + destruct (filter_insert_row_split
                  (fun it : CartItem.t num => CartItem.cart_id it =? self)
                  Cart.index_ltb (Cart.cart_items st) new)
        as (l1 & l2 & -> & ->); [apply Z.eqb_refl|].
      now rewrite sum_app_cons.
    + intros other Hne. apply filter_insert_row_other. cbn.
      apply Z.eqb_neq. congruence.
Qed.


(** X8.  [update_item_quantity] with a positive quantity that the stock covers
    returns; the line then has exactly that quantity and the price it had
    before (the price is not read again from the catalogue); the cart has
    as many lines as before and its number of items changed by the
    difference; other carts keep their lines. *)
Theorem update_item_quantity_sets self pid q clk st it product :
  Cart.get_item_by_product self pid st = Some it ->
  Cart.products st !! pid = Some product ->
  0 < q <= Product.stock_quantity product ->
  let r := Cart.update_item_quantity self pid q clk st in
  fst r = Py.Return tt
  /\ Cart.get_item_by_product self pid (snd r)
     = Some (CartItem.set_quantity it q (clk 0%nat))
  /\ CartItem.price (CartItem.set_quantity it q (clk 0%nat)) = CartItem.price it
  /\ Cart.get_total_items self (snd r)
     = Cart.get_total_items self st - CartItem.quantity it + q
  /\ Cart.get_item_count self (snd r) = Cart.get_item_count self st
  /\ (forall other, other <> self ->
        Cart.items other (snd r) = Cart.items other st).
Proof.
  intros Hit Hp Hq r. subst r.
  assert (Hrun : Cart.update_item_quantity self pid q clk st
                 = (Py.Return tt,
                    Cart.touch self (clk 1%nat)
                      (Cart.set_cart_items
                         (update_first (Cart.is_line self pid)
                            (fun _ => CartItem.set_quantity it q (clk 0%nat)))
                         st))).
  { unfold Cart.update_item_quantity. unfold_monad. rewrite Hit.
    destruct (Z.leb_spec q 0); [lia|]. rewrite Hp.
    destruct (Z.gtb_spec q (Product.stock_quantity product)); [lia|reflexivity]. }
  rewrite Hrun. cbn [fst snd].
  pose proof Hit as Hfind. rewrite get_item_by_product_find in Hfind.
  destruct (find_some _ _ Hfind) as [_ Hline].
  destruct (sum_filter_update_first (Cart.is_line self pid)
              (fun it => CartItem.cart_id it =? self) CartItem.quantity
              (Cart.cart_items st) it
              (CartItem.set_quantity it q (clk 0%nat))
              (is_line_cart self pid) (is_line_cart self pid _ Hline) Hfind)
    as [Hsum Hlen].
  split; [reflexivity|]. split.
  { rewrite get_item_by_product_find. cbn.
    now apply find_update_first with (x := it). }
  split; [reflexivity|].
  unfold Cart.get_total_items, Cart.get_item_count, Cart.items. cbn.
  rewrite Hsum, Hlen. cbn. split; [lia|]. split; [reflexivity|].
  intros other Hne. apply filter_update_first_other. intros a Ha.
  split; [now apply (is_line_other_cart self other pid)|].
  now apply (is_line_other_cart self other pid it).
Qed.

Lemma validate_item_none st item :
  Cart.validate_item st item = Py.Return None <-> line_ok st item.
Proof.
  unfold Cart.validate_item, line_ok. split.
  - destruct (Cart.products st !! CartItem.product_id item) as [product|];
      [|discriminate].
    destruct (Product.is_active product) eqn:Hact; [|discriminate]. cbn [negb].
    destruct (Z.gtb_spec (CartItem.quantity item) (Product.stock_quantity product));
      [discriminate|].
    intros _. exists product. auto.
  - intros (product & -> & -> & Hq). cbn [negb].
    destruct (Z.gtb_spec (CartItem.quantity item) (Product.stock_quantity product));
      [lia|reflexivity].
Qed.

Lemma validate_items_nil st l :
  Cart.validate_items st l = Py.Return [] <-> Forall (line_ok st) l.
Proof.
  induction l as [|item l IH]; cbn [Cart.validate_items].
  - split; [constructor|reflexivity].
  - rewrite Forall_cons, <- IH, <- validate_item_none.
    destruct (Cart.validate_item st item) as [[x|]|e];
      destruct (Cart.validate_items st l) as [entries|e'];
      split; try discriminate; try (intros [? ?]; discriminate).
    + intros [= ->]. auto.
    + intros [_ ->]. reflexivity.
Qed.

(** X9.  [validate_stock_availability] changes nothing, and it returns the
    empty list exactly when every line of the cart has its product in the
    catalogue, active, and with the line's quantity in stock. *)
Theorem validate_stock_availability_empty self st :
  snd (Cart.validate_stock_availability self st) = st
  /\ (fst (Cart.validate_stock_availability self st) = Py.Return []
      <-> forall item,
            In item (Cart.items self st) ->
            exists product,
              Cart.products st !! CartItem.product_id item = Some product
              /\ Product.is_active product = true
              /\ CartItem.quantity item <= Product.stock_quantity product).
Proof.
  split; [reflexivity|]. unfold Cart.validate_stock_availability. cbn [fst].
  rewrite validate_items_nil, List.Forall_forall. reflexivity.
Qed.

(** The lines of a cart without an issue have none after [add_item]
    returns. *)
Lemma add_item_lines_ok self pid q clk st it' st' :
  Forall (line_ok st) (Cart.items self st) ->
  Cart.add_item self pid q clk st = (Py.Return it', st') ->
  Forall (line_ok st') (Cart.items self st').
Proof.
  rewrite !List.Forall_forall. intros Hok Hrun.
  assert (Hsame : forall item, line_ok st item -> line_ok st' item).
  { apply add_item_return in Hrun as (_ & _ & Hprod & _).
    intros item (product & Hp & Hrest). exists product. now rewrite Hprod. }
  destruct (add_item_cases self pid q clk st)
    as [[msg Hr]|[(it & product & Hit & Hp & Hq & Hr)|(product & Hit & Hp & Hq & Hr)]];
    rewrite Hr in Hrun; [discriminate| |]; injection Hrun as Hit' Hst'.
  - intros item Hin. rewrite <- Hst' in Hin. unfold Cart.items in Hin. cbn in Hin.
    apply filter_In in Hin as [Hin Hcart].
    apply in_update_first in Hin as [->|Hin].
    + apply Hsame. exists product.
      apply get_item_by_product_is_line in Hit as [Hline _].
      apply is_line_key in Hline. injection Hline as _ Hpid.
      cbn. rewrite Hpid. apply query_active_product_some in Hp as Hp'.
      split; [exact Hp'|]. split; [|lia].
      unfold Cart.query_active_product in Hp. rewrite Hp' in Hp.
      destruct (Product.is_active product); [reflexivity|discriminate].
    + apply Hsame, Hok. unfold Cart.items. apply filter_In. auto.
  - intros item Hin. rewrite <- Hst' in Hin. unfold Cart.items in Hin. cbn in Hin.
    apply filter_In in Hin as [Hin Hcart].
    apply in_insert_row in Hin as [->|Hin].
    + apply Hsame. exists product. cbn.
      apply query_active_product_some in Hp as Hp'.
      split; [exact Hp'|]. split; [|lia].
      unfold Cart.query_active_product in Hp. rewrite Hp' in Hp.
      destruct (Product.is_active product); [reflexivity|discriminate].
    + apply Hsame, Hok. unfold Cart.items. apply filter_In. auto.
Qed.

(** X10.  A cart without an issue stays without one when [add_item] returns:
    the check of [add_item] on the new total is the check the validation
    makes on the line. *)
Theorem add_item_keeps_cart_valid self pid q clk st it' st' :
  fst (Cart.validate_stock_availability self st) = Py.Return [] ->
  Cart.add_item self pid q clk st = (Py.Return it', st') ->
  fst (Cart.validate_stock_availability self st') = Py.Return [].
Proof.
  unfold Cart.validate_stock_availability. cbn [fst].
  rewrite !validate_items_nil. apply add_item_lines_ok.
Qed.

End CartChanges.

(* ===================================================================== *)
(** * The stock of an order *)
(* ===================================================================== *)

Section OrderStock.
Context {num : Type} `{!Py.PyNum num}.
Implicit Types (st : Cart.db num) (l : list (OrderItem.t num)) (clk : clock)
  (p : Product.t num).

Lemma shift_0 p : shift 0 p = forget_updated_at p.
Proof. unfold shift, forget_updated_at. f_equal. lia. Qed.

Lemma shift_shift a b p : shift a (shift b p) = shift (a + b) p.
Proof. unfold shift. cbn. f_equal. lia. Qed.

Lemma shift_set_stock a p s now :
  shift a (Product.set_stock p s now) = shift (a + (s - Product.stock_quantity p)) p.
Proof. unfold shift, Product.set_stock. cbn. f_equal. lia. Qed.

Lemma db_eta st : Cart.mk_db (Cart.products st) (Cart.carts st) (Cart.cart_items st) = st.
Proof. now destruct st. Qed.

(** How one turn of the loops ends. *)
Lemma on_product_reserve method pid q clk st :
  (exists e, Order.on_product method pid (Product.reserve_stock q clk) st
             = (Py.Raise e, st)
             /\ (Cart.products st !! pid = None
                 \/ exists p, Cart.products st !! pid = Some p
                              /\ (q <= 0 \/ Product.stock_quantity p < q)))
  \/ (exists p,
        Cart.products st !! pid = Some p /\ 0 < q <= Product.stock_quantity p
        /\ Order.on_product method pid (Product.reserve_stock q clk) st
           = (Py.Return true,
              Cart.mk_db
                (<[pid := Product.set_stock p (Product.stock_quantity p - q)
                            (clk 0%nat)]> (Cart.products st))
                (Cart.carts st) (Cart.cart_items st))).
Proof.
  unfold Order.on_product.
  destruct (Cart.products st !! pid) as [p|] eqn:Hp; [|left; eauto].
  destruct (Z_le_gt_dec q 0) as [Hle|Hgt].
  { left. destruct (reserve_stock_rejects p q clk (or_introl Hle)) as [msg ->].
    eexists. rewrite insert_id by exact Hp. rewrite db_eta. eauto 7. }
  destruct (Z_lt_le_dec (Product.stock_quantity p) q) as [Hlt|Hge].
  { left. destruct (reserve_stock_rejects p q clk (or_intror Hlt)) as [msg ->].
    eexists. rewrite insert_id by exact Hp. rewrite db_eta. eauto 7. }
  right. exists p. rewrite reserve_stock_accepts by lia.
  split; [reflexivity|]. split; [lia|reflexivity].
Qed.

Lemma on_product_release method pid q clk st p :
  Cart.products st !! pid = Some p -> 0 < q ->
  Order.on_product method pid (Product.release_stock q clk) st
  = (Py.Return true,
     Cart.mk_db
       (<[pid := Product.set_stock p (Product.stock_quantity p + q)
                   (clk 0%nat)]> (Cart.products st))
       (Cart.carts st) (Cart.cart_items st)).
Proof.
  intros Hp Hq. unfold Order.on_product. rewrite Hp.
  now rewrite release_stock_accepts.
Qed.

(** What a loop of reservations that returned has done. *)
Lemma reserve_stock_from_return k l clk st st1 :
  Order.reserve_stock_from k l clk st = (Py.Return tt, st1) ->
  Forall (fun item => 0 < OrderItem.quantity item
                      /\ is_Some (Cart.products st !! OrderItem.product_id item)) l
  /\ (forall pid,
        option_map (shift 0) (Cart.products st1 !! pid)
        = option_map (shift (- qty_for pid l)) (Cart.products st !! pid))
  /\ Cart.carts st1 = Cart.carts st
  /\ Cart.cart_items st1 = Cart.cart_items st.
Proof.
  revert k st. induction l as [|item l IH]; intros k st.
  - cbn. intros [= <-]. split; [constructor|]. split; [|split; reflexivity].
    intros pid. reflexivity.
  - cbn [Order.reserve_stock_from]. unfold Py.bind at 1.
    destruct (on_product_reserve "reserve_stock" (OrderItem.product_id item)
                (OrderItem.quantity item) (fun _ => clk k) st)
      as [(e & -> & _)|(p & Hp & Hq & ->)]; [discriminate|].
    intros Hrest. apply IH in Hrest as (Hall & Hstock & Hcarts & Hitems).
    cbn in Hcarts, Hitems. split; [|split; [|split; assumption]].
    + constructor; [split; [lia|eauto]|].
      eapply List.Forall_impl; [|exact Hall]. cbn. intros a [Ha Hsome].
      split; [exact Ha|].
      destruct (Z.eq_dec (OrderItem.product_id a) (OrderItem.product_id item))
        as [Heq|Hne].
      * rewrite Heq. eauto.
      * now rewrite lookup_insert_ne in Hsome by congruence.
    + intros pid. rewrite Hstock. cbn [Cart.products qty_for fold_right].
      destruct (Z.eqb_spec (OrderItem.product_id item) pid) as [Heq|Hne].
      * subst pid. rewrite lookup_insert_eq, Hp. cbn. f_equal.
        rewrite shift_set_stock. f_equal.
        fold (qty_for (OrderItem.product_id item) l). lia.
      * rewrite lookup_insert_ne by exact Hne. reflexivity.
Qed.

(** A loop of releases, of positive quantities of products that exist,
    returns, and what it has done. *)
Lemma release_stock_from_return k l clk st :
  Forall (fun item => 0 < OrderItem.quantity item
                      /\ is_Some (Cart.products st !! OrderItem.product_id item)) l ->
  exists st2,
    Order.release_stock_from k l clk st = (Py.Return tt, st2)
    /\ (forall pid,
          option_map (shift 0) (Cart.products st2 !! pid)
          = option_map (shift (qty_for pid l)) (Cart.products st !! pid))
    /\ Cart.carts st2 = Cart.carts st
    /\ Cart.cart_items st2 = Cart.cart_items st.
Proof.
  revert k st. induction l as [|item l IH]; intros k st Hall.
  - exists st. cbn. split; [reflexivity|]. split; [|split; reflexivity].
    intros pid. reflexivity.
  - apply Forall_cons in Hall as [[Hq [p Hp]] Hall].
    cbn [Order.release_stock_from]. unfold Py.bind at 1.
    rewrite (on_product_release _ _ _ _ _ p Hp Hq).
    destruct (IH (S k)
                (Cart.mk_db
                   (<[OrderItem.product_id item :=
                        Product.set_stock p
                          (Product.stock_quantity p + OrderItem.quantity item)
                          (clk k)]> (Cart.products st))
                   (Cart.carts st) (Cart.cart_items st)))
      as (st2 & Hrun & Hstock & Hcarts & Hitems).
    { eapply List.Forall_impl; [|exact Hall]. cbn. intros a [Ha Hsome].
      split; [exact Ha|].
      destruct (Z.eq_dec (OrderItem.product_id a) (OrderItem.product_id item))
        as [Heq|Hne].
      - rewrite Heq, lookup_insert_eq. eauto.
      - now rewrite lookup_insert_ne by congruence. }
    exists st2. split; [exact Hrun|]. split; [|split; assumption].
    intros pid. rewrite Hstock. cbn [Cart.products qty_for fold_right].
    destruct (Z.eqb_spec (OrderItem.product_id item) pid) as [Heq|Hne].
    + subst pid. rewrite lookup_insert_eq, Hp. cbn. f_equal.
      rewrite shift_set_stock. f_equal.
      fold (qty_for (OrderItem.product_id item) l). lia.
    + rewrite lookup_insert_ne by exact Hne. reflexivity.
Qed.

(** X11.  When [Order.reserve_stock] returns, [Order.release_stock] of the same
    order returns as well and gives every product its stock back: the
    catalogue is as it was before the reservation but for the
    [updated_at] of the products, and carts are untouched. *)
Theorem order_reserve_then_release_restores (o : Order.t num) clk clk' st st1 :
  Order.reserve_stock o clk st = (Py.Return tt, st1) ->
  exists st2,
    Order.release_stock o clk' st1 = (Py.Return tt, st2)
    /\ (forall pid,
          option_map forget_updated_at (Cart.products st2 !! pid)
          = option_map forget_updated_at (Cart.products st !! pid))
    /\ Cart.carts st2 = Cart.carts st
    /\ Cart.cart_items st2 = Cart.cart_items st.
Proof.
  unfold Order.reserve_stock, Order.release_stock. intros Hres.
  apply reserve_stock_from_return in Hres as (Hall & Hstock & Hcarts & Hitems).
  destruct (release_stock_from_return 0 (Order.items o) clk' st1)
    as (st2 & Hrun & Hstock2 & Hcarts2 & Hitems2).
  { eapply List.Forall_impl; [|exact Hall]. cbn. intros a [Ha [p Hp]].
    split; [exact Ha|]. specialize (Hstock (OrderItem.product_id a)).
    rewrite Hp in Hstock.
    destruct (Cart.products st1 !! OrderItem.product_id a); [eauto|discriminate]. }
  exists st2. split; [exact Hrun|].
  split; [|split; congruence].
  intros pid. specialize (Hstock pid). specialize (Hstock2 pid).
  destruct (Cart.products st2 !! pid) as [p2|],
           (Cart.products st1 !! pid) as [p1|],
           (Cart.products st !! pid) as [p|];
    cbn [option_map] in *; try discriminate; try reflexivity.
  f_equal. apply (inj Some) in Hstock as Hs1. apply (inj Some) in Hstock2 as Hs2.
  rewrite <- !shift_0, Hs2.
  replace (shift (qty_for pid (Order.items o)) p1)
    with (shift (qty_for pid (Order.items o)) (shift 0 p1))
    by (rewrite shift_shift; f_equal; lia).
  rewrite Hs1, shift_shift. f_equal. lia.
Qed.

Lemma reserve_stock_from_app k l1 l2 clk st :
  Order.reserve_stock_from k (l1 ++ l2) clk st
  = (let* _ := Order.reserve_stock_from k l1 clk in
     Order.reserve_stock_from (k + length l1) l2 clk) st.
Proof.
  revert k st. induction l1 as [|item l1 IH]; intros k st.
  - cbn. now rewrite Nat.add_0_r.
  - cbn [app Order.reserve_stock_from length]. unfold Py.bind.
    destruct (Order.on_product "reserve_stock" (OrderItem.product_id item)
                (Product.reserve_stock (OrderItem.quantity item)
                   (fun _ => clk k)) st) as [[r|e] st'];
      [|reflexivity].
    rewrite IH. unfold Py.bind. now rewrite Nat.add_succ_r.
Qed.

(** X12.  [Order.reserve_stock] is not all or nothing.  When the lines before
    some line are reserved and that line cannot be (its product is gone,
    its quantity is not positive or exceeds what is left), the call
    raises in the state the earlier reservations made: their quantities
    stay taken off the stock. *)
Theorem order_reserve_keeps_earlier_reservations
    (o : Order.t num) l1 item l2 clk st st1 :
  Order.items o = l1 ++ item :: l2 ->
  Order.reserve_stock_from 0 l1 clk st = (Py.Return tt, st1) ->
  Cart.products st1 !! OrderItem.product_id item = None
  \/ (exists p,
        Cart.products st1 !! OrderItem.product_id item = Some p
        /\ (OrderItem.quantity item <= 0
            \/ Product.stock_quantity p < OrderItem.quantity item)) ->
  (exists e, Order.reserve_stock o clk st = (Py.Raise e, st1))
  /\ forall pid,
       option_map Product.stock_quantity (Cart.products st1 !! pid)
       = option_map (fun p => Product.stock_quantity p - qty_for pid l1)
           (Cart.products st !! pid).
Proof.
  intros Hitems Hl1 Hbad. split.
  - unfold Order.reserve_stock. rewrite Hitems, reserve_stock_from_app.
    unfold Py.bind at 1. rewrite Hl1.
    cbn [Order.reserve_stock_from]. unfold Py.bind at 1.
    destruct (on_product_reserve "reserve_stock" (OrderItem.product_id item)
                (OrderItem.quantity item)
                (fun _ => clk (0 + length l1)%nat) st1)
      as [(e & -> & _)|(p & Hp & Hq & _)]; [eauto|].
    exfalso. destruct Hbad as [Hnone|(p' & Hp' & Hq')]; [congruence|].
    rewrite Hp in Hp'. injection Hp' as <-. lia.
  - intros pid.
    apply reserve_stock_from_return in Hl1 as (_ & Hstock & _).
    specialize (Hstock pid).
    destruct (Cart.products st1 !! pid) as [p1|],
             (Cart.products st !! pid) as [p|];
      cbn [option_map] in *; try discriminate; try reflexivity.
    f_equal. apply (inj Some) in Hstock as Hs.
    apply (f_equal Product.stock_quantity) in Hs. cbn in Hs. lia.
Qed.

End OrderStock.

(* ===================================================================== *)
(** * Creating an order from a cart *)
(* ===================================================================== *)

Section CreateFromCart.
Context {num : Type} `{!Py.PyNum num}.
Variable repr_unavailable : list (CartItem.t num * string) -> string.
Implicit Types (st : Order.db num) (clk : clock).

Lemma qty_for_absent pid (l : list (OrderItem.t num)) :
  (forall item, In item l -> OrderItem.product_id item <> pid) ->
  qty_for pid l = 0.
Proof.
  induction l as [|a l IH]; intros Habs; [reflexivity|].
  cbn [qty_for fold_right]. fold (qty_for pid l).
  destruct (Z.eqb_spec (OrderItem.product_id a) pid) as [Heq|_].
  - exfalso. apply (Habs a); [now left|exact Heq].
  - apply IH. intros item Hin. apply Habs. now right.
Qed.

Lemma qty_for_unique (l : list (OrderItem.t num)) item :
  NoDup (map OrderItem.product_id l) -> In item l ->
  qty_for (OrderItem.product_id item) l = OrderItem.quantity item.
Proof.
  induction l as [|a l IH]; intros Hnd Hin; [destruct Hin|].
  cbn [map] in Hnd. apply NoDup_cons in Hnd as [Hnotin Hnd].
  cbn [qty_for fold_right]. fold (qty_for (OrderItem.product_id item) l).
  destruct Hin as [->|Hin].
  - rewrite Z.eqb_refl, qty_for_absent; [lia|].
    intros b Hb Heq. apply Hnotin. rewrite <- Heq.
    apply list_elem_of_In, in_map. exact Hb.
  - destruct (Z.eqb_spec (OrderItem.product_id a) (OrderItem.product_id item))
      as [Heq|_]; [|now apply IH].
    exfalso. apply Hnotin. rewrite Heq.
    apply list_elem_of_In, in_map. exact Hin.
Qed.

Lemma reserve_stock_from_other k (l : list (OrderItem.t num)) clk s s1 o pid :
  Order.reserve_stock_from k l clk s = (o, s1) ->
  (forall item, In item l -> OrderItem.product_id item <> pid) ->
  Cart.products s1 !! pid = Cart.products s !! pid.
Proof.
  revert k s. induction l as [|a l IH]; intros k s.
  - cbn. intros [= _ <-] _. reflexivity.
  - cbn [Order.reserve_stock_from]. unfold Py.bind at 1. intros Hrun Habs.
    destruct (on_product_reserve "reserve_stock" (OrderItem.product_id a)
                (OrderItem.quantity a) (fun _ => clk k) s)
      as [(e & He & _)|(p & Hp & Hq & Hr)].
    + rewrite He in Hrun. injection Hrun as _ <-. reflexivity.
    + rewrite Hr in Hrun. apply IH in Hrun.
      * rewrite Hrun. cbn. apply lookup_insert_ne, Habs. now left.
      * intros item Hin. apply Habs. now right.
Qed.

Lemma reserve_stock_from_succeeds k (l : list (OrderItem.t num)) clk s :
  NoDup (map OrderItem.product_id l) ->
  (forall item, In item l ->
     0 < OrderItem.quantity item
     /\ exists p, Cart.products s !! OrderItem.product_id item = Some p
                  /\ OrderItem.quantity item <= Product.stock_quantity p) ->
  exists s1, Order.reserve_stock_from k l clk s = (Py.Return tt, s1).
Proof.
  revert k s. induction l as [|a l IH]; intros k s Hnd Hok; [cbn; eauto|].
  cbn [map] in Hnd. apply NoDup_cons in Hnd as [Hnotin Hnd].
  cbn [Order.reserve_stock_from]. unfold Py.bind at 1.
  destruct (Hok a (or_introl eq_refl)) as (Hq & p & Hp & Hle).
  destruct (on_product_reserve "reserve_stock" (OrderItem.product_id a)
              (OrderItem.quantity a) (fun _ => clk k) s)
    as [(e & _ & [Hnone|(p' & Hp' & Hbad)])|(p' & _ & _ & ->)].
  - congruence.
  - rewrite Hp in Hp'. injection Hp' as <-. lia.
  - apply IH; [exact Hnd|]. intros item Hin.
    destruct (Hok item (or_intror Hin)) as (Hqi & pi & Hpi & Hlei).
    split; [exact Hqi|]. exists pi. split; [|exact Hlei]. cbn.
    rewrite lookup_insert_ne; [exact Hpi|].
    intros Heq. apply Hnotin. rewrite Heq.
    apply list_elem_of_In, in_map. exact Hin.
Qed.

Lemma NoDup_product_ids cart (l : list (CartItem.t num)) :
  NoDup (map Cart.key l) ->
  (forall it, In it l -> CartItem.cart_id it = cart) ->
  NoDup (map CartItem.product_id l).
Proof.
  induction l as [|a l IH]; intros Hnd Hcart; [constructor|].
  cbn [map] in *. apply NoDup_cons in Hnd as [Hnotin Hnd].
  apply NoDup_cons. split.
  - intros Hin. apply Hnotin.
    apply list_elem_of_In, in_map_iff in Hin as (b & Hb & Hin).
    apply list_elem_of_In, in_map_iff. exists b. split; [|exact Hin].
    unfold Cart.key. rewrite Hb, (Hcart b (or_intror Hin)).
    now rewrite (Hcart a (or_introl eq_refl)).
  - apply IH; [exact Hnd|]. intros it Hin. apply Hcart. now right.
Qed.

(** X13.  [create_from_cart] raises and leaves the session as it was when the
    cart has no line, and when some line of the cart has no product in
    the catalogue, an inactive product, or less in stock than the line
    asks. *)
Theorem create_from_cart_rejects order_id cart shipping discount note clk st :
  Cart.items cart (Order.shop st) = []
  \/ (exists item,
        In item (Cart.items cart (Order.shop st))
        /\ forall product,
             Cart.products (Order.shop st) !! CartItem.product_id item
               = Some product ->
             Product.is_active product = false
             \/ Product.stock_quantity product < CartItem.quantity item) ->
  exists e,
    Order.create_from_cart repr_unavailable order_id cart shipping discount
      note clk st
    = (Py.Raise e, st).
Proof.
  intros Hbad. unfold Order.create_from_cart.
  destruct (Cart.is_empty cart (Order.shop st)) eqn:Hempty; [eauto|].
  destruct Hbad as [Hnil|(item & Hin & Hitem)].
  { unfold Cart.is_empty in Hempty. rewrite Hnil in Hempty. discriminate. }
  destruct (fst (Cart.validate_stock_availability cart (Order.shop st)))
    as [[|x l]|e] eqn:Hval; [|eauto|eauto].
  exfalso. unfold Cart.validate_stock_availability in Hval. cbn [fst] in Hval.
  apply validate_items_nil in Hval.
  rewrite List.Forall_forall in Hval.
  destruct (Hval item Hin) as (product & Hp & Hact & Hq).
  destruct (Hitem product Hp); [congruence|lia].
Qed.

(** What [create_from_cart] does once the cart has passed its checks. *)
Lemma create_from_cart_valid order_id cart shipping discount note clk st :
  Cart.items cart (Order.shop st) <> [] ->
  (forall item,
     In item (Cart.items cart (Order.shop st)) ->
     exists product,
       Cart.products (Order.shop st) !! CartItem.product_id item = Some product
       /\ Product.is_active product = true
       /\ CartItem.quantity item <= Product.stock_quantity product) ->
  let order :=
    Order.mk order_id OrderStatus.PENDING (Py.Int 0) (Py.Int 0)
      shipping discount (Py.Int 0) note None None None None
      (map (fun it => OrderItem.mk order_id (CartItem.product_id it)
                        (CartItem.quantity it) (CartItem.price it))
           (Cart.items cart (Order.shop st))) in
  Order.create_from_cart repr_unavailable order_id cart shipping discount
    note clk st
  = match Order.calculate_totals clk order with
    | (Py.Raise e, order) =>
        (Py.Raise e,
         Order.mk_db (Order.shop st) (Order.orders st ++ [order]))
    | (Py.Return _, order) =>
        match Order.reserve_stock order (fun k => clk (S k)) (Order.shop st) with
        | (Py.Raise e, shop') =>
            (Py.Raise e, Order.mk_db shop' (Order.orders st ++ [order]))
        | (Py.Return _, shop') =>
            (Py.Return (Order.committed order),
             Order.mk_db shop' (Order.orders st ++ [Order.committed order]))
        end
    end.
Proof.
  intros Hne Hok order. unfold Order.create_from_cart.
  assert (Hempty : Cart.is_empty cart (Order.shop st) = false).
  { unfold Cart.is_empty.
    destruct (Cart.items cart (Order.shop st)); [congruence|reflexivity]. }
  rewrite Hempty.
  assert (Hval : fst (Cart.validate_stock_availability cart (Order.shop st))
                 = Py.Return []).
  { unfold Cart.validate_stock_availability. cbn [fst].
    apply validate_items_nil, List.Forall_forall. intros it Hin.
    destruct (Hok it Hin) as (product & Hp & Hact & Hle).
    exists product. auto. }
  rewrite Hval. reflexivity.
Qed.

Lemma sum_cart_lines (l : list (CartItem.t num)) order_id :
  Py.sum (map OrderItem.get_total_price
            (map (fun it => OrderItem.mk order_id (CartItem.product_id it)
                              (CartItem.quantity it) (CartItem.price it)) l))
  = Py.sum (map CartItem.get_total_price l).
Proof. now rewrite map_map. Qed.

(** X14.  [create_from_cart] returns an order when the cart has a line, the
    table satisfies the uniqueness constraint, every line has a positive
    quantity of an active product with that much in stock, and neither
    the shipping nor the discount amount is a [Decimal].  The order is
    pending, has one line per cart line with its product, quantity and
    price, and is the committed one: its subtotal is the cart's amount at
    two decimal places, its tax that amount times [0.08] at two decimal
    places, and its total the sum of amount, tax and shipping minus the
    discount at two decimal places.  It is added to the orders; every
    line's quantity is taken off its product's stock and the other
    products are untouched; the cart keeps its lines. *)
Theorem create_from_cart_places_order
    order_id cart shipping discount note clk st :
  Cart.unique_cart_product (Order.shop st) ->
  Cart.items cart (Order.shop st) <> [] ->
  (forall item,
     In item (Cart.items cart (Order.shop st)) ->
     0 < CartItem.quantity item
     /\ exists product,
          Cart.products (Order.shop st) !! CartItem.product_id item = Some product
          /\ Product.is_active product = true
          /\ CartItem.quantity item <= Product.stock_quantity product) ->
  Py.is_decimal shipping = false ->
  Py.is_decimal discount = false ->
  let amount := Cart.get_total_amount cart (Order.shop st) in
  let tax := Py.nmul amount (Py.lit (8 # 100)) in
  exists o st',
    Order.create_from_cart repr_unavailable order_id cart shipping discount
      note clk st
    = (Py.Return o, st')
    /\ Order.status o = OrderStatus.PENDING
    /\ Order.notes o = note
    /\ Order.items o
       = map (fun it => OrderItem.mk order_id (CartItem.product_id it)
                          (CartItem.quantity it) (CartItem.price it))
             (Cart.items cart (Order.shop st))
    /\ Order.subtotal_amount o = Py.Decimal (Py.quantize amount)
    /\ Order.tax_amount o = Py.Decimal (Py.quantize tax)
    /\ Order.total_amount o
       = Py.Decimal
           (Py.quantize
              (Py.nsub (Py.nadd (Py.nadd amount tax) (Py.value shipping))
                       (Py.value discount)))
    /\ Order.shipping_amount o = Py.Decimal (Py.quantize (Py.value shipping))
    /\ Order.discount_amount o = Py.Decimal (Py.quantize (Py.value discount))
    /\ Order.orders st' = Order.orders st ++ [o]
    /\ Cart.cart_items (Order.shop st') = Cart.cart_items (Order.shop st)
    /\ (forall item,
          In item (Cart.items cart (Order.shop st)) ->
          option_map Product.stock_quantity
            (Cart.products (Order.shop st') !! CartItem.product_id item)
          = option_map (fun p => Product.stock_quantity p - CartItem.quantity item)
              (Cart.products (Order.shop st) !! CartItem.product_id item))
    /\ (forall pid,
          (forall item, In item (Cart.items cart (Order.shop st)) ->
                        CartItem.product_id item <> pid) ->
          Cart.products (Order.shop st') !! pid
          = Cart.products (Order.shop st) !! pid).
Proof.
  intros Hu Hne Hok Hship Hdisc amount tax. subst tax amount.
  unfold Cart.get_total_amount.
  set (lines := Cart.items cart (Order.shop st)) in *.
  set (mk_line := fun it : CartItem.t num =>
                    OrderItem.mk order_id (CartItem.product_id it)
                      (CartItem.quantity it) (CartItem.price it)).
  assert (Hids : map OrderItem.product_id (map mk_line lines)
                 = map CartItem.product_id lines)
    by (rewrite map_map; reflexivity).
  assert (Hnd : NoDup (map OrderItem.product_id (map mk_line lines))).
  { rewrite Hids. apply (NoDup_product_ids cart).
    - subst lines. unfold Cart.items. now apply NoDup_map_filter.
    - intros it Hin. subst lines. unfold Cart.items in Hin.
      apply filter_In in Hin as [_ Hc]. now apply Z.eqb_eq. }
  destruct (reserve_stock_from_succeeds 0 (map mk_line lines)
              (fun k => clk (S k)) (Order.shop st) Hnd) as (s1 & Hres).
  { intros item Hin. apply in_map_iff in Hin as (it & <- & Hin).
    destruct (Hok it Hin) as (Hq & product & Hp & _ & Hle). cbn. eauto. }
  rewrite create_from_cart_valid;
    [|exact Hne|intros item Hin; destruct (Hok item Hin) as [_ Hp]; exact Hp].
  fold lines. fold mk_line.
  set (order := Order.mk order_id OrderStatus.PENDING (Py.Int 0) (Py.Int 0)
                  shipping discount (Py.Int 0) note None None None None
                  (map mk_line lines)).
  assert (Hsum : Py.sum (map OrderItem.get_total_price (Order.items order))
                 = Py.sum (map CartItem.get_total_price lines))
    by apply sum_cart_lines.
  assert (Hfloats : Py.sum_floats (map OrderItem.get_total_price (Order.items order))
                    = Py.Float (Py.sum (map CartItem.get_total_price lines))).
  { rewrite <- Hsum. cbn [Order.items order].
    destruct lines; [congruence|reflexivity]. }
  destruct (calculate_totals_cases clk order)
    as [(_ & _ & Hr)|([Hbad|Hbad] & _)];
    [|cbn in Hbad; congruence|cbn in Hbad; congruence].
  rewrite Hsum, Hfloats in Hr. rewrite Hr. unfold Order.reserve_stock.
  cbn [Order.items Order.set_updated_at Order.set_total_amount
       Order.set_tax_amount Order.set_subtotal_amount order].
  rewrite Hres. eexists _, _. split; [reflexivity|].
  cbn [Order.status Order.notes Order.items Order.subtotal_amount
       Order.tax_amount Order.total_amount Order.shipping_amount
       Order.discount_amount Order.orders Order.shop Order.committed
       Order.set_updated_at Order.set_total_amount
       Order.set_tax_amount Order.set_subtotal_amount order].
  unfold Py.numeric. cbn [Py.value].
  do 9 (split; [reflexivity|]).
  pose proof Hres as Hret.
  apply reserve_stock_from_return in Hret as (_ & Hstock & _ & Hitems).
  split; [exact Hitems|]. split.
  - intros item Hin. specialize (Hstock (CartItem.product_id item)).
    pose proof (qty_for_unique (map mk_line lines) (mk_line item) Hnd
                  (in_map mk_line _ _ Hin)) as Hqty.
    change (OrderItem.product_id (mk_line item)) with (CartItem.product_id item)
      in Hqty.
    change (OrderItem.quantity (mk_line item)) with (CartItem.quantity item)
      in Hqty.
    rewrite Hqty in Hstock.
    destruct (Cart.products s1 !! CartItem.product_id item) as [p1|],
             (Cart.products (Order.shop st) !! CartItem.product_id item) as [p|];
      cbn [option_map] in *; try discriminate; try reflexivity.
    f_equal. apply (inj Some) in Hstock.
    apply (f_equal Product.stock_quantity) in Hstock. cbn in Hstock. lia.
  - intros pid Habs.
    apply (reserve_stock_from_other _ _ _ _ _ _ pid Hres).
    intros item Hin. apply in_map_iff in Hin as (it & <- & Hin). cbn. now apply Habs.
Qed.

(** X19.  With a [Decimal] for the shipping or the discount amount,
    [create_from_cart] on a cart that passes its checks raises
    [TypeError] from inside [calculate_totals]: the order is in the
    session by then, with its lines, its subtotal and its tax, and with
    the total still 0; no stock is reserved and the carts are as they
    were. *)
Theorem create_from_cart_decimal_amount_raises
    order_id cart shipping discount note clk st :
  Cart.items cart (Order.shop st) <> [] ->
  (forall item,
     In item (Cart.items cart (Order.shop st)) ->
     exists product,
       Cart.products (Order.shop st) !! CartItem.product_id item = Some product
       /\ Product.is_active product = true
       /\ CartItem.quantity item <= Product.stock_quantity product) ->
  Py.is_decimal shipping = true \/ Py.is_decimal discount = true ->
  let amount := Cart.get_total_amount cart (Order.shop st) in
  exists msg o,
    Order.create_from_cart repr_unavailable order_id cart shipping discount
      note clk st
    = (Py.Raise (Py.TypeError msg),
       Order.mk_db (Order.shop st) (Order.orders st ++ [o]))
    /\ Order.items o
       = map (fun it => OrderItem.mk order_id (CartItem.product_id it)
                          (CartItem.quantity it) (CartItem.price it))
             (Cart.items cart (Order.shop st))
    /\ Order.subtotal_amount o = Py.Float amount
    /\ Order.tax_amount o = Py.Float (Py.nmul amount (Py.lit (8 # 100)))
    /\ Order.total_amount o = Py.Int 0
    /\ Order.updated_at o = None.
Proof.
  intros Hne Hok Hdec amount. subst amount. unfold Cart.get_total_amount.
  rewrite create_from_cart_valid; [|exact Hne|exact Hok].
  set (lines := Cart.items cart (Order.shop st)) in *.
  set (order := Order.mk order_id OrderStatus.PENDING (Py.Int 0) (Py.Int 0)
                  shipping discount (Py.Int 0) note None None None None _).
  assert (Hsum : Py.sum (map OrderItem.get_total_price (Order.items order))
                 = Py.sum (map CartItem.get_total_price lines))
    by apply sum_cart_lines.
  assert (Hfloats : Py.sum_floats (map OrderItem.get_total_price (Order.items order))
                    = Py.Float (Py.sum (map CartItem.get_total_price lines))).
  { rewrite <- Hsum. cbn [Order.items order].
    destruct lines; [congruence|reflexivity]. }
  destruct (calculate_totals_cases clk order)
    as [(Hs & Hd & _)|(_ & msg & Hr)];
    [cbn in Hs, Hd; destruct Hdec; congruence|].
  rewrite Hsum, Hfloats in Hr. rewrite Hr.
  eexists msg, _. split; [reflexivity|].
  cbn [Order.items Order.subtotal_amount Order.tax_amount Order.total_amount
       Order.updated_at Order.set_tax_amount Order.set_subtotal_amount order].
  repeat split.
Qed.

End CreateFromCart.

(* ===================================================================== *)
(** * The cart and the orders on sample data *)
(* ===================================================================== *)


(** Setting a line of 2 to 4, with 10 in stock. *)
Lemma set_line_of_2_to_4 :
  let st := sample_db None 10 [sample_line 2 100] in
  let r := Cart.update_item_quantity 1 1 4 sample_clock st in
  fst r = Py.Return tt
  /\ Cart.get_item_by_product 1 1 (snd r) = Some (CartItem.mk 1 1 4 100%Q (Some epoch))
  /\ Cart.get_total_items 1 (snd r) = 4.
Proof.
  intros st r. subst r.
  destruct (update_item_quantity_sets 1 1 4 sample_clock st (sample_line 2 100)
              (sample_product 100 None 10) eq_refl eq_refl)
    as (Hret & Hline & _ & Htotal & _); [simpl; lia|].
  split; [exact Hret|]. split; [exact Hline|]. rewrite Htotal. reflexivity.
Defined.

(** The sample cart has no issue before and after 3 more are added. *)
Lemma sample_cart_stays_valid :
  let st := sample_db None 10 [sample_line 2 100] in
  fst (Cart.validate_stock_availability 1 st) = Py.Return []
  /\ fst (Cart.validate_stock_availability 1
            (snd (Cart.add_item 1 1 3 sample_clock st))) = Py.Return [].
Proof.
  intros st. split; [reflexivity|].
  exact (add_item_keeps_cart_valid 1 1 3 sample_clock st
           (CartItem.mk 1 1 5 100%Q (Some epoch))
           (snd (Cart.add_item 1 1 3 sample_clock st)) eq_refl eq_refl).
Defined.

(** Reserving the stock of the sample order, then releasing it. *)
Lemma sample_order_reserve_then_release :
  exists st1 st2,
    Order.reserve_stock sample_order sample_clock sample_shop = (Py.Return tt, st1)
    /\ option_map Product.stock_quantity (Cart.products st1 !! 1) = Some 8
    /\ Order.release_stock sample_order sample_clock st1 = (Py.Return tt, st2)
    /\ option_map Product.stock_quantity (Cart.products st2 !! 1) = Some 10.
Proof.
  assert (Hres : Order.reserve_stock sample_order sample_clock sample_shop
                 = (Py.Return tt,
                    snd (Order.reserve_stock sample_order sample_clock sample_shop)))
    by reflexivity.
  destruct (order_reserve_then_release_restores sample_order sample_clock
              sample_clock sample_shop _ Hres) as (st2 & Hrel & Hsame & _).
  eexists _, st2. split; [exact Hres|]. split; [reflexivity|].
  split; [exact Hrel|].
  specialize (Hsame 1).
  destruct (Cart.products st2 !! 1) as [p2|]; [|discriminate Hsame].
  apply (inj Some) in Hsame.
  apply (f_equal Product.stock_quantity) in Hsame. cbn. f_equal. exact Hsame.
Defined.

(** The greedy order fails at its second line and keeps the 2 it took of
    product 1. *)
Lemma greedy_order_keeps_first_reservation :
  exists e st1,
    Order.reserve_stock greedy_order sample_clock sample_shop = (Py.Raise e, st1)
    /\ option_map Product.stock_quantity (Cart.products st1 !! 1) = Some 8.
Proof.
  destruct (order_reserve_keeps_earlier_reservations greedy_order
              [OrderItem.mk 2 1 2 10%Q] (OrderItem.mk 2 2 100 (55 # 10)%Q) []
              sample_clock sample_shop
              (snd (Order.reserve_stock_from 0 [OrderItem.mk 2 1 2 10%Q]
                      sample_clock sample_shop))
              eq_refl eq_refl)
    as [[e He] Hstock].
  - right. eexists. split; [reflexivity|]. right. cbn. lia.
  - exists e. eexists. split; [exact He|]. rewrite Hstock. reflexivity.
Defined.

(** An order cannot be created from a cart without lines. *)
Lemma empty_cart_gives_no_order :
  let st := Order.mk_db (sample_db None 10 []) [] in
  exists e,
    Order.create_from_cart sample_repr 7 1 (Py.Int 0) (Py.Int 0) None
      sample_clock st
    = (Py.Raise e, st).
Proof.
  intros st.
  apply (create_from_cart_rejects sample_repr 7 1 (Py.Int 0) (Py.Int 0) None
           sample_clock st).
  left. reflexivity.
Defined.

(** The order created from the sample cart: one line of 2 at 100,
    subtotal 200.00, tax 16.00, total 216.00, and 8 left of the product. *)
Lemma sample_cart_order :
  exists o st',
    Order.create_from_cart sample_repr 7 1 (Py.Int 0) (Py.Int 0) None
      sample_clock sample_session
    = (Py.Return o, st')
    /\ Order.items o = [OrderItem.mk 7 1 2 100%Q]
    /\ Order.subtotal_amount o = Py.Decimal (20000 # 100)%Q
    /\ Order.tax_amount o = Py.Decimal (1600 # 100)%Q
    /\ Order.total_amount o = Py.Decimal (21600 # 100)%Q
    /\ option_map Product.stock_quantity (Cart.products (Order.shop st') !! 1)
       = Some 8.
Proof.
  destruct (create_from_cart_places_order sample_repr 7 1 (Py.Int 0) (Py.Int 0)
              None sample_clock sample_session)
    as (o & st' & Hrun & _ & _ & Hitems & Hsub & Htax & Htotal & _ & _ & _ & _
        & Hstock & _).
  - unfold Cart.unique_cart_product. cbn. apply NoDup_singleton.
  - discriminate.
  - cbn. intros item [<-|[]]. cbn. split; [lia|].
    eexists. split; [reflexivity|]. split; [reflexivity|]. cbn. lia.
  - reflexivity.
  - reflexivity.
  - exists o, st'. split; [exact Hrun|]. split; [exact Hitems|].
    split; [rewrite Hsub; reflexivity|].
    split; [rewrite Htax; reflexivity|].
    split; [rewrite Htotal; reflexivity|].
    exact (Hstock (sample_line 2 100) (or_introl eq_refl)).
Defined.

(** The same cart with a shipping amount given as a [Decimal]: no order
    is returned and the stock is not touched. *)
Lemma sample_cart_order_with_decimal_shipping :
  exists msg o,
    Order.create_from_cart sample_repr 7 1 (Py.Decimal 5%Q) (Py.Int 0) None
      sample_clock sample_session
    = (Py.Raise (Py.TypeError msg),
       Order.mk_db (Order.shop sample_session) [o])
    /\ Order.total_amount o = Py.Int 0.
Proof.
  destruct (create_from_cart_decimal_amount_raises sample_repr 7 1
              (Py.Decimal 5%Q) (Py.Int 0) None sample_clock sample_session)
    as (msg & o & Hrun & _ & _ & _ & Htotal & _).
  - discriminate.
  - cbn. intros item [<-|[]]. cbn.
    eexists. split; [reflexivity|]. split; [reflexivity|]. cbn. lia.
  - left. reflexivity.
  - exists msg, o. split; [exact Hrun|exact Htotal].
Defined.

(* ===================================================================== *)
(** * Creating a user *)
(* ===================================================================== *)

Lemma update_first_app_new {A} (p : A -> bool) (f : A -> A) l x :
  List.find p l = None -> p x = true ->
  update_first p f (l ++ [x]) = l ++ [f x].
Proof.
  intros Hnone Hx. induction l as [|a l IH]; cbn in *.
  - now rewrite Hx.
  - destruct (p a); [discriminate|]. f_equal. auto.
Qed.

Section CreateUser.
Variable generate_password_hash : string -> string -> string.

Lemma find_eqb_none (col : User.t -> string) users x :
  List.find (fun u => String.eqb (col u) x) users = None
  <-> x ∉ map col users.
Proof.
  split.
  - apply (find_none_key_notin col). intros y. apply String.eqb_eq.
  - intros Hnotin.
    destruct (List.find (fun u => String.eqb (col u) x) users) as [v|] eqn:Hf;
      [|reflexivity].
    apply find_some in Hf as [Hin Heq]. apply String.eqb_eq in Heq.
    exfalso. apply Hnotin. apply list_elem_of_In, in_map_iff. eauto.
Qed.

(** The three ways [create_user] ends. *)
Lemma create_user_cases new_id salt un em pw act users :
  ((un ∈ map User.username users)
   /\ User.create_user generate_password_hash new_id salt un em pw act users
      = (Py.Raise (Py.ValueError ("Username '" +:+ un +:+ "' already exists")),
         users))
  \/ ((un ∉ map User.username users) /\ (em ∈ map User.email users)
      /\ User.create_user generate_password_hash new_id salt un em pw act users
         = (Py.Raise (Py.ValueError ("Email '" +:+ em +:+ "' already exists")),
            users))
  \/ ((un ∉ map User.username users) /\ (em ∉ map User.email users)
      /\ User.create_user generate_password_hash new_id salt un em pw act users
         = (let u := User.mk new_id un em (generate_password_hash salt pw)
                       act None in
            (Py.Return u, users ++ [u]))).
Proof.
  unfold User.create_user, User.query_by_username, User.query_by_email.
  unfold_monad.
  destruct (List.find (fun u => String.eqb (User.username u) un) users)
    as [v|] eqn:Hun.
  { left. split; [|reflexivity].
    apply find_some in Hun as [Hin Heq]. apply String.eqb_eq in Heq.
    apply list_elem_of_In, in_map_iff. eauto. }
  apply find_eqb_none in Hun.
  destruct (List.find (fun u => String.eqb (User.email u) em) users)
    as [v|] eqn:Hem.
  { right. left. split; [exact Hun|]. split; [|reflexivity].
    apply find_some in Hem as [Hin Heq]. apply String.eqb_eq in Heq.
    apply list_elem_of_In, in_map_iff. eauto. }
  apply find_eqb_none in Hem. right. right. auto.
Qed.

(** X15.  [create_user] keeps the usernames distinct and the emails
    distinct.  It returns exactly when neither the username nor the email
    is in the table, and then appends one row with the given username and
    email, the hash of the password and no last login; when it raises, the
    table is as before. *)
Theorem create_user_keeps_columns_unique new_id salt un em pw act users :
  NoDup (map User.username users) -> NoDup (map User.email users) ->
  let r := User.create_user generate_password_hash new_id salt un em pw act
             users in
  NoDup (map User.username (snd r)) /\ NoDup (map User.email (snd r))
  /\ (Py.is_return (fst r) = true
      <-> (un ∉ map User.username users) /\ (em ∉ map User.email users))
  /\ (Py.is_return (fst r) = false -> snd r = users)
  /\ (forall u, fst r = Py.Return u ->
        u = User.mk new_id un em (generate_password_hash salt pw) act None
        /\ snd r = users ++ [u]).
Proof.
  intros Hun Hem r. subst r.
  destruct (create_user_cases new_id salt un em pw act users)
    as [[Hin Hr]|[(Hfree & Hin & Hr)|(Hfree & Hfree' & Hr)]];
    rewrite Hr; cbn [fst snd Py.is_return].
  - repeat split; auto; try discriminate. intros [Hno _]. contradiction.
  - repeat split; auto; try discriminate. intros [_ Hno]. contradiction.
  - split; [now apply NoDup_map_app_new|].
    split; [now apply NoDup_map_app_new|].
    split; [tauto|]. split; [discriminate|].
    intros u [= <-]. split; reflexivity.
Qed.

Variable check_password_hash : string -> string -> bool.

(** X16.  A user that [create_user] has just created as active logs in with
    the username, or with the email, and the password, provided no older
    row has that identifier as its username or email; any password the
    stored hash does not verify is turned down.  The hashing is assumed to
    verify what it hashed. *)
Theorem create_user_then_authenticate new_id salt un em pw users u users'
    ident clk :
  (forall s p, check_password_hash (generate_password_hash s p) p = true) ->
  User.create_user generate_password_hash new_id salt un em pw true users
  = (Py.Return u, users') ->
  ident = un \/ ident = em ->
  (forall v, In v users -> User.matches ident v = false) ->
  User.authenticate check_password_hash users' ident pw clk
  = (Some (User.update_last_login clk u),
     users ++ [User.update_last_login clk u])
  /\ (forall pw',
        check_password_hash (User.password_hash u) pw' = false ->
        User.authenticate check_password_hash users' ident pw' clk
        = (None, users')).
Proof.
  intros Hhash Hrun Hident Hfree.
  destruct (create_user_cases new_id salt un em pw true users)
    as [[_ Hr]|[(_ & _ & Hr)|(_ & _ & Hr)]];
    rewrite Hr in Hrun; try discriminate.
  cbv zeta in Hrun. injection Hrun as Hu Husers.
  rewrite Hu in Husers. subst users'. symmetry in Hu.
  assert (Hm : User.matches ident u = true).
  { subst u. unfold User.matches. cbn [User.username User.email].
    destruct Hident as [->| ->]; rewrite String.eqb_refl;
      [reflexivity|apply orb_true_r]. }
  assert (Hnone : List.find (User.matches ident) users = None).
  { destruct (List.find (User.matches ident) users) as [v|] eqn:Hf;
      [|reflexivity].
    apply find_some in Hf as [Hin Hv]. rewrite (Hfree v Hin) in Hv.
    discriminate. }
  assert (Hq : User.query_first (users ++ [u]) ident = Some u).
  { apply query_first_only; [apply in_app_iff; right; now left|exact Hm|].
    intros v Hin Hv. apply in_app_iff in Hin as [Hin|[<-|[]]]; [|reflexivity].
    rewrite (Hfree v Hin) in Hv. discriminate. }
  assert (Hnew : List.find (User.same_row u) users = None).
  { destruct (List.find (User.same_row u) users) as [v|] eqn:Hf;
      [|reflexivity].
    apply find_some in Hf as [Hin Hv]. apply same_row_iff in Hv. subst v.
    rewrite (Hfree u Hin) in Hm. discriminate. }
  split.
  - rewrite (authenticate_accepts check_password_hash _ _ _ _ _ Hq).
    + f_equal.
      exact (update_first_app_new _ (fun _ => User.update_last_login clk u)
               _ _ Hnew (proj2 (same_row_iff u u) eq_refl)).
    + subst u. unfold User.check_password. cbn [User.password_hash].
      apply Hhash.
    + subst u. reflexivity.
  - intros pw' Hbad. apply (authenticate_rejects check_password_hash). right. exists u.
    split; [exact Hq|]. left. exact Hbad.
Qed.

End CreateUser.

(** Dave joins Alice and Bob, and logs in with his email address. *)
Lemma dave_signs_up :
  let r := User.create_user toy_generate_password_hash 3 "salt"
             "dave" "dave@example.com" "dave-pw" true [alice; bob] in
  Py.is_return (fst r) = true
  /\ NoDup (map User.username (snd r)) /\ NoDup (map User.email (snd r)).
Proof.
  intros r. subst r.
  destruct (create_user_keeps_columns_unique toy_generate_password_hash
              3 "salt" "dave" "dave@example.com" "dave-pw" true [alice; bob])
    as (Hun & Hem & _).
  - apply NoDup_cons. split; [|apply NoDup_singleton].
    intros Hin. apply list_elem_of_singleton in Hin. discriminate Hin.
  - apply NoDup_cons. split; [|apply NoDup_singleton].
    intros Hin. apply list_elem_of_singleton in Hin. discriminate Hin.
  - split; [reflexivity|]. split; [exact Hun|exact Hem].
Defined.

Lemma dave_logs_in :
  let dave := User.mk 3 "dave" "dave@example.com" "hash:dave-pw" true None in
  fst (User.authenticate toy_check_password_hash [alice; bob; dave]
         "dave@example.com" "dave-pw" sample_clock)
  = Some (User.update_last_login sample_clock dave).
Proof.
  intros dave.
  destruct (create_user_then_authenticate toy_generate_password_hash
              toy_check_password_hash 3 "salt" "dave" "dave@example.com"
              "dave-pw" [alice; bob] dave [alice; bob; dave]
              "dave@example.com" sample_clock) as [Hlogin _].
  - intros s p. apply String.eqb_refl.
  - reflexivity.
  - right. reflexivity.
  - intros v [<-|[<-|[]]]; reflexivity.
  - rewrite Hlogin. reflexivity.
Defined.

(* ===================================================================== *)
(** * Merging the guest cart at login *)
(* ===================================================================== *)

Section MergeCarts.
Context {num : Type} `{!Py.PyNum num}.
Implicit Types (st : Cart.db num) (uc guest pid q : Z) (clk : clock).

(** [add_item] raises nothing but [ValueError], and then changes nothing. *)
Lemma add_item_raises_value_error uc pid q clk st e st' :
  Cart.add_item uc pid q clk st = (Py.Raise e, st') ->
  st' = st /\ exists msg, e = Py.ValueError msg.
Proof.
  intros Hrun.
  destruct (add_item_cases uc pid q clk st)
    as [[msg Hr]|[(it & product & _ & _ & _ & Hr)|(product & _ & _ & _ & Hr)]];
    rewrite Hr in Hrun; [|discriminate|discriminate].
  injection Hrun as <- <-. eauto.
Qed.

(** [add_item] writes to the row of its own cart only. *)
Lemma add_item_other_rows uc pid q clk st other :
  other <> uc ->
  Cart.carts (snd (Cart.add_item uc pid q clk st)) !! other
  = Cart.carts st !! other.
Proof.
  intros Hne.
  destruct (add_item_cases uc pid q clk st)
    as [[msg Hr]|[(it & product & _ & _ & _ & Hr)|(product & _ & _ & _ & Hr)]];
    rewrite Hr; cbn [snd Cart.carts Cart.touch Cart.set_cart_items];
    [reflexivity| |]; apply lookup_alter_ne; congruence.
Qed.

(** [add_item] leaves the cart's lines for the other products alone. *)
Lemma add_item_other_product uc pid q clk st pid' :
  pid' <> pid ->
  Cart.get_item_by_product uc pid' (snd (Cart.add_item uc pid q clk st))
  = Cart.get_item_by_product uc pid' st.
Proof.
  intros Hne. rewrite !get_item_by_product_find.
  assert (Hsep : forall x : CartItem.t num,
             Cart.is_line uc pid x = true -> Cart.is_line uc pid' x = false).
  { intros x Hx. apply is_line_key in Hx. injection Hx as _ Hpid.
    unfold Cart.is_line. apply andb_false_iff. right. apply Z.eqb_neq.
    congruence. }
  destruct (add_item_cases uc pid q clk st)
    as [[msg Hr]|[(it & product & Hit & _ & _ & Hr)|(product & _ & _ & _ & Hr)]];
    rewrite Hr; cbn [snd Cart.cart_items Cart.touch Cart.set_cart_items].
  - reflexivity.
  - apply find_other_update_first. intros x Hx. split; [now apply Hsep|].
    apply get_item_by_product_is_line in Hit as [Hline _].
    apply Hsep in Hline. exact Hline.
  - apply find_insert_row_other. apply Hsep. unfold Cart.is_line. cbn.
    now rewrite !Z.eqb_refl.
Qed.

Lemma validate_items_products st st' (l : list (CartItem.t num)) :
  Cart.products st' = Cart.products st ->
  Cart.validate_items st' l = Cart.validate_items st l.
Proof.
  intros Hp. induction l as [|item l IH]; [reflexivity|].
  cbn [Cart.validate_items]. unfold Cart.validate_item.
  now rewrite Hp, IH.
Qed.

(** The loop of the merge: it ends without an exception, whatever the
    lines are. *)
Lemma merge_items_spec uc (l : list (CartItem.t num)) :
  forall clks m st,
    Cart.unique_cart_product st ->
    exists m' st',
      auth.merge_items uc l clks m st = (Py.Return m', st')
      /\ Cart.unique_cart_product st'
      /\ Cart.products st' = Cart.products st
      /\ (m <= m' <= m + length l)%nat
      /\ (forall other, other <> uc ->
            Cart.items other st' = Cart.items other st
            /\ Cart.carts st' !! other = Cart.carts st !! other)
      /\ (Forall (line_ok st) (Cart.items uc st) ->
          Forall (line_ok st') (Cart.items uc st'))
      /\ (m' = (m + length l)%nat ->
          Cart.get_total_items uc st'
          = Cart.get_total_items uc st
            + fold_left Z.add (map CartItem.quantity l) 0).
Proof.
  induction l as [|item rest IH]; intros clks m st Hu.
  - exists m, st. cbn [auth.merge_items length map fold_left].
    repeat split; auto; lia.
  - cbn [auth.merge_items].
    pose proof (add_item_unique uc (CartItem.product_id item)
                  (CartItem.quantity item) (clks 0%nat) st Hu) as Hu1.
    pose proof (add_item_other_rows uc (CartItem.product_id item)
                  (CartItem.quantity item) (clks 0%nat) st) as Hrows.
    destruct (Cart.add_item uc (CartItem.product_id item)
                (CartItem.quantity item) (clks 0%nat) st)
      as [[it'|e] st1] eqn:Hrun; cbn [snd] in Hu1, Hrows.
    + destruct (IH (fun k => clks (S k)) (S m) st1 Hu1)
        as (m' & st' & Hloop & Hu' & Hp' & Hm' & Hoth' & Hok' & Htot').
      destruct (add_item_total_items _ _ _ _ _ _ _ Hrun) as [Htotal Hother].
      pose proof (add_item_return _ _ _ _ _ _ _ Hrun) as (_ & _ & Hp1 & _).
      exists m', st'. split; [exact Hloop|]. split; [exact Hu'|].
      split; [congruence|]. split; [cbn [length]; lia|].
      split; [|split].
      * intros other Hne. destruct (Hoth' other Hne) as [Hi Hc].
        split; [rewrite Hi; now apply Hother|rewrite Hc; now apply Hrows].
      * intros Hok. apply Hok'.
        exact (add_item_lines_ok _ _ _ _ _ _ _ Hok Hrun).
      * intros Hall. rewrite sum_cons, Htot', Htotal; [lia|].
        cbn [length] in Hall. lia.
    + destruct (add_item_raises_value_error _ _ _ _ _ _ _ Hrun)
        as [-> [msg ->]].
      destruct (IH (fun k => clks (S k)) m st Hu)
        as (m' & st' & Hloop & Hu' & Hp' & Hm' & Hoth' & Hok' & Htot').
      exists m', st'. split; [exact Hloop|]. split; [exact Hu'|].
      split; [exact Hp'|]. split; [cbn [length]; lia|].
      split; [exact Hoth'|]. split; [exact Hok'|].
      intros Hall. cbn [length] in Hall. lia.
Qed.

(** The loop of the merge when every line fits: each one is added. *)
Lemma merge_items_all uc (l : list (CartItem.t num)) :
  forall clks m st,
    NoDup (map CartItem.product_id l) ->
    (forall item, In item l ->
       exists product,
         Cart.query_active_product (CartItem.product_id item) st = Some product
         /\ Cart.quantity_or_zero
              (Cart.get_item_by_product uc (CartItem.product_id item) st)
            + CartItem.quantity item <= Product.stock_quantity product) ->
    exists st',
      auth.merge_items uc l clks m st = (Py.Return (m + length l)%nat, st')
      /\ Cart.products st' = Cart.products st
      /\ (forall item, In item l ->
            exists line,
              Cart.get_item_by_product uc (CartItem.product_id item) st'
              = Some line
              /\ CartItem.quantity line
                 = Cart.quantity_or_zero
                     (Cart.get_item_by_product uc (CartItem.product_id item) st)
                   + CartItem.quantity item)
      /\ (forall pid, ~ In pid (map CartItem.product_id l) ->
            Cart.get_item_by_product uc pid st'
            = Cart.get_item_by_product uc pid st).
Proof.
  induction l as [|item rest IH]; intros clks m st Hnd Hfit.
  - exists st. cbn [auth.merge_items length]. rewrite Nat.add_0_r.
    repeat split; auto. intros item [].
  - cbn [auth.merge_items]. cbn [map] in Hnd.
    apply NoDup_cons in Hnd as [Hnotin Hnd].
    rewrite list_elem_of_In in Hnotin.
    destruct (Hfit item (or_introl eq_refl)) as (product & Hprod & Hq).
    destruct (add_item_succeeds uc (CartItem.product_id item)
                (CartItem.quantity item) (clks 0%nat) st product Hprod Hq)
      as (it' & st1 & Hrun).
    pose proof (add_item_other_product uc (CartItem.product_id item)
                  (CartItem.quantity item) (clks 0%nat) st) as Hsame.
    rewrite Hrun in *. cbn [snd] in Hsame.
    pose proof (add_item_return _ _ _ _ _ _ _ Hrun) as (Hline & Hqty & Hp1 & _).
    assert (Hother : forall it, In it rest ->
              CartItem.product_id it <> CartItem.product_id item).
    { intros it Hin Heq. apply Hnotin. rewrite <- Heq. now apply in_map. }
    destruct (IH (fun k => clks (S k)) (S m) st1 Hnd)
      as (st' & Hloop & Hp' & Hlines & Hrest).
    { intros it Hin. destruct (Hfit it (or_intror Hin)) as (p & Hp & Hle).
      exists p. rewrite (Hsame _ (Hother it Hin)). split; [|exact Hle].
      unfold Cart.query_active_product in *. now rewrite Hp1. }
    exists st'. split.
    { rewrite Hloop. do 2 f_equal. cbn [length]. lia. }
    split; [congruence|]. split.
    + intros it [<-|Hin].
      * exists it'. rewrite (Hrest _ Hnotin). split; [exact Hline|lia].
      * destruct (Hlines it Hin) as (line & Hl & Hlq). exists line.
        split; [exact Hl|]. now rewrite Hlq, (Hsame _ (Hother it Hin)).
    + intros pid Hpid. cbn [map In] in Hpid.
      rewrite Hrest by tauto. apply Hsame. intros ->. tauto.
Qed.

Lemma items_delete_cart guest st other :
  other <> guest ->
  Cart.items other (auth.delete_cart guest st) = Cart.items other st.
Proof.
  intros Hne. unfold Cart.items, auth.delete_cart. cbn [Cart.cart_items].
  apply filter_filter_other. intros it Hit.
  apply Z.eqb_eq in Hit. apply negb_true_iff, Z.eqb_neq. congruence.
Qed.

Lemma get_item_by_product_items uc pid st st' :
  Cart.items uc st' = Cart.items uc st ->
  Cart.get_item_by_product uc pid st' = Cart.get_item_by_product uc pid st.
Proof. unfold Cart.get_item_by_product. now intros ->. Qed.

(** X17.  Merging the guest cart at login raises nothing.  The rows of
    [cart_items] stay unique per cart and product and the catalogue is not
    written.  Without a guest cart, or with an empty one, nothing changes.
    Otherwise the guest cart and its lines are gone afterwards; at most
    one item per guest line is counted as merged, and when all are, the
    user's cart has gained the guest cart's number of items.  The lines of
    every third cart are untouched, and a user cart without a stock issue
    has none afterwards. *)
Theorem merge_guest_cart_effect guest_cart user_id user_cart new_cart_id
    now clks st :
  let uc := auth.target_cart user_cart new_cart_id in
  Cart.unique_cart_product st ->
  guest_cart <> Some uc ->
  let r := auth.merge_guest_cart_with_user_cart guest_cart user_id user_cart
             new_cart_id now clks st in
  (exists n, fst r = Py.Return n)
  /\ Cart.unique_cart_product (snd r)
  /\ Cart.products (snd r) = Cart.products st
  /\ (fst r = Py.Return None -> snd r = st)
  /\ (forall guest, guest_cart = Some guest ->
        Cart.is_empty guest st = false ->
        exists merged,
          fst r = Py.Return (Some merged)
          /\ Cart.items guest (snd r) = []
          /\ Cart.carts (snd r) !! guest = None
          /\ (merged <= Cart.get_item_count guest st)%nat
          /\ (merged = Cart.get_item_count guest st ->
              Cart.get_total_items uc (snd r)
              = Cart.get_total_items uc st + Cart.get_total_items guest st))
  /\ (forall other, other <> uc -> guest_cart <> Some other ->
        Cart.items other (snd r) = Cart.items other st)
  /\ (fst (Cart.validate_stock_availability uc st) = Py.Return [] ->
      fst (Cart.validate_stock_availability uc (snd r)) = Py.Return []).
Proof.
  intros uc Hu Hne r. subst r.
  unfold auth.merge_guest_cart_with_user_cart.
  destruct guest_cart as [guest|];
    [|cbn [fst snd]; repeat split; eauto; discriminate].
  destruct (Cart.is_empty guest st) eqn:Hempty;
    [cbn [fst snd]; repeat split; eauto; intros g [= <-]; congruence|].
  fold uc.
  set (st0 := match user_cart with
              | Some _ => st
              | None => auth.create_cart new_cart_id user_id now st
              end).
  assert (Hrows : Cart.cart_items st0 = Cart.cart_items st)
    by (subst st0; destruct user_cart; reflexivity).
  assert (Hprod : Cart.products st0 = Cart.products st)
    by (subst st0; destruct user_cart; reflexivity).
  assert (Hitems : forall c, Cart.items c st0 = Cart.items c st)
    by (intros c; unfold Cart.items; now rewrite Hrows).
  assert (Hu0 : Cart.unique_cart_product st0)
    by (unfold Cart.unique_cart_product; now rewrite Hrows).
  assert (Hguest : guest <> uc) by congruence.
  destruct (merge_items_spec uc (Cart.items guest st0) clks 0%nat st0 Hu0)
    as (merged & st1 & Hloop & Hu1 & Hp1 & Hm & Hoth & Hok & Htot).
  rewrite Hloop. cbn [fst snd].
  assert (Huc : Cart.items uc (auth.delete_cart guest st1) = Cart.items uc st1)
    by (apply items_delete_cart; congruence).
  split; [eauto|]. split.
  { unfold Cart.unique_cart_product, auth.delete_cart. cbn [Cart.cart_items].
    now apply NoDup_map_filter. }
  split; [cbn [auth.delete_cart Cart.products]; congruence|].
  split; [discriminate|]. split; [|split].
  - intros g [= <-] _. exists merged. split; [reflexivity|]. split.
    { unfold Cart.items, auth.delete_cart. cbn [Cart.cart_items].
      apply (filter_filter_none (fun it => CartItem.cart_id it =? guest)). }
    split; [cbn [auth.delete_cart Cart.carts]; apply lookup_delete_eq|].
    unfold Cart.get_item_count. rewrite <- (Hitems guest).
    split; [lia|]. intros Hall.
    unfold Cart.get_total_items at 1. rewrite Huc.
    fold (Cart.get_total_items uc st1). rewrite Htot by lia.
    unfold Cart.get_total_items. now rewrite !Hitems.
  - intros other Hother Hng.
    rewrite items_delete_cart by congruence.
    destruct (Hoth other Hother) as [-> _]. apply Hitems.
  - unfold Cart.validate_stock_availability. cbn [fst].
    rewrite Huc.
    rewrite (validate_items_products st1 (auth.delete_cart guest st1))
      by reflexivity.
    rewrite !validate_items_nil. intros Hvalid. apply Hok.
    rewrite Hitems. revert Hvalid. apply List.Forall_impl.
    intros item (product & Hp & Hrest). exists product.
    now rewrite Hprod.
Qed.

(** X18.  When every line of the guest cart is of an active product whose
    stock covers the line together with what the user's cart already
    holds of it, every line is merged: afterwards the user's cart has,
    for each product of the guest cart, one line with both quantities
    added, and its lines for the other products are as before. *)
Theorem merge_guest_cart_adds_quantities guest user_id user_cart new_cart_id
    now clks st :
  let uc := auth.target_cart user_cart new_cart_id in
  Cart.unique_cart_product st ->
  guest <> uc ->
  Cart.is_empty guest st = false ->
  (forall item, In item (Cart.items guest st) ->
     exists product,
       Cart.query_active_product (CartItem.product_id item) st = Some product
       /\ Cart.quantity_or_zero
            (Cart.get_item_by_product uc (CartItem.product_id item) st)
          + CartItem.quantity item <= Product.stock_quantity product) ->
  let r := auth.merge_guest_cart_with_user_cart (Some guest) user_id user_cart
             new_cart_id now clks st in
  fst r = Py.Return (Some (Cart.get_item_count guest st))
  /\ (forall item, In item (Cart.items guest st) ->
        exists line,
          Cart.get_item_by_product uc (CartItem.product_id item) (snd r)
          = Some line
          /\ CartItem.quantity line
             = Cart.quantity_or_zero
                 (Cart.get_item_by_product uc (CartItem.product_id item) st)
               + CartItem.quantity item)
  /\ (forall pid,
        (forall item, In item (Cart.items guest st) ->
           CartItem.product_id item <> pid) ->
        Cart.get_item_by_product uc pid (snd r)
        = Cart.get_item_by_product uc pid st).
Proof.
  intros uc Hu Hne Hempty Hfit r. subst r.
  unfold auth.merge_guest_cart_with_user_cart. rewrite Hempty. fold uc.
  set (st0 := match user_cart with
              | Some _ => st
              | None => auth.create_cart new_cart_id user_id now st
              end).
  assert (Hrows : Cart.cart_items st0 = Cart.cart_items st)
    by (subst st0; destruct user_cart; reflexivity).
  assert (Hprod : Cart.products st0 = Cart.products st)
    by (subst st0; destruct user_cart; reflexivity).
  assert (Hitems : forall c, Cart.items c st0 = Cart.items c st)
    by (intros c; unfold Cart.items; now rewrite Hrows).
  assert (Hget : forall pid, Cart.get_item_by_product uc pid st0
                             = Cart.get_item_by_product uc pid st)
    by (intros pid; apply get_item_by_product_items, Hitems).
  assert (Hnd : NoDup (map CartItem.product_id (Cart.items guest st))).
  { unfold Cart.unique_cart_product in Hu.
    apply (NoDup_map_filter Cart.key
             (fun it => CartItem.cart_id it =? guest)) in Hu.
    fold (Cart.items guest st) in Hu.
    apply (NoDup_product_ids guest _ Hu). intros it Hin.
    unfold Cart.items in Hin. apply filter_In in Hin as [_ Hcart].
    now apply Z.eqb_eq. }
  destruct (merge_items_all uc (Cart.items guest st0) clks 0%nat st0)
    as (st1 & Hloop & Hp1 & Hlines & Hrest).
  { now rewrite Hitems. }
  { intros item Hin. rewrite Hitems in Hin.
    destruct (Hfit item Hin) as (product & Hp & Hq). exists product.
    rewrite Hget. split; [|exact Hq].
    unfold Cart.query_active_product in *. now rewrite Hprod. }
  rewrite Hloop. cbn [fst snd].
  assert (Hdel : forall pid,
             Cart.get_item_by_product uc pid (auth.delete_cart guest st1)
             = Cart.get_item_by_product uc pid st1).
  { intros pid. apply get_item_by_product_items, items_delete_cart.
    congruence. }
  rewrite Hitems in *. split; [reflexivity|]. split.
  - intros item Hin. destruct (Hlines item Hin) as (line & Hl & Hq).
    exists line. rewrite Hdel, <- Hget. auto.
  - intros pid Hpid. rewrite Hdel, <- Hget. apply Hrest.
    intros Hin. apply in_map_iff in Hin as (item & Heq & Hin).
    exact (Hpid item Hin Heq).
Qed.

End MergeCarts.

(** The guest cart of the sample session is merged into the cart of
    user 1: both lines are counted, and the rows stay unique. *)
Lemma sample_login_merges_guest_cart :
  let r := auth.merge_guest_cart_with_user_cart (Some 2) 1 (Some 1) 3 epoch
             (fun _ => sample_clock) sample_login_db in
  fst r = Py.Return (Some 2%nat)
  /\ Cart.unique_cart_product (snd r)
  /\ Cart.items 2 (snd r) = [].
Proof.
  intros r. subst r.
  destruct (merge_guest_cart_effect (Some 2) 1 (Some 1) 3 epoch
              (fun _ => sample_clock) sample_login_db)
    as (_ & Hunique & _).
  - apply (bool_decide_unpack _). vm_compute. exact I.
  - discriminate.
  - split; [reflexivity|]. split; [exact Hunique|reflexivity].
Defined.

(** After the merge the cart of user 1 holds 5 of product 1. *)
Lemma sample_login_adds_quantities :
  let r := auth.merge_guest_cart_with_user_cart (Some 2) 1 (Some 1) 3 epoch
             (fun _ => sample_clock) sample_login_db in
  exists line,
    Cart.get_item_by_product 1 1 (snd r) = Some line
    /\ CartItem.quantity line = 5.
Proof.
  intros r. subst r.
  destruct (merge_guest_cart_adds_quantities 2 1 (Some 1) 3 epoch
              (fun _ => sample_clock) sample_login_db)
    as (_ & Hlines & _).
  - apply (bool_decide_unpack _). vm_compute. exact I.
  - discriminate.
  - reflexivity.
  - change (Cart.items 2 sample_login_db) with [guest_line_1; guest_line_2].
    intros item [<-|[<-|[]]]; eexists; (split; [reflexivity|]); cbn; lia.
  - destruct (Hlines guest_line_1) as (line & Hline & Hq).
    + change (Cart.items 2 sample_login_db) with [guest_line_1; guest_line_2].
      left. reflexivity.
    + exists line. split; [exact Hline|]. rewrite Hq. reflexivity.
Defined.

(* ===================================================================== *)
(** * The order of the rows of a cart *)
(* ===================================================================== *)

Section Ordered.
Context {A : Type}.
Implicit Types (ltb : A -> A -> bool) (l : list A).







End Ordered.

Section IndexOrder.
Context {num : Type} `{!Py.PyNum num}.
Implicit Types (st : Cart.db num) (self pid q : Z) (clk : clock)
  (a b c : CartItem.t num).










End IndexOrder.

